(** * dask-examples: the notebooks, the CI workflows and the start script

    The repository holds example notebooks for Dask, two GitHub workflows
    and the shell script [binder/start].  This development embeds

    - the code cells of the notebooks as Python syntax trees ([PyAst],
      [Notebooks]), with the checks on them that the properties below
      need (control flow, coroutines, imports, configuration);
    - the functions of the resilience notebook ([Resilience]) and the
      parameter grid of the machine-learning overview ([GridSearch]);
    - the workflows and the pytest command line they run ([CI]);
    - the start script with the sed command it runs ([Sed], [Start],
      [StartValues]);
    - the loops of the evolving-workflows notebook and of the
      embarrassingly-parallel notebook ([EvolvingWorkflows],
      [EmbarrassinglyParallel]) and the file names of the data-access
      notebook ([DataAccess]);

    and proves the properties after the definitions. *)

From stdpp Require Import gmap strings list pretty.
From Stdlib Require Import ZArith Ascii PrimFloat.

Set Warnings "-register-all".
Set Default Proof Using "Type".

(** * Python syntax, as far as the notebooks use it *)

Module PyAst.

Inductive constant :=
| CStr (s : string)
| CInt (n : Z)
| CFloat (mantissa exponent : Z) (* the literal [mantissa * 10 ^ exponent] *)
| CBool (b : bool).

Inductive operator := OAdd | OSub | OMult | ODiv | OFloorDiv | OMod | OBitAnd.
Inductive unaryop := UNot | UUSub.
Inductive cmpop := CmpEq | CmpGt | CmpNotIn.

(** Expressions.  Every comparison of the notebooks has two operands and
    every comprehension one [for] clause. *)
Inductive expr :=
| EName (id : string)
| EConst (c : constant)
| EAttr (value : expr) (attr : string)
| ECall (func : expr) (args : list expr) (keywords : list (string * expr))
| ESubscript (value : expr) (slice : expr)
| ESlice (lower upper step : option expr)
| EStarred (value : expr)
| EBinOp (left : expr) (op : operator) (right : expr)
| EUnaryOp (op : unaryop) (operand : expr)
| ECompare (left : expr) (op : cmpop) (right : expr)
| EList (elts : list expr)
| ETuple (elts : list expr)
| EDict (items : list (expr * expr))
| ELambda (params : list string) (body : expr)
| EListComp (elt target iter : expr) (ifs : list expr)
| EAwait (value : expr)
| EJoinedStr (values : list expr)
| EFormattedValue (value : expr).

(** [name] or [name as asname] in an import. *)
Definition alias : Type := string * option string.

(** Statements, with the forms IPython adds: [%time statement],
    [%name line], [!command], and [expression?] or [expression??]. *)
Inductive stmt :=
| SImport (names : list alias)
| SImportFrom (module : string) (names : list alias)
| SAssign (targets : list expr) (value : expr)
| SExpr (value : expr)
| SReturn (value : option expr)
| SFunctionDef (name : string) (params : list (string * option expr))
    (returns : option expr) (body : list stmt)
| SAsyncFunctionDef (name : string) (params : list (string * option expr))
    (returns : option expr) (body : list stmt)
| SFor (target iter : expr) (body : list stmt)
| SWhile (test : expr) (body : list stmt)
| SIf (test : expr) (body orelse : list stmt)
| SWith (items : list (expr * option expr)) (body : list stmt)
| STimed (s : stmt)
| SLineMagic (name line : string)
| SShell (command : string)
| SHelp (e : expr) (level : nat).

(** A code cell: the cell magic of its first line ([%%time]), if any, and
    its statements. *)
Inductive cell := Code (cell_magic : option string) (body : list stmt).

Definition nl : string := String (ascii_of_nat 10) "".
Definition tab : string := String (ascii_of_nat 9) "".

(** ** Traversals *)

(** The sub-expressions of [e] satisfying [p], outermost first, in source
    order. *)
Fixpoint expr_collect (p : expr → bool) (e : expr) : list expr :=
  (if p e then [e] else []) ++
  match e with
  | EName _ | EConst _ => []
  | EAttr v _ | EStarred v | EUnaryOp _ v | EAwait v | EFormattedValue v => expr_collect p v
  | ECall f args kws =>
      expr_collect p f ++ flat_map (expr_collect p) args
      ++ flat_map (λ kw, expr_collect p kw.2) kws
  | ESubscript v i => expr_collect p v ++ expr_collect p i
  | ESlice l u s =>
      from_option (expr_collect p) [] l ++ from_option (expr_collect p) [] u
      ++ from_option (expr_collect p) [] s
  | EBinOp l _ r | ECompare l _ r => expr_collect p l ++ expr_collect p r
  | EList es | ETuple es | EJoinedStr es => flat_map (expr_collect p) es
  | EDict kvs => flat_map (λ kv, expr_collect p kv.1 ++ expr_collect p kv.2) kvs
  | ELambda _ b => expr_collect p b
  | EListComp elt tgt it ifs =>
      expr_collect p elt ++ expr_collect p tgt ++ expr_collect p it
      ++ flat_map (expr_collect p) ifs
  end.

(** The expressions a statement holds directly (not those of nested
    statements). *)
Definition stmt_own_exprs (s : stmt) : list expr :=
  match s with
  | SImport _ | SImportFrom _ _ | SLineMagic _ _ | SShell _ | STimed _ => []
  | SAssign ts v => ts ++ [v]
  | SExpr v => [v]
  | SReturn v => option_list v
  | SFunctionDef _ ps r _ | SAsyncFunctionDef _ ps r _ =>
      omap snd ps ++ option_list r
  | SFor t i _ => [t; i]
  | SWhile t _ => [t]
  | SIf t _ _ => [t]
  | SWith items _ => flat_map (λ it, it.1 :: option_list it.2) items
  | SHelp e _ => [e]
  end.

(** [stmt_collect p s]: [s] and the statements nested in it that satisfy
    [p], in source order. *)
Fixpoint stmt_collect (p : stmt → bool) (s : stmt) : list stmt :=
  (if p s then [s] else []) ++
  match s with
  | SFunctionDef _ _ _ b | SAsyncFunctionDef _ _ _ b | SFor _ _ b | SWhile _ b
  | SWith _ b => flat_map (stmt_collect p) b
  | SIf _ b1 b2 => flat_map (stmt_collect p) b1 ++ flat_map (stmt_collect p) b2
  | STimed s' => stmt_collect p s'
  | _ => []
  end.

(** The statements directly inside [s]. *)
Definition stmt_children (s : stmt) : list stmt :=
  match s with
  | SFunctionDef _ _ _ b | SAsyncFunctionDef _ _ _ b | SFor _ _ b | SWhile _ b
  | SWith _ b => b
  | SIf _ b1 b2 => b1 ++ b2
  | STimed s' => [s']
  | _ => []
  end.

(** Every statement of [s], [s] included. *)
Definition stmt_all (s : stmt) : list stmt := stmt_collect (λ _, true) s.

(** Every expression occurring in [s] at any depth that satisfies [p]. *)
Definition stmt_exprs (p : expr → bool) (s : stmt) : list expr :=
  flat_map (λ s', flat_map (expr_collect p) (stmt_own_exprs s')) (stmt_all s).

End PyAst.


(** * The notebooks *)

Module Notebooks.
Import PyAst.
Local Open Scope Z_scope.

(** Code cells of src/resilience.ipynb. *)
Definition resilience_cells : list cell :=
[
 (* lines 29-31 *)
 Code None
   [SImport [("dask", None)];
    SExpr
      (ECall
        (EAttr (EAttr (EName "dask") "config") "set")
        [EDict
           [(EConst (CStr "distributed.scheduler.allowed-failures"), EConst (CInt 100))]]
        [])];
 (* lines 47-51 *)
 Code None
   [SImportFrom "dask.distributed" [("Client", None); ("LocalCluster", None)];
    SImportFrom "dask" [("bag", Some "db")];
    SImport [("os", None)];
    SImport [("random", None)];
    SImportFrom "time" [("sleep", None)]];
 (* lines 67-69 *)
 Code None
   [SAssign
      [EName "cluster"]
      (ECall
        (EName "LocalCluster")
        []
        [("threads_per_worker", EConst (CInt 1));
         ("n_workers", EConst (CInt 4));
         ("memory_limit", EConst (CFloat 400 6))]);
    SAssign [EName "client"] (ECall (EName "Client") [EName "cluster"] []);
    SExpr (EName "client")];
 (* lines 87-89 *)
 Code None
   [SFunctionDef "multiply_by_two"
      [("x", None)]
      None
      [SExpr (ECall (EName "sleep") [EConst (CFloat 2 (-2))] []);
       SReturn (Some (EBinOp (EConst (CInt 2)) OMult (EName "x")))]];
 (* lines 98-104 *)
 Code None
   [SAssign [EName "N"] (EConst (CInt 400));
    SAssign
      [EName "x"]
      (ECall
        (EAttr (EName "db") "from_sequence")
        [ECall (EName "range") [EName "N"] []]
        [("npartitions", EBinOp (EName "N") OFloorDiv (EConst (CInt 2)))]);
    SAssign [EName "mults"] (ECall (EAttr (EName "x") "map") [EName "multiply_by_two"] []);
    SAssign [EName "summed"] (ECall (EAttr (EName "mults") "sum") [] [])];
 (* lines 127-128 *)
 Code None
   [SAssign
      [EName "all_current_workers"]
      (EListComp
        (EAttr (EName "w") "pid")
        (EName "w")
        (ECall
          (EAttr (EAttr (EAttr (EName "cluster") "scheduler") "workers") "values")
          []
          [])
        []);
    SAssign
      [EName "non_preemptible_workers"]
      (ESubscript (EName "all_current_workers") (ESlice None (Some (EConst (CInt 2))) None))];
 (* lines 137-142 *)
 Code None
   [SFunctionDef "kill_a_worker"
      []
      None
      [SAssign
         [EName "preemptible_workers"]
         (EListComp
           (EAttr (EName "w") "pid")
           (EName "w")
           (ECall
             (EAttr (EAttr (EAttr (EName "cluster") "scheduler") "workers") "values")
             []
             [])
           [ECompare (EAttr (EName "w") "pid") CmpNotIn (EName "non_preemptible_workers")]);
       SIf
         (EName "preemptible_workers")
         [SExpr
            (ECall
              (EAttr (EName "os") "kill")
              [ECall (EAttr (EName "random") "choice") [EName "preemptible_workers"] [];
               EConst (CInt 15)]
              [])]
         []]];
 (* lines 158-162 *)
 Code None
   [SAssign
      [EName "summed"]
      (ECall (EAttr (EName "client") "compute") [EName "summed"] []);
    SWhile
      (EUnaryOp UNot (ECall (EAttr (EName "summed") "done") [] []))
      [SExpr (ECall (EName "kill_a_worker") [] []);
       SExpr (ECall (EName "sleep") [EConst (CFloat 30 (-1))] [])]];
 (* line 178 *)
 Code None
   [SExpr
      (ECall
        (EName "print")
        [EJoinedStr
           [EConst (CStr "`sum(range(");
            EFormattedValue (EName "N");
            (EConst (CStr "))` on cluster: "));
            EFormattedValue (ECall (EAttr (EName "summed") "result") [] []);
            EConst (CStr (tab +:+ "(should be "));
            EFormattedValue
              (EBinOp (EName "N") OMult (EBinOp (EName "N") OSub (EConst (CInt 1))));
            (EConst (CStr ")"))]]
        [])]
].

(** Code cells of src/resilience.ipynb, the notebook after the document separator. *)
Definition survey_2020_cells : list cell :=
[
 (* lines 234-261 *)
 Code None
   [SLineMagic "matplotlib" "inline";
    SImport [("pandas", Some "pd")];
    SImport [("seaborn", Some "sns")];
    SImport [("matplotlib.pyplot", Some "plt")];
    SImport [("textwrap", None)];
    SImport [("re", None)];
    SAssign
      [EName "df2019"]
      (ECall
        (EAttr
          (ECall
            (EAttr (EName "pd") "read_csv")
            [EConst (CStr "data/2019-user-survey-results.csv.gz")]
            [("parse_dates", EList [EConst (CStr "Timestamp")])])
          "replace")
        [EDict
           [(EConst (CStr "How often do you use Dask?"),
             EConst (CStr "I use Dask all the time, even when I sleep"))];
         EConst (CStr "Every day")]
        []);
    SAssign
      [EName "df2020"]
      (ECall
        (EAttr
          (ECall
            (EAttr
              (ECall
                (EAttr (EName "pd") "read_csv")
                [EConst (CStr "data/2020-user-survey-results.csv.gz")]
                [])
              "assign")
            []
            [("Timestamp",
              ELambda
                ["df"]
                (ECall
                  (EAttr
                    (ECall
                      (EAttr (EName "pd") "to_datetime")
                      [ESubscript (EName "df") (EConst (CStr "Timestamp"))]
                      [("format", EConst (CStr "%Y/%m/%d %H:%M:%S %p %Z"))])
                    "astype")
                  [EConst (CStr "datetime64[ns]")]
                  []))])
          "replace")
        [EDict
           [(EConst (CStr "How often do you use Dask?"),
             EConst (CStr "I use Dask all the time, even when I sleep"))];
         EConst (CStr "Every day")]
        []);
    SExpr (ECall (EAttr (EName "df2020") "head") [] []);
    SAssign
      [EName "common"]
      (EBinOp (EAttr (EName "df2019") "columns") OBitAnd (EAttr (EName "df2020") "columns"));
    SAssign
      [EName "added"]
      (ECall
        (EAttr (EAttr (EName "df2020") "columns") "difference")
        [EAttr (EName "df2019") "columns"]
        []);
    SAssign
      [EName "dropped"]
      (ECall
        (EAttr (EAttr (EName "df2019") "columns") "difference")
        [EAttr (EName "df2020") "columns"]
        []);
    SAssign
      [EName "df"]
      (ECall (EAttr (EName "pd") "concat") [EList [EName "df2019"; EName "df2020"]] []);
    SAssign
      [ESubscript (EName "df") (EConst (CStr "Year"))]
      (EAttr (EAttr (EAttr (EName "df") "Timestamp") "dt") "year");
    SAssign
      [EName "df"]
      (ECall
        (EAttr
          (ECall
            (EAttr (EName "df") "set_index")
            [EList [EConst (CStr "Year"); EConst (CStr "Timestamp")]]
            [])
          "sort_index")
        []
        [])];
 (* lines 279-283 *)
 Code None
   [SAssign [EName "k"] (EConst (CStr "Do you use Dask projects to deploy?"));
    SAssign
      [EName "d"]
      (ECall
        (EAttr
          (ECall
            (EAttr
              (EAttr
                (ECall
                  (EAttr
                    (ESubscript
                      (EName "df2020")
                      (EConst (CStr "Do you use Dask projects to deploy?")))
                    "dropna")
                  []
                  [])
                "str")
              "split")
            [EConst (CStr ";")]
            [])
          "explode")
        []
        []);
    SAssign [EName "top"] (ECall (EAttr (EName "d") "value_counts") [] []);
    SAssign
      [EName "top"]
      (EAttr
        (ESubscript (EName "top") (ECompare (EName "top") CmpGt (EConst (CInt 10))))
        "index");
    SExpr
      (ECall
        (EAttr (EName "sns") "countplot")
        []
        [("y", EName "k");
         ("data",
          ECall
            (EAttr
              (ESubscript (EName "d") (ECall (EAttr (EName "d") "isin") [EName "top"] []))
              "to_frame")
            []
            []);
         ("order", EName "top")])];
 (* lines 299-300 *)
 Code None
   [SAssign [EName "k"] (EConst (CStr "How do you view Dask's dashboard?"));
    SExpr
      (ECall
        (EAttr (EName "sns") "countplot")
        []
        [("y", EName "k");
         ("data",
          ECall
            (EAttr
              (ECall
                (EAttr
                  (ECall
                    (EAttr
                      (EAttr
                        (ECall
                          (EAttr (ESubscript (EName "df2020") (EName "k")) "dropna")
                          []
                          [])
                        "str")
                      "split")
                    [EConst (CStr ";")]
                    [])
                  "explode")
                []
                [])
              "to_frame")
            []
            [])])];
 (* lines 317-331 *)
 Code None
   [SAssign
      [EName "k"]
      (EConst
        (CStr "What Dask resources have you used for support in the last six months?"));
    SAssign
      [EName "resource_map"]
      (EDict
        [(EConst (CStr "Tutorial"), EConst (CStr "Tutorial at tutorial.dask.org"));
         (EConst (CStr "YouTube"), EConst (CStr "YouTube channel"));
         (EConst (CStr "gitter"), EConst (CStr "Gitter chat"))]);
    SAssign
      [EName "d"]
      (ECall
        (EAttr
          (ECall
            (EAttr
              (ECall
                (EAttr (EAttr (ESubscript (EName "df") (EName "k")) "str") "split")
                [EConst (CStr ";")]
                [])
              "explode")
            []
            [])
          "replace")
        [EName "resource_map"]
        []);
    SAssign
      [EName "top"]
      (EAttr
        (ESubscript
          (ECall (EAttr (EName "d") "value_counts") [] [])
          (ESlice None (Some (EConst (CInt 8))) None))
        "index");
    SAssign
      [EName "d"]
      (ESubscript (EName "d") (ECall (EAttr (EName "d") "isin") [EName "top"] []));
    SAssign
      [ETuple [EName "fig"; EName "ax"]]
      (ECall
        (EAttr (EName "plt") "subplots")
        []
        [("figsize", ETuple [EConst (CInt 8); EConst (CInt 8)])]);
    SAssign
      [EName "ax"]
      (ECall
        (EAttr (EName "sns") "countplot")
        []
        [("y", EName "k");
         ("hue", EConst (CStr "Year"));
         ("data", ECall (EAttr (EName "d") "reset_index") [] []);
         ("ax", EName "ax")]);
    SExpr
      (ECall
        (EAttr (EName "ax") "set")
        []
        [("ylabel", EConst (CStr "")); ("title", EName "k")])];
 (* lines 354-389 *)
 Code None
   [SAssign
      [EName "resource_palette"]
      (EAttr
        (ESubscript
          (ECall
            (EAttr
              (ECall
                (EAttr
                  (ECall
                    (EAttr
                      (ECall
                        (EAttr
                          (ECall
                            (EAttr
                              (EAttr
                                (ESubscript
                                  (EName "df")
                                  (EConst
                                    (CStr
                                      "What Dask resources have you used for support in the last six months?")))
                                "str")
                              "split")
                            [EConst (CStr ";")]
                            [])
                          "explode")
                        []
                        [])
                      "replace")
                    [EName "resource_map"]
                    [])
                  "replace")
                [ECall (EAttr (EName "re") "compile") [EConst (CStr "GitHub.*")] [];
                 EConst (CStr "GitHub")]
                [])
              "value_counts")
            []
            [])
          (ESlice None (Some (EConst (CInt 6))) None))
        "index");
    SAssign
      [EName "resource_palette"]
      (ECall
        (EName "dict")
        [ECall
           (EName "zip")
           [EName "resource_palette";
            ECall (EAttr (EName "sns") "color_palette") [EConst (CStr "Paired")] []]
           []]
        []);
    SAssign
      [EName "usage_order"]
      (EList
        [EConst (CStr "Every day");
         EConst (CStr "Occasionally");
         EConst (CStr "Just looking for now")]);
    SFunctionDef "resource_plot"
      [("df", None); ("year", None); ("ax", None)]
      None
      [SAssign
         [EName "resources"]
         (ECall
           (EAttr
             (ECall
               (EAttr
                 (ECall
                   (EAttr
                     (EAttr
                       (ESubscript
                         (EAttr (EName "df") "loc")
                         (ETuple
                           [EName "year";
                            EConst
                              (CStr
                                "What Dask resources have you used for support in the last six months?")]))
                       "str")
                     "split")
                   [EConst (CStr ";")]
                   [])
                 "explode")
               []
               [])
             "replace")
           [EName "resource_map"]
           []);
       SAssign
         [EName "top"]
         (EAttr
           (ECall
             (EAttr (ECall (EAttr (EName "resources") "value_counts") [] []) "head")
             [EConst (CInt 6)]
             [])
           "index");
       SAssign
         [EName "resources"]
         (ESubscript
           (EName "resources")
           (ECall (EAttr (EName "resources") "isin") [EName "top"] []));
       SAssign
         [EName "m"]
         (ECall
           (EAttr
             (ECall
               (EAttr (EName "pd") "merge")
               [ESubscript
                  (EAttr (EName "df") "loc")
                  (ETuple
                    [EName "year"; EList [EConst (CStr "How often do you use Dask?")]]);
                EName "resources"]
               [("left_index", EConst (CBool true)); ("right_index", EConst (CBool true))])
             "replace")
           [ECall (EAttr (EName "re") "compile") [EConst (CStr "GitHub.*")] [];
            EConst (CStr "GitHub")]
           []);
       SAssign
         [EName "ax"]
         (ECall
           (EAttr (EName "sns") "countplot")
           []
           [("hue",
             EConst
               (CStr "What Dask resources have you used for support in the last six months?"));
            ("y", EConst (CStr "How often do you use Dask?"));
            ("order", EName "usage_order");
            ("data", EName "m");
            ("ax", EName "ax");
            ("hue_order", ECall (EName "list") [EName "resource_palette"] []);
            ("palette", EName "resource_palette")]);
       SExpr (ECall (EAttr (EName "sns") "despine") [] []);
       SReturn (Some (EName "ax"))];
    SAssign
      [ETuple [EName "fig"; EName "axes"]]
      (ECall
        (EAttr (EName "plt") "subplots")
        []
        [("figsize", ETuple [EConst (CInt 20); EConst (CInt 10)]);
         ("ncols", EConst (CInt 2))]);
    SAssign
      [EName "ax1"]
      (ECall
        (EName "resource_plot")
        [EName "df"; EConst (CInt 2019); ESubscript (EName "axes") (EConst (CInt 0))]
        []);
    SAssign
      [EName "ax2"]
      (ECall
        (EName "resource_plot")
        [EName "df"; EConst (CInt 2020); ESubscript (EName "axes") (EConst (CInt 1))]
        []);
    SExpr (ECall (EAttr (EName "ax1") "set_title") [EConst (CStr "2019")] []);
    SExpr (ECall (EAttr (EName "ax2") "set_title") [EConst (CStr "2020")] [])];
 (* lines 412-416 *)
 Code None
   [SAssign
      [EName "apis"]
      (ECall
        (EAttr
          (ECall
            (EAttr
              (EAttr (ESubscript (EName "df") (EConst (CStr "Dask APIs"))) "str")
              "split")
            [EConst (CStr ";")]
            [])
          "explode")
        []
        []);
    SAssign
      [EName "top"]
      (ESubscript
        (EAttr (ECall (EAttr (EName "apis") "value_counts") [] []) "loc")
        (ELambda ["x"] (ECompare (EName "x") CmpGt (EConst (CInt 10)))));
    SAssign
      [EName "apis"]
      (ECall
        (EAttr
          (ESubscript
            (EName "apis")
            (ECall (EAttr (EName "apis") "isin") [EAttr (EName "top") "index"] []))
          "reset_index")
        []
        []);
    SExpr
      (ECall
        (EAttr (EName "sns") "countplot")
        []
        [("y", EConst (CStr "Dask APIs"));
         ("hue", EConst (CStr "Year"));
         ("data", EName "apis")])];
 (* line 432 *)
 Code None
   [SExpr
      (ECall
        (EAttr
          (ECall
            (EAttr
              (ECall
                (EAttr
                  (ECall
                    (EAttr
                      (EAttr
                        (ECall
                          (EAttr
                            (ESubscript
                              (EName "df")
                              (EConst (CStr "Local machine or Cluster?")))
                            "dropna")
                          []
                          [])
                        "str")
                      "contains")
                    [EConst (CStr "Cluster")]
                    [])
                  "astype")
                [EName "int"]
                [])
              "groupby")
            [EConst (CStr "Year")]
            [])
          "mean")
        []
        [])];
 (* lines 451-459 *)
 Code None
   [SAssign
      [EName "order"]
      (EList
        [EConst (CStr "Personal laptop");
         EConst (CStr "Large workstation");
         EConst (CStr "Cluster of 2-10 machines");
         EConst (CStr "Cluster with 10-100 machines");
         EConst (CStr "Cluster with 100+ machines")]);
    SAssign
      [EName "d"]
      (ECall
        (EAttr
          (ECall
            (EAttr
              (ECall
                (EAttr
                  (EAttr
                    (ESubscript (EName "df") (EConst (CStr "Local machine or Cluster?")))
                    "str")
                  "split")
                [EConst (CStr ";")]
                [])
              "explode")
            []
            [])
          "reset_index")
        []
        []);
    SExpr
      (ECall
        (EAttr (EName "sns") "countplot")
        []
        [("y", EConst (CStr "Local machine or Cluster?"));
         ("data", EName "d");
         ("hue", EConst (CStr "Year"));
         ("order", EName "order")])];
 (* lines 477-493 *)
 Code None
   [SAssign
      [EName "help_by_api"]
      (ESubscript
        (EAttr
          (EAttr
            (ECall
              (EAttr
                (ECall
                  (EAttr
                    (ESubscript
                      (ECall
                        (EAttr
                          (ECall
                            (EAttr (EName "pd") "merge")
                            [ECall
                               (EAttr
                                 (ECall
                                   (EAttr
                                     (EAttr
                                       (ESubscript
                                         (EAttr (EName "df") "loc")
                                         (ETuple
                                           [EConst (CInt 2019); EConst (CStr "Dask APIs")]))
                                       "str")
                                     "split")
                                   [EConst (CStr ";")]
                                   [])
                                 "explode")
                               []
                               [];
                             ESubscript
                               (EAttr (EName "df") "loc")
                               (ETuple
                                 [EConst (CInt 2019);
                                  EConst (CStr "Which would help you most right now?")])]
                            [("left_index", EConst (CBool true));
                             ("right_index", EConst (CBool true))])
                          "groupby")
                        [EConst (CStr "Which would help you most right now?")]
                        [])
                      (EConst (CStr "Dask APIs")))
                    "value_counts")
                  []
                  [])
                "unstack")
              []
              [("fill_value", EConst (CInt 0))])
            "T")
          "loc")
        (EList
          [EConst (CStr "Array");
           EConst (CStr "Bag");
           EConst (CStr "DataFrame");
           EConst (CStr "Delayed");
           EConst (CStr "Futures");
           EConst (CStr "ML");
           EConst (CStr "Xarray")]));
    SExpr
      (ECall
        (EAttr
          (ECall
            (EAttr (EAttr (EName "help_by_api") "style") "background_gradient")
            []
            [("axis", EConst (CStr "columns"))])
          "set_caption")
        [EConst
           (CStr
             "2019 normalized by row. Darker means that a higher proporiton of users of that API prefer that priority.")]
        [])];
 (* lines 502-518 *)
 Code None
   [SAssign
      [EName "help_by_api"]
      (ESubscript
        (EAttr
          (EAttr
            (ECall
              (EAttr
                (ECall
                  (EAttr
                    (ESubscript
                      (ECall
                        (EAttr
                          (ECall
                            (EAttr (EName "pd") "merge")
                            [ECall
                               (EAttr
                                 (ECall
                                   (EAttr
                                     (EAttr
                                       (ESubscript
                                         (EAttr (EName "df") "loc")
                                         (ETuple
                                           [EConst (CInt 2020); EConst (CStr "Dask APIs")]))
                                       "str")
                                     "split")
                                   [EConst (CStr ";")]
                                   [])
                                 "explode")
                               []
                               [];
                             ESubscript
                               (EAttr (EName "df") "loc")
                               (ETuple
                                 [EConst (CInt 2020);
                                  EConst (CStr "Which would help you most right now?")])]
                            [("left_index", EConst (CBool true));
                             ("right_index", EConst (CBool true))])
                          "groupby")
                        [EConst (CStr "Which would help you most right now?")]
                        [])
                      (EConst (CStr "Dask APIs")))
                    "value_counts")
                  []
                  [])
                "unstack")
              []
              [("fill_value", EConst (CInt 0))])
            "T")
          "loc")
        (EList
          [EConst (CStr "Array");
           EConst (CStr "Bag");
           EConst (CStr "DataFrame");
           EConst (CStr "Delayed");
           EConst (CStr "Futures");
           EConst (CStr "ML");
           EConst (CStr "Xarray")]));
    SExpr
      (ECall
        (EAttr
          (ECall
            (EAttr (EAttr (EName "help_by_api") "style") "background_gradient")
            []
            [("axis", EConst (CStr "columns"))])
          "set_caption")
        [EConst
           (CStr
             "2020 normalized by row. Darker means that a higher proporiton of users of that API prefer that priority.")]
        [])];
 (* lines 543-552 *)
 Code None
   [SAssign
      [EName "common"]
      (ECall
        (EAttr
          (ESubscript
            (EName "df")
            (ESubscript
              (EAttr (EName "df") "columns")
              (ECall
                (EAttr (EAttr (EAttr (EName "df") "columns") "str") "startswith")
                [EConst (CStr "What common feature")]
                [])))
          "rename")
        []
        [("columns",
          ELambda
            ["x"]
            (ECall
              (EAttr
                (ECall
                  (EAttr (EName "x") "lstrip")
                  [EConst (CStr "What common feature requests do you care about most?[")]
                  [])
                "rstrip")
              [EConst (CStr "]")]
              []))]);
    SAssign
      [EName "a"]
      (ECall
        (EAttr
          (ECall
            (EAttr
              (ECall
                (EAttr
                  (ECall
                    (EAttr
                      (EAttr
                        (ECall
                          (EAttr
                            (ESubscript (EAttr (EName "common") "loc") (EConst (CInt 2019)))
                            "apply")
                          [EAttr (EName "pd") "value_counts"]
                          [])
                        "T")
                      "stack")
                    []
                    [])
                  "reset_index")
                []
                [])
              "rename")
            []
            [("columns",
              EDict
                [(EConst (CStr "level_0"), EConst (CStr "Question"));
                 (EConst (CStr "level_1"), EConst (CStr "Importance"));
                 (EConst (CInt 0), EConst (CStr "count"))])])
          "assign")
        []
        [("Year", EConst (CInt 2019))]);
    SAssign
      [EName "b"]
      (ECall
        (EAttr
          (ECall
            (EAttr
              (ECall
                (EAttr
                  (ECall
                    (EAttr
                      (EAttr
                        (ECall
                          (EAttr
                            (ESubscript (EAttr (EName "common") "loc") (EConst (CInt 2020)))
                            "apply")
                          [EAttr (EName "pd") "value_counts"]
                          [])
                        "T")
                      "stack")
                    []
                    [])
                  "reset_index")
                []
                [])
              "rename")
            []
            [("columns",
              EDict
                [(EConst (CStr "level_0"), EConst (CStr "Question"));
                 (EConst (CStr "level_1"), EConst (CStr "Importance"));
                 (EConst (CInt 0), EConst (CStr "count"))])])
          "assign")
        []
        [("Year", EConst (CInt 2020))]);
    SAssign
      [EName "counts"]
      (ECall
        (EAttr (EName "pd") "concat")
        [EList [EName "a"; EName "b"]]
        [("ignore_index", EConst (CBool true))]);
    SAssign
      [EName "d"]
      (ECall
        (EAttr
          (ECall (EAttr (ECall (EAttr (EName "common") "stack") [] []) "reset_index") [] [])
          "rename")
        []
        [("columns",
          EDict
            [(EConst (CStr "level_2"), EConst (CStr "Feature"));
             (EConst (CInt 0), EConst (CStr "Importance"))])]);
    SAssign
      [EName "order"]
      (EList
        [EConst (CStr "Not relevant for me");
         EConst (CStr "Somewhat useful");
         EConst (CStr "Critical to me")]);
    SExpr
      (ECall
        (EAttr (EName "sns") "catplot")
        [EConst (CStr "Importance")]
        [("row", EConst (CStr "Feature"));
         ("kind", EConst (CStr "count"));
         ("col", EConst (CStr "Year"));
         ("data", EName "d");
         ("sharex", EConst (CBool false));
         ("order", EName "order")])];
 (* lines 577-579 *)
 Code None
   [SAssign
      [EName "c"]
      (ECall
        (EAttr
          (ECall
            (EAttr
              (EAttr
                (ECall
                  (EAttr
                    (ESubscript
                      (EName "df")
                      (EConst (CStr "If you use a cluster, how do you launch Dask? ")))
                    "dropna")
                  []
                  [])
                "str")
              "split")
            [EConst (CStr ";")]
            [])
          "explode")
        []
        []);
    SAssign
      [EName "top"]
      (ESubscript
        (EAttr (ECall (EAttr (EName "c") "value_counts") [] []) "index")
        (ESlice None (Some (EConst (CInt 6))) None));
    SExpr
      (ECall
        (EAttr (EName "sns") "countplot")
        []
        [("y", EConst (CStr "If you use a cluster, how do you launch Dask? "));
         ("data",
          ECall
            (EAttr
              (ESubscript (EName "c") (ECall (EAttr (EName "c") "isin") [EName "top"] []))
              "reset_index")
            []
            []);
         ("hue", EConst (CStr "Year"))])];
 (* lines 595-597 *)
 Code None
   [SExpr
      (ECall
        (EAttr (EName "sns") "countplot")
        []
        [("y", EConst (CStr "Is Dask stable enough for you?"));
         ("hue", EConst (CStr "Year"));
         ("data", ECall (EAttr (EName "df") "reset_index") [] [])]);
    SExpr (ECall (EAttr (EName "sns") "despine") [] [])]
].

(** Code cells of src/applications/evolving-workflows.ipynb. *)
Definition evolving_workflows_cells : list cell :=
[
 (* lines 37-39 *)
 Code None
   [SAssign
      [EName "filenames"]
      (EListComp
        (ECall (EAttr (EConst (CStr "file.{}.txt")) "format") [EName "i"] [])
        (EName "i")
        (ECall (EName "range") [EConst (CInt 10)] [])
        []);
    SExpr (ESubscript (EName "filenames") (ESlice None (Some (EConst (CInt 3))) None))];
 (* lines 48-59 *)
 Code None
   [SImport [("random", None); ("time", None)];
    SFunctionDef "parse_file"
      [("fn", Some (EName "str"))]
      (Some (EName "list"))
      [SExpr (EConst (CStr " Returns a list work items of unknown length "));
       SExpr
         (ECall
           (EAttr (EName "time") "sleep")
           [ECall (EAttr (EName "random") "random") [] []]
           []);
       SReturn
         (Some
           (EListComp
             (ECall (EAttr (EName "random") "random") [] [])
             (EName "_")
             (ECall
               (EName "range")
               [ECall
                  (EAttr (EName "random") "randint")
                  [EConst (CInt 1); EConst (CInt 10)]
                  []]
               [])
             []))];
    SFunctionDef "process_item"
      [("x", Some (EName "float"))]
      None
      [SExpr (EConst (CStr " Process each work item "));
       SExpr
         (ECall
           (EAttr (EName "time") "sleep")
           [EBinOp (ECall (EAttr (EName "random") "random") [] []) ODiv (EConst (CInt 4))]
           []);
       SReturn (Some (EBinOp (EName "x") OAdd (EConst (CInt 1))))]];
 (* lines 68-78 *)
 Code
   (Some "time")
   [SAssign [EName "results"] (EList []);
    SFor
      (EName "fn")
      (EName "filenames")
      [SAssign [EName "L"] (ECall (EName "parse_file") [EName "fn"] []);
       SFor
         (EName "x")
         (EName "L")
         [SAssign [EName "out"] (ECall (EName "process_item") [EName "x"] []);
          SExpr (ECall (EAttr (EName "results") "append") [EName "out"] [])]]];
 (* lines 97-100 *)
 Code None
   [SImportFrom "dask.distributed" [("Client", None)];
    SAssign
      [EName "client"]
      (ECall
        (EName "Client")
        []
        [("processes", EConst (CBool false));
         ("n_workers", EConst (CInt 1));
         ("threads_per_worker", EConst (CInt 6))]);
    SExpr (EName "client")];
 (* lines 124-144 *)
 Code
   (Some "time")
   [SImportFrom "dask.distributed" [("as_completed", None)];
    SImport [("operator", None)];
    SAssign
      [EName "lists"]
      (ECall
        (EAttr (EName "client") "map")
        [EName "parse_file"; EName "filenames"]
        [("pure", EConst (CBool false))]);
    SAssign
      [EName "lengths"]
      (ECall (EAttr (EName "client") "map") [EName "len"; EName "lists"] []);
    SAssign
      [EName "mapping"]
      (ECall (EName "dict") [ECall (EName "zip") [EName "lengths"; EName "lists"] []] []);
    SAssign [EName "futures"] (EList []);
    SFor
      (EName "future")
      (ECall (EName "as_completed") [EName "lengths"] [])
      [SAssign [EName "n"] (ECall (EAttr (EName "future") "result") [] []);
       SAssign [EName "L"] (ESubscript (EName "mapping") (EName "future"));
       SFor
         (EName "i")
         (ECall (EName "range") [EName "n"] [])
         [SAssign
            [EName "new"]
            (ECall
              (EAttr (EName "client") "submit")
              [EAttr (EName "operator") "getitem"; EName "L"; EName "i"]
              [("priority", EConst (CInt 1))]);
          SAssign
            [EName "new"]
            (ECall
              (EAttr (EName "client") "submit")
              [EName "process_item"; EName "new"]
              [("priority", EConst (CInt 1))]);
          SExpr (ECall (EAttr (EName "futures") "append") [EName "new"] [])]];
    SExpr (ECall (EAttr (EName "client") "gather") [EName "futures"] [])];
 (* lines 163-179 *)
 Code None
   [SImport [("asyncio", None)];
    SAsyncFunctionDef "f"
      [("fn", None)]
      None
      [SExpr (EConst (CStr " Handle the lifecycle of a single file "));
       SAssign
         [EName "future"]
         (ECall
           (EAttr (EName "client") "submit")
           [EName "parse_file"; EName "fn"]
           [("pure", EConst (CBool false))]);
       SAssign
         [EName "length_future"]
         (ECall (EAttr (EName "client") "submit") [EName "len"; EName "future"] []);
       SAssign [EName "length"] (EAwait (EName "length_future"));
       SAssign
         [EName "futures"]
         (EListComp
           (ECall
             (EAttr (EName "client") "submit")
             [EAttr (EName "operator") "getitem"; EName "future"; EName "i"]
             [("priority", EConst (CInt 10))])
           (EName "i")
           (ECall (EName "range") [EName "length"] [])
           []);
       SAssign
         [EName "futures"]
         (ECall
           (EAttr (EName "client") "map")
           [EName "process_item"; EName "futures"]
           [("priority", EConst (CInt 10))]);
       SReturn (Some (EName "futures"))];
    SAsyncFunctionDef "run_all"
      [("filenames", None)]
      None
      [SAssign
         [EName "list_of_list_of_futures"]
         (EAwait
           (ECall
             (EAttr (EName "asyncio") "gather")
             [EStarred
                (EListComp
                  (ECall (EName "f") [EName "fn"] [])
                  (EName "fn")
                  (EName "filenames")
                  [])]
             []));
       SAssign
         [EName "futures"]
         (ECall (EName "sum") [EName "list_of_list_of_futures"; EList []] []);
       SReturn
         (Some (EAwait (ECall (EAttr (EName "client") "gather") [EName "futures"] [])))]];
 (* line 203 *)
 Code None
   [SExpr (ECall (EAttr (EName "client") "sync") [EName "run_all"; EName "filenames"] [])];
 (* lines 222-237 *)
 Code
   (Some "time")
   [SImportFrom "dask.distributed"
      [("get_client", None); ("secede", None); ("rejoin", None)];
    SFunctionDef "f"
      [("fn", None)]
      None
      [SAssign [EName "L"] (ECall (EName "parse_file") [EName "fn"] []);
       SAssign [EName "client"] (ECall (EName "get_client") [] []);
       SAssign
         [EName "futures"]
         (ECall
           (EAttr (EName "client") "map")
           [EName "process_item"; EName "L"]
           [("priority", EConst (CInt 10))]);
       SExpr (ECall (EName "secede") [] []);
       SAssign
         [EName "results"]
         (ECall (EAttr (EName "client") "gather") [EName "futures"] []);
       SExpr (ECall (EName "rejoin") [] []);
       SReturn (Some (EName "results"))];
    SAssign
      [EName "futures"]
      (ECall
        (EAttr (EName "client") "map")
        [EName "f"; EName "filenames"]
        [("pure", EConst (CBool false))]);
    SAssign
      [EName "results"]
      (ECall (EAttr (EName "client") "gather") [EName "futures"] [])]
].

(** Code cells of src/applications/evolving-workflows.ipynb, the notebook after the document separator. *)
Definition embarrassingly_parallel_cells : list cell :=
[
 (* lines 314-316 *)
 Code None
   [SImportFrom "dask.distributed" [("Client", None); ("progress", None)];
    SAssign
      [EName "client"]
      (ECall
        (EName "Client")
        []
        [("threads_per_worker", EConst (CInt 4)); ("n_workers", EConst (CInt 1))]);
    SExpr (EName "client")];
 (* lines 334-339 *)
 Code None
   [SImport [("time", None)];
    SImport [("random", None)];
    SFunctionDef "costly_simulation"
      [("list_param", None)]
      None
      [SExpr
         (ECall
           (EAttr (EName "time") "sleep")
           [ECall (EAttr (EName "random") "random") [] []]
           []);
       SReturn (Some (ECall (EName "sum") [EName "list_param"] []))]];
 (* line 355 *)
 Code None
   [STimed
      (SExpr
        (ECall
          (EName "costly_simulation")
          [EList [EConst (CInt 1); EConst (CInt 2); EConst (CInt 3); EConst (CInt 4)]]
          []))];
 (* lines 373-378 *)
 Code None
   [SImport [("pandas", Some "pd")];
    SImport [("numpy", Some "np")];
    SAssign
      [EName "input_params"]
      (ECall
        (EAttr (EName "pd") "DataFrame")
        [ECall
           (EAttr (EAttr (EName "np") "random") "random")
           []
           [("size", ETuple [EConst (CInt 500); EConst (CInt 4)])]]
        [("columns",
          EList
            [EConst (CStr "param_a");
             EConst (CStr "param_b");
             EConst (CStr "param_c");
             EConst (CStr "param_d")])]);
    SExpr (ECall (EAttr (EName "input_params") "head") [] [])];
 (* line 396 *)
 Code None [SAssign [EName "results"] (EList [])];
 (* lines 405-408 *)
 Code
   (Some "time")
   [SFor
      (EName "parameters")
      (ESubscript
        (EAttr (EName "input_params") "values")
        (ESlice None (Some (EConst (CInt 10))) None))
      [SAssign
         [EName "result"]
         (ECall (EName "costly_simulation") [EName "parameters"] []);
       SExpr (ECall (EAttr (EName "results") "append") [EName "result"] [])]];
 (* line 417 *)
 Code None [SExpr (EName "results")];
 (* lines 446-447 *)
 Code None [SImport [("dask", None)]; SAssign [EName "lazy_results"] (EList [])];
 (* lines 456-460 *)
 Code
   (Some "time")
   [SFor
      (EName "parameters")
      (ESubscript
        (EAttr (EName "input_params") "values")
        (ESlice None (Some (EConst (CInt 10))) None))
      [SAssign
         [EName "lazy_result"]
         (ECall
           (ECall (EAttr (EName "dask") "delayed") [EName "costly_simulation"] [])
           [EName "parameters"]
           []);
       SExpr (ECall (EAttr (EName "lazy_results") "append") [EName "lazy_result"] [])]];
 (* line 469 *)
 Code None [SExpr (ESubscript (EName "lazy_results") (EConst (CInt 0)))];
 (* line 489 *)
 Code None
   [STimed
      (SExpr (ECall (EAttr (EName "dask") "compute") [EStarred (EName "lazy_results")] []))];
 (* lines 512-519 *)
 Code None
   [SImport [("dask", None)];
    SAssign [EName "lazy_results"] (EList []);
    SFor
      (EName "parameters")
      (EAttr (EName "input_params") "values")
      [SAssign
         [EName "lazy_result"]
         (ECall
           (ECall (EAttr (EName "dask") "delayed") [EName "costly_simulation"] [])
           [EName "parameters"]
           []);
       SExpr (ECall (EAttr (EName "lazy_results") "append") [EName "lazy_result"] [])];
    SAssign
      [EName "futures"]
      (ECall (EAttr (EName "dask") "persist") [EStarred (EName "lazy_results")] [])];
 (* line 537 *)
 Code None
   [SExpr (ECall (EAttr (EAttr (EName "client") "cluster") "scale") [EConst (CInt 10)] [])];
 (* lines 555-556 *)
 Code None
   [SAssign
      [EName "results"]
      (ECall (EAttr (EName "dask") "compute") [EStarred (EName "futures")] []);
    SExpr (ESubscript (EName "results") (ESlice None (Some (EConst (CInt 5))) None))];
 (* lines 576-579 *)
 Code None
   [SAssign [EName "futures"] (EList []);
    SFor
      (EName "parameters")
      (EAttr (EName "input_params") "values")
      [SAssign
         [EName "future"]
         (ECall
           (EAttr (EName "client") "submit")
           [EName "costly_simulation"; EName "parameters"]
           []);
       SExpr (ECall (EAttr (EName "futures") "append") [EName "future"] [])]];
 (* lines 595-596 *)
 Code None
   [SAssign
      [EName "results"]
      (ECall (EAttr (EName "client") "gather") [EName "futures"] []);
    SExpr (ESubscript (EName "results") (ESlice None (Some (EConst (CInt 5))) None))];
 (* line 616 *)
 Code None
   [SAssign
      [EName "futures"]
      (ECall
        (EAttr (EName "client") "map")
        [EName "costly_simulation"; EAttr (EName "input_params") "values"]
        [])];
 (* lines 632-633 *)
 Code None
   [SAssign
      [EName "results"]
      (ECall (EAttr (EName "client") "gather") [EName "futures"] []);
    SExpr (ECall (EName "len") [EName "results"] [])];
 (* line 642 *)
 Code None
   [SExpr (ECall (EName "print") [ESubscript (EName "results") (EConst (CInt 0))] [])];
 (* lines 676-678 *)
 Code None
   [SAssign [EName "output"] (ECall (EAttr (EName "input_params") "copy") [] []);
    SAssign
      [ESubscript (EName "output") (EConst (CStr "result"))]
      (ECall
        (EAttr (EName "pd") "Series")
        [EName "results"]
        [("index", EAttr (EName "output") "index")]);
    SExpr (ECall (EAttr (EName "output") "sample") [EConst (CInt 5)] [])];
 (* lines 694-695 *)
 Code None
   [SLineMagic "matplotlib" "inline";
    SExpr
      (ECall (EAttr (ESubscript (EName "output") (EConst (CStr "result"))) "plot") [] [])];
 (* line 704 *)
 Code None
   [SExpr
      (ECall (EAttr (ESubscript (EName "output") (EConst (CStr "result"))) "mean") [] [])];
 (* lines 713-715 *)
 Code None
   [SAssign
      [EName "filtered_output"]
      (ESubscript
        (EName "output")
        (ECompare
          (ESubscript (EName "output") (EConst (CStr "result")))
          CmpGt
          (EConst (CInt 2))));
    SExpr (ECall (EName "print") [ECall (EName "len") [EName "filtered_output"] []] []);
    SExpr
      (ECall
        (EAttr (EName "filtered_output") "to_csv")
        [EConst (CStr "/tmp/simulation_result.csv")]
        [])];
 (* lines 736-738 *)
 Code None
   [SImport [("dask.bag", Some "db")];
    SAssign
      [EName "b"]
      (ECall
        (EAttr (EName "db") "from_sequence")
        [ECall (EName "list") [EAttr (EName "input_params") "values"] []]
        [("npartitions", EConst (CInt 100))]);
    SAssign [EName "b"] (ECall (EAttr (EName "b") "map") [EName "costly_simulation"] [])];
 (* line 747 *)
 Code None
   [STimed (SAssign [EName "results_bag"] (ECall (EAttr (EName "b") "compute") [] []))];
 (* line 763 *)
 Code None
   [SExpr
      (ECompare
        (ECall (EAttr (EName "np") "all") [EName "results"] [])
        CmpEq
        (ECall (EAttr (EName "np") "all") [EName "results_bag"] []))]
].

(** Code cells of src/applications/json-data-on-the-web.ipynb. *)
Definition json_data_on_the_web_cells : list cell :=
[
 (* lines 30-31 *)
 Code None
   [SImport [("dask.bag", Some "db")];
    SExpr
      (ECall
        (EAttr
          (ECall
            (EAttr (EName "db") "read_text")
            [EConst (CStr "https://archive.analytics.mybinder.org/events-2018-11-03.jsonl")]
            [])
          "take")
        [EConst (CInt 3)]
        [])];
 (* lines 59-63 *)
 Code None
   [SImportFrom "dask.distributed" [("Client", None); ("progress", None)];
    SAssign
      [EName "client"]
      (ECall
        (EName "Client")
        []
        [("threads_per_worker", EConst (CInt 1));
         ("n_workers", EConst (CInt 4));
         ("memory_limit", EConst (CStr "2GB"))]);
    SExpr (EName "client")];
 (* lines 81-82 *)
 Code None [SImport [("dask.bag", Some "db")]; SImport [("json", None)]];
 (* line 91 *)
 Code None
   [SExpr
      (ECall
        (EAttr
          (ECall
            (EAttr
              (ECall
                (EAttr (EName "db") "read_text")
                [EConst (CStr "https://archive.analytics.mybinder.org/index.jsonl")]
                [])
              "map")
            [EAttr (EName "json") "loads"]
            [])
          "compute")
        []
        [])];
 (* lines 100-106 *)
 Code None
   [SAssign
      [EName "filenames"]
      (ECall
        (EAttr
          (ECall
            (EAttr
              (ECall
                (EAttr
                  (ECall
                    (EAttr (EName "db") "read_text")
                    [EConst (CStr "https://archive.analytics.mybinder.org/index.jsonl")]
                    [])
                  "map")
                [EAttr (EName "json") "loads"]
                [])
              "pluck")
            [EConst (CStr "name")]
            [])
          "compute")
        []
        []);
    SAssign
      [EName "filenames"]
      (EListComp
        (EBinOp (EConst (CStr "https://archive.analytics.mybinder.org/")) OAdd (EName "fn"))
        (EName "fn")
        (EName "filenames")
        []);
    SExpr (ESubscript (EName "filenames") (ESlice None (Some (EConst (CInt 5))) None))];
 (* lines 124-125 *)
 Code None
   [SAssign
      [EName "events"]
      (ECall
        (EAttr (ECall (EAttr (EName "db") "read_text") [EName "filenames"] []) "map")
        [EAttr (EName "json") "loads"]
        []);
    SExpr (ECall (EAttr (EName "events") "take") [EConst (CInt 2)] [])];
 (* line 143 *)
 Code None
   [SExpr
      (ECall
        (EAttr
          (ECall
            (EAttr
              (ECall (EAttr (EName "events") "pluck") [EConst (CStr "spec")] [])
              "frequencies")
            []
            [("sort", EConst (CBool true))])
          "take")
        [EConst (CInt 20)]
        [])];
 (* lines 163-164 *)
 Code None
   [SAssign [EName "df"] (ECall (EAttr (EName "events") "to_dataframe") [] []);
    SExpr (ECall (EAttr (EName "df") "head") [] [])];
 (* line 173 *)
 Code None
   [SExpr
      (ECall
        (EAttr
          (ECall
            (EAttr
              (ECall
                (EAttr
                  (ECall (EAttr (EAttr (EName "df") "spec") "value_counts") [] [])
                  "nlargest")
                [EConst (CInt 20)]
                [])
              "to_frame")
            []
            [])
          "compute")
        []
        [])];
 (* line 191 *)
 Code None [SAssign [EName "df"] (ECall (EAttr (EName "df") "persist") [] [])];
 (* line 216 *)
 Code None [SImport [("urllib", None)]];
 (* line 225 *)
 Code None
   [SExpr
      (ECall
        (EAttr
          (ECall (EAttr (EAttr (EName "df") "provider") "value_counts") [] [])
          "compute")
        []
        [])];
 (* lines 234-239 *)
 Code None
   [SExpr
      (ECall
        (EAttr
          (ECall
            (EAttr
              (ECall
                (EAttr
                  (ECall
                    (EAttr
                      (EAttr
                        (ESubscript
                          (EName "df")
                          (ECompare
                            (EAttr (EName "df") "provider")
                            CmpEq
                            (EConst (CStr "GitLab"))))
                        "spec")
                      "map")
                    [EAttr (EAttr (EName "urllib") "parse") "unquote"]
                    [("meta", ETuple [EConst (CStr "spec"); EName "object"])])
                  "value_counts")
                []
                [])
              "to_frame")
            []
            [])
          "compute")
        []
        [])];
 (* lines 248-253 *)
 Code None
   [SExpr
      (ECall
        (EAttr
          (ECall
            (EAttr
              (ECall
                (EAttr
                  (ECall
                    (EAttr
                      (EAttr
                        (ESubscript
                          (EName "df")
                          (ECompare
                            (EAttr (EName "df") "provider")
                            CmpEq
                            (EConst (CStr "Git"))))
                        "spec")
                      "apply")
                    [EAttr (EAttr (EName "urllib") "parse") "unquote"]
                    [("meta", ETuple [EConst (CStr "spec"); EName "object"])])
                  "value_counts")
                []
                [])
              "to_frame")
            []
            [])
          "compute")
        []
        [])]
].

(** Code cells of src/dataframes/01-data-access.ipynb. *)
Definition data_access_cells : list cell :=
[
 (* lines 18-20 *)
 Code None
   [SImportFrom "IPython.display" [("YouTubeVideo", None)];
    SExpr (ECall (EName "YouTubeVideo") [EConst (CStr "0eEsIA0O1iE")] [])];
 (* lines 41-43 *)
 Code None
   [SImportFrom "dask.distributed" [("Client", None)];
    SAssign
      [EName "client"]
      (ECall
        (EName "Client")
        []
        [("n_workers", EConst (CInt 1));
         ("threads_per_worker", EConst (CInt 4));
         ("processes", EConst (CBool true));
         ("memory_limit", EConst (CStr "2GB"))]);
    SExpr (EName "client")];
 (* lines 63-65 *)
 Code None
   [SImport [("dask", None)];
    SAssign
      [EName "df"]
      (ECall (EAttr (EAttr (EName "dask") "datasets") "timeseries") [] []);
    SExpr (EName "df")];
 (* lines 74-92 *)
 Code None
   [SImport [("os", None)];
    SImport [("datetime", None)];
    SIf
      (EUnaryOp UNot
        (ECall (EAttr (EAttr (EName "os") "path") "exists") [EConst (CStr "data")] []))
      [SExpr (ECall (EAttr (EName "os") "mkdir") [EConst (CStr "data")] [])]
      [];
    SFunctionDef "name"
      [("i", None)]
      None
      [SExpr
         (EConst
           (CStr
             (" Provide date for filename given index" +:+ nl
              +:+ "    " +:+ nl
              +:+ "    Examples" +:+ nl
              +:+ "    --------" +:+ nl
              +:+ "    >>> name(0)" +:+ nl
              +:+ "    '2000-01-01'" +:+ nl
              +:+ "    >>> name(10)" +:+ nl
              +:+ "    '2000-01-11'" +:+ nl
              +:+ "    ")));
       SReturn
         (Some
           (ECall
             (EName "str")
             [EBinOp
                (ECall
                  (EAttr (EName "datetime") "date")
                  [EConst (CInt 2000); EConst (CInt 1); EConst (CInt 1)]
                  [])
                OAdd
                (EBinOp
                  (EName "i")
                  OMult
                  (ECall
                    (EAttr (EName "datetime") "timedelta")
                    []
                    [("days", EConst (CInt 1))]))]
             []))];
    SExpr
      (ECall
        (EAttr (EName "df") "to_csv")
        [EConst (CStr "data/*.csv")]
        [("name_function", EName "name")])];
 (* line 110 *)
 Code None [SShell "ls data/*.csv | head"];
 (* line 119 *)
 Code None [SShell "head data/2000-01-01.csv"];
 (* line 128 *)
 Code None [SShell "head data/2000-01-30.csv"];
 (* lines 144-147 *)
 Code None
   [SImport [("pandas", Some "pd")];
    SAssign
      [EName "df"]
      (ECall (EAttr (EName "pd") "read_csv") [EConst (CStr "data/2000-01-01.csv")] []);
    SExpr (ECall (EAttr (EName "df") "head") [] [])];
 (* lines 156-159 *)
 Code None
   [SImport [("dask.dataframe", Some "dd")];
    SAssign
      [EName "df"]
      (ECall (EAttr (EName "dd") "read_csv") [EConst (CStr "data/2000-*-*.csv")] []);
    SExpr (EName "df")];
 (* line 168 *)
 Code None [SExpr (ECall (EAttr (EName "df") "head") [] [])];
 (* line 186 *)
 Code None [SHelp (EAttr (EName "pd") "read_csv") 1];
 (* line 195 *)
 Code None [SHelp (EAttr (EName "dd") "read_csv") 1];
 (* lines 211-212 *)
 Code None
   [SAssign
      [EName "df"]
      (ECall
        (EAttr (EName "dd") "read_csv")
        [EConst (CStr "data/2000-*-*.csv")]
        [("parse_dates", EList [EConst (CStr "timestamp")])]);
    SExpr (EName "df")];
 (* line 230 *)
 Code None
   [STimed
      (SExpr
        (ECall
          (EAttr
            (ECall
              (EAttr
                (EAttr (ECall (EAttr (EName "df") "groupby") [EConst (CStr "name")] []) "x")
                "mean")
              []
              [])
            "compute")
          []
          []))];
 (* line 238 *)
 Code None [];
 (* line 255 *)
 Code None
   [SExpr
      (ECall
        (EAttr (EName "df") "to_parquet")
        [EConst (CStr "data/2000-01.parquet")]
        [("engine", EConst (CStr "pyarrow"))])];
 (* line 264 *)
 Code None [SShell "ls data/2000-01.parquet/"];
 (* lines 280-281 *)
 Code None
   [SAssign
      [EName "df"]
      (ECall
        (EAttr (EName "dd") "read_parquet")
        [EConst (CStr "data/2000-01.parquet")]
        [("engine", EConst (CStr "pyarrow"))]);
    SExpr (EName "df")];
 (* line 290 *)
 Code None
   [STimed
      (SExpr
        (ECall
          (EAttr
            (ECall
              (EAttr
                (EAttr (ECall (EAttr (EName "df") "groupby") [EConst (CStr "name")] []) "x")
                "mean")
              []
              [])
            "compute")
          []
          []))];
 (* lines 308-310 *)
 Code
   (Some "time")
   [SAssign
      [EName "df"]
      (ECall
        (EAttr (EName "dd") "read_parquet")
        [EConst (CStr "data/2000-01.parquet")]
        [("columns", EList [EConst (CStr "name"); EConst (CStr "x")]);
         ("engine", EConst (CStr "pyarrow"))]);
    SExpr
      (ECall
        (EAttr
          (ECall
            (EAttr
              (EAttr (ECall (EAttr (EName "df") "groupby") [EConst (CStr "name")] []) "x")
              "mean")
            []
            [])
          "compute")
        []
        [])]
].

(** Code cells of src/machine-learning/glm.ipynb. *)
Definition glm_cells : list cell :=
[
 (* lines 30-33 *)
 Code None
   [SImportFrom "dask.distributed" [("Client", None); ("progress", None)];
    SAssign
      [EName "client"]
      (ECall
        (EName "Client")
        []
        [("processes", EConst (CBool false));
         ("threads_per_worker", EConst (CInt 4));
         ("n_workers", EConst (CInt 1));
         ("memory_limit", EConst (CStr "2GB"))]);
    SExpr (EName "client")];
 (* lines 49-51 *)
 Code None
   [SImportFrom "dask_glm.datasets" [("make_regression", None)];
    SAssign
      [ETuple [EName "X"; EName "y"]]
      (ECall
        (EName "make_regression")
        []
        [("n_samples", EConst (CInt 200000));
         ("n_features", EConst (CInt 100));
         ("n_informative", EConst (CInt 5));
         ("chunksize", EConst (CInt 10000))]);
    SExpr (EName "X")];
 (* lines 60-61 *)
 Code None
   [SImport [("dask", None)];
    SAssign
      [ETuple [EName "X"; EName "y"]]
      (ECall (EAttr (EName "dask") "persist") [EName "X"; EName "y"] [])];
 (* lines 79-81 *)
 Code None
   [SImport [("dask_glm.algorithms", None)];
    SAssign
      [EName "b"]
      (ECall
        (EAttr (EAttr (EName "dask_glm") "algorithms") "admm")
        [EName "X"; EName "y"]
        [("max_iter", EConst (CInt 5))])];
 (* line 97 *)
 Code None
   [SAssign
      [EName "b"]
      (ECall
        (EAttr (EAttr (EName "dask_glm") "algorithms") "proximal_grad")
        [EName "X"; EName "y"]
        [("max_iter", EConst (CInt 5))])];
 (* lines 115-126 *)
 Code None
   [SImport [("dask_glm.families", None)];
    SImport [("dask_glm.regularizers", None)];
    SAssign
      [EName "family"]
      (ECall (EAttr (EAttr (EName "dask_glm") "families") "Poisson") [] []);
    SAssign
      [EName "regularizer"]
      (ECall (EAttr (EAttr (EName "dask_glm") "regularizers") "ElasticNet") [] []);
    SAssign
      [EName "b"]
      (ECall
        (EAttr (EAttr (EName "dask_glm") "algorithms") "proximal_grad")
        [EName "X"; EName "y"]
        [("max_iter", EConst (CInt 5));
         ("family", EName "family");
         ("regularizer", EName "regularizer")])];
 (* line 135 *)
 Code None [SHelp (EAttr (EAttr (EName "dask_glm") "families") "Poisson") 2];
 (* line 144 *)
 Code None [SHelp (EAttr (EAttr (EName "dask_glm") "regularizers") "ElasticNet") 2]
].

(** Code cells of src/machine-learning/scale-scikit-learn.ipynb. *)
Definition scale_scikit_learn_cells : list cell :=
[
 (* lines 22-24 *)
 Code None
   [SImportFrom "IPython.display" [("YouTubeVideo", None)];
    SExpr (ECall (EName "YouTubeVideo") [EConst (CStr "5Zf6DQaf7jk")] [])];
 (* lines 33-35 *)
 Code None
   [SImportFrom "dask.distributed" [("Client", None); ("progress", None)];
    SAssign
      [EName "client"]
      (ECall
        (EName "Client")
        []
        [("n_workers", EConst (CInt 4));
         ("threads_per_worker", EConst (CInt 1));
         ("memory_limit", EConst (CStr "2GB"))]);
    SExpr (EName "client")];
 (* lines 68-77 *)
 Code None
   [SImportFrom "pprint" [("pprint", None)];
    SImportFrom "time" [("time", None)];
    SImport [("logging", None)];
    SImportFrom "sklearn.datasets" [("fetch_20newsgroups", None)];
    SImportFrom "sklearn.feature_extraction.text" [("HashingVectorizer", None)];
    SImportFrom "sklearn.feature_extraction.text" [("TfidfTransformer", None)];
    SImportFrom "sklearn.linear_model" [("SGDClassifier", None)];
    SImportFrom "sklearn.model_selection" [("GridSearchCV", None)];
    SImportFrom "sklearn.pipeline" [("Pipeline", None)]];
 (* lines 86-98 *)
 Code None
   [SAssign
      [EName "categories"]
      (EList [EConst (CStr "alt.atheism"); EConst (CStr "talk.religion.misc")]);
    SExpr
      (ECall
        (EName "print")
        [EConst (CStr "Loading 20 newsgroups dataset for categories:")]
        []);
    SExpr (ECall (EName "print") [EName "categories"] []);
    SAssign
      [EName "data"]
      (ECall
        (EName "fetch_20newsgroups")
        []
        [("subset", EConst (CStr "train")); ("categories", EName "categories")]);
    SExpr
      (ECall
        (EName "print")
        [EBinOp
           (EConst (CStr "%d documents"))
           OMod
           (ECall (EName "len") [EAttr (EName "data") "filenames"] [])]
        []);
    SExpr
      (ECall
        (EName "print")
        [EBinOp
           (EConst (CStr "%d categories"))
           OMod
           (ECall (EName "len") [EAttr (EName "data") "target_names"] [])]
        []);
    SExpr (ECall (EName "print") [] [])];
 (* lines 114-118 *)
 Code None
   [SAssign
      [EName "pipeline"]
      (ECall
        (EName "Pipeline")
        [EList
           [ETuple [EConst (CStr "vect"); ECall (EName "HashingVectorizer") [] []];
            ETuple [EConst (CStr "tfidf"); ECall (EName "TfidfTransformer") [] []];
            ETuple
              [EConst (CStr "clf");
               ECall (EName "SGDClassifier") [] [("max_iter", EConst (CInt 1000))]]]]
        [])];
 (* lines 141-147 *)
 Code None
   [SAssign
      [EName "parameters"]
      (EDict
        [(EConst (CStr "tfidf__use_idf"),
          ETuple [EConst (CBool true); EConst (CBool false)]);
         (EConst (CStr "tfidf__norm"), ETuple [EConst (CStr "l1"); EConst (CStr "l2")]);
         (EConst (CStr "clf__alpha"),
          ETuple [EConst (CFloat 1 (-5)); EConst (CFloat 1 (-6))])])];
 (* line 156 *)
 Code None
   [SAssign
      [EName "grid_search"]
      (ECall
        (EName "GridSearchCV")
        [EName "pipeline"; EName "parameters"]
        [("n_jobs", EUnaryOp UUSub (EConst (CInt 1)));
         ("verbose", EConst (CInt 1));
         ("cv", EConst (CInt 3));
         ("refit", EConst (CBool false))])];
 (* lines 180-183 *)
 Code None
   [SImport [("joblib", None)];
    SWith
      [(ECall (EAttr (EName "joblib") "parallel_backend") [EConst (CStr "dask")] [], None)]
      [SExpr
         (ECall
           (EAttr (EName "grid_search") "fit")
           [EAttr (EName "data") "data"; EAttr (EName "data") "target"]
           [])]];
 (* lines 213-215 *)
 Code None
   [SImportFrom "sklearn.datasets" [("load_digits", None)];
    SImportFrom "sklearn.svm" [("SVC", None)];
    SImportFrom "dask_ml.wrappers" [("ParallelPostFit", None)]];
 (* lines 231-232 *)
 Code None
   [SAssign
      [ETuple [EName "X"; EName "y"]]
      (ECall (EName "load_digits") [] [("return_X_y", EConst (CBool true))]);
    SExpr (EAttr (EName "X") "shape")];
 (* lines 241-248 *)
 Code None
   [SAssign
      [EName "svc"]
      (ECall
        (EName "ParallelPostFit")
        [ECall
           (EName "SVC")
           []
           [("random_state", EConst (CInt 0)); ("gamma", EConst (CStr "scale"))]]
        []);
    SAssign
      [EName "param_grid"]
      (EDict
        [(EConst (CStr "estimator__C"),
          EList [EConst (CFloat 1 (-2)); EConst (CFloat 10 (-1)); EConst (CInt 10)])]);
    SAssign
      [EName "grid_search"]
      (ECall
        (EName "GridSearchCV")
        [EName "svc"; EName "param_grid"]
        [("cv", EConst (CInt 3))])];
 (* line 264 *)
 Code None [SExpr (ECall (EAttr (EName "grid_search") "fit") [EName "X"; EName "y"] [])];
 (* line 281 *)
 Code None [SImport [("dask.array", Some "da")]];
 (* lines 290-294 *)
 Code None
   [SAssign
      [EName "big_X"]
      (ECall
        (EAttr (EName "da") "concatenate")
        [EListComp
           (ECall
             (EAttr (EName "da") "from_array")
             [EName "X"]
             [("chunks", EAttr (EName "X") "shape")])
           (EName "_")
           (ECall (EName "range") [EConst (CInt 10)] [])
           []]
        []);
    SExpr (EName "big_X")];
 (* lines 311-312 *)
 Code None
   [SAssign
      [EName "predicted"]
      (ECall (EAttr (EName "grid_search") "predict") [EName "big_X"] []);
    SExpr (EName "predicted")]
].

(** Code cells of src/machine-learning/voting-classifier.ipynb. *)
Definition voting_classifier_cells : list cell :=
[
 (* lines 25-30 *)
 Code None
   [SImportFrom "sklearn.ensemble" [("VotingClassifier", None)];
    SImportFrom "sklearn.linear_model" [("SGDClassifier", None)];
    SImportFrom "sklearn.linear_model" [("LogisticRegression", None)];
    SImportFrom "sklearn.svm" [("SVC", None)];
    SImport [("sklearn.datasets", None)]];
 (* line 46 *)
 Code None
   [SAssign
      [ETuple [EName "X"; EName "y"]]
      (ECall
        (EAttr (EAttr (EName "sklearn") "datasets") "make_classification")
        []
        [("n_samples", EConst (CInt 1000)); ("n_features", EConst (CInt 20))])];
 (* lines 62-67 *)
 Code None
   [SAssign
      [EName "classifiers"]
      (EList
        [ETuple
           [EConst (CStr "sgd");
            ECall (EName "SGDClassifier") [] [("max_iter", EConst (CInt 1000))]];
         ETuple
           [EConst (CStr "logisticregression"); ECall (EName "LogisticRegression") [] []];
         ETuple
           [EConst (CStr "svc"); ECall (EName "SVC") [] [("gamma", EConst (CStr "auto"))]]]);
    SAssign
      [EName "clf"]
      (ECall
        (EName "VotingClassifier")
        [EName "classifiers"]
        [("n_jobs", EUnaryOp UUSub (EConst (CInt 1)))])];
 (* line 83 *)
 Code None [STimed (SExpr (ECall (EAttr (EName "clf") "fit") [EName "X"; EName "y"] []))];
 (* lines 101-105 *)
 Code None
   [SImport [("joblib", None)];
    SImportFrom "distributed" [("Client", None)];
    SAssign [EName "client"] (ECall (EName "Client") [] []);
    SExpr (EName "client")];
 (* lines 121-125 *)
 Code
   (Some "time")
   [SWith
      [(ECall (EAttr (EName "joblib") "parallel_backend") [EConst (CStr "dask")] [], None)]
      [SExpr (ECall (EAttr (EName "clf") "fit") [EName "X"; EName "y"] [])];
    SExpr (ECall (EName "print") [EName "clf"] [])]
].

(** Code cells of src/unnamed/part_000. *)
Definition machine_learning_cells : list cell :=
[
 (* lines 19-22 *)
 Code None
   [SImportFrom "dask.distributed" [("Client", None); ("progress", None)];
    SAssign
      [EName "client"]
      (ECall
        (EName "Client")
        []
        [("processes", EConst (CBool false));
         ("threads_per_worker", EConst (CInt 4));
         ("n_workers", EConst (CInt 1));
         ("memory_limit", EConst (CStr "2GB"))]);
    SExpr (EName "client")];
 (* lines 53-56 *)
 Code None
   [SImportFrom "sklearn.datasets" [("make_classification", None)];
    SImportFrom "sklearn.svm" [("SVC", None)];
    SImportFrom "sklearn.model_selection" [("GridSearchCV", None)];
    SImport [("pandas", Some "pd")]];
 (* lines 72-73 *)
 Code None
   [SAssign
      [ETuple [EName "X"; EName "y"]]
      (ECall
        (EName "make_classification")
        []
        [("n_samples", EConst (CInt 1000)); ("random_state", EConst (CInt 0))]);
    SExpr (ESubscript (EName "X") (ESlice None (Some (EConst (CInt 5))) None))];
 (* lines 89-97 *)
 Code None
   [SAssign
      [EName "param_grid"]
      (EDict
        [(EConst (CStr "C"),
          EList
            [EConst (CFloat 1 (-3));
             EConst (CFloat 1 (-2));
             EConst (CFloat 1 (-1));
             EConst (CFloat 5 (-1));
             EConst (CFloat 10 (-1));
             EConst (CFloat 20 (-1));
             EConst (CFloat 50 (-1));
             EConst (CFloat 100 (-1))]);
         (EConst (CStr "kernel"),
          EList [EConst (CStr "rbf"); EConst (CStr "poly"); EConst (CStr "sigmoid")]);
         (EConst (CStr "shrinking"), EList [EConst (CBool true); EConst (CBool false)])]);
    SAssign
      [EName "grid_search"]
      (ECall
        (EName "GridSearchCV")
        [ECall
           (EName "SVC")
           []
           [("gamma", EConst (CStr "auto"));
            ("random_state", EConst (CInt 0));
            ("probability", EConst (CBool true))]]
        [("param_grid", EName "param_grid");
         ("return_train_score", EConst (CBool false));
         ("cv", EConst (CInt 3));
         ("n_jobs", EUnaryOp UUSub (EConst (CInt 1)))])];
 (* lines 119-122 *)
 Code None
   [SImport [("joblib", None)];
    SWith
      [(ECall (EAttr (EName "joblib") "parallel_backend") [EConst (CStr "dask")] [], None)]
      [SExpr (ECall (EAttr (EName "grid_search") "fit") [EName "X"; EName "y"] [])]];
 (* line 138 *)
 Code None
   [SExpr
      (ECall
        (EAttr
          (ECall
            (EAttr (EName "pd") "DataFrame")
            [EAttr (EName "grid_search") "cv_results_"]
            [])
          "head")
        []
        [])];
 (* line 147 *)
 Code None
   [SExpr
      (ESubscript
        (ECall (EAttr (EName "grid_search") "predict") [EName "X"] [])
        (ESlice None (Some (EConst (CInt 5))) None))];
 (* line 156 *)
 Code None [SExpr (ECall (EAttr (EName "grid_search") "score") [EName "X"; EName "y"] [])];
 (* line 183 *)
 Code None [SLineMagic "matplotlib" "inline"];
 (* lines 192-194 *)
 Code None
   [SImport [("dask_ml.datasets", None)];
    SImport [("dask_ml.cluster", None)];
    SImport [("matplotlib.pyplot", Some "plt")]];
 (* lines 210-215 *)
 Code None
   [SAssign
      [ETuple [EName "X"; EName "y"]]
      (ECall
        (EAttr (EAttr (EName "dask_ml") "datasets") "make_blobs")
        []
        [("n_samples", EConst (CInt 10000000));
         ("chunks", EConst (CInt 1000000));
         ("random_state", EConst (CInt 0));
         ("centers", EConst (CInt 3))]);
    SAssign [EName "X"] (ECall (EAttr (EName "X") "persist") [] []);
    SExpr (EName "X")];
 (* lines 231-232 *)
 Code None
   [SAssign
      [EName "km"]
      (ECall
        (EAttr (EAttr (EName "dask_ml") "cluster") "KMeans")
        []
        [("n_clusters", EConst (CInt 3));
         ("init_max_iter", EConst (CInt 2));
         ("oversampling_factor", EConst (CInt 10))]);
    SExpr (ECall (EAttr (EName "km") "fit") [EName "X"] [])];
 (* lines 248-250 *)
 Code None
   [SAssign
      [ETuple [EName "fig"; EName "ax"]]
      (ECall (EAttr (EName "plt") "subplots") [] []);
    SExpr
      (ECall
        (EAttr (EName "ax") "scatter")
        [ESubscript
           (EName "X")
           (ETuple [ESlice None None (Some (EConst (CInt 10000))); EConst (CInt 0)]);
         ESubscript
           (EName "X")
           (ETuple [ESlice None None (Some (EConst (CInt 10000))); EConst (CInt 1)])]
        [("marker", EConst (CStr "."));
         ("c",
          ESubscript
            (EAttr (EName "km") "labels_")
            (ESlice None None (Some (EConst (CInt 10000)))));
         ("cmap", EConst (CStr "viridis"));
         ("alpha", EConst (CFloat 25 (-2)))])]
].

(** ** The repository's notebooks *)

(** A notebook: a name for it here, the path of its file below the
    repository root (none for a document whose file name the source tree
    does not give), and its code cells in document order. *)
Record notebook := {
  nb_name : string;
  nb_path : option string;
  nb_cells : list cell
}.

Definition resilience : notebook :=
  {| nb_name := "resilience"; nb_path := Some "resilience.ipynb";
     nb_cells := resilience_cells |}.
Definition survey_2020 : notebook :=
  {| nb_name := "survey_2020"; nb_path := None; nb_cells := survey_2020_cells |}.
Definition evolving_workflows : notebook :=
  {| nb_name := "evolving_workflows";
     nb_path := Some "applications/evolving-workflows.ipynb";
     nb_cells := evolving_workflows_cells |}.
Definition embarrassingly_parallel : notebook :=
  {| nb_name := "embarrassingly_parallel"; nb_path := None;
     nb_cells := embarrassingly_parallel_cells |}.
Definition json_data_on_the_web : notebook :=
  {| nb_name := "json_data_on_the_web";
     nb_path := Some "applications/json-data-on-the-web.ipynb";
     nb_cells := json_data_on_the_web_cells |}.
Definition data_access : notebook :=
  {| nb_name := "data_access"; nb_path := Some "dataframes/01-data-access.ipynb";
     nb_cells := data_access_cells |}.
Definition glm : notebook :=
  {| nb_name := "glm"; nb_path := Some "machine-learning/glm.ipynb";
     nb_cells := glm_cells |}.
Definition scale_scikit_learn : notebook :=
  {| nb_name := "scale_scikit_learn";
     nb_path := Some "machine-learning/scale-scikit-learn.ipynb";
     nb_cells := scale_scikit_learn_cells |}.
Definition voting_classifier : notebook :=
  {| nb_name := "voting_classifier";
     nb_path := Some "machine-learning/voting-classifier.ipynb";
     nb_cells := voting_classifier_cells |}.
Definition machine_learning : notebook :=
  {| nb_name := "machine_learning"; nb_path := None;
     nb_cells := machine_learning_cells |}.

Definition repository_notebooks : list notebook :=
  [resilience; survey_2020; evolving_workflows; embarrassingly_parallel;
   json_data_on_the_web; data_access; glm; scale_scikit_learn; voting_classifier;
   machine_learning].

(** The statements of a notebook in the order a top-to-bottom run meets
    them. *)
Definition nb_code (nb : notebook) : list stmt :=
  flat_map (λ c, match c with Code _ body => body end) (nb_cells nb).

Definition nb_stmts (nb : notebook) : list stmt := flat_map stmt_all (nb_code nb).

Definition nb_exprs (p : expr → bool) (nb : notebook) : list expr :=
  flat_map (stmt_exprs p) (nb_code nb).

(** ** Control flow *)

Definition is_loop_or_branch (s : stmt) : bool :=
  match s with SFor _ _ _ | SWhile _ _ | SIf _ _ _ => true | _ => false end.

Definition control_flow (nb : notebook) : list stmt :=
  filter (λ s, is_loop_or_branch s) (nb_stmts nb).

Definition straight_line (nb : notebook) : bool :=
  bool_decide (control_flow nb = []).

Definition is_comprehension (e : expr) : bool :=
  match e with EListComp _ _ _ _ => true | _ => false end.

(** ** Coroutines *)

Definition is_await (e : expr) : bool :=
  match e with EAwait _ => true | _ => false end.

Definition async_defs (nb : notebook) : list string :=
  flat_map (λ s, match s with SAsyncFunctionDef n _ _ _ => [n] | _ => [] end)
    (nb_stmts nb).

Definition awaits (nb : notebook) : list expr := nb_exprs is_await nb.

Definition has_coroutines (nb : notebook) : bool :=
  negb (bool_decide (async_defs nb = [])) || negb (bool_decide (length (awaits nb) = 0%nat)).

(** ** Use of the framework *)

(** Top-level packages of the framework the notebooks demonstrate. *)
Definition framework_packages : list string :=
  ["dask"; "distributed"; "dask_ml"; "dask_glm"].

(** The first component of a dotted module name. *)
Fixpoint module_root (m : string) : string :=
  match m with
  | EmptyString => EmptyString
  | String c rest => if Ascii.eqb c "."%char then EmptyString else String c (module_root rest)
  end.

Definition is_framework_module (m : string) : bool :=
  bool_decide (module_root m ∈ framework_packages).

(** The names a statement binds by importing from the framework:
    [import a.b] binds [a], [import a.b as c] binds [c],
    [from a.b import x as y] binds [y]. *)
Definition framework_bindings (s : stmt) : list string :=
  match s with
  | SImport names =>
      flat_map (λ a : alias,
        if is_framework_module a.1 then [default (module_root a.1) a.2] else []) names
  | SImportFrom m names =>
      if is_framework_module m then map (λ a : alias, default a.1 a.2) names else []
  | _ => []
  end.

Definition framework_names (nb : notebook) : list string :=
  flat_map framework_bindings (nb_stmts nb).

Definition imports_framework (nb : notebook) : bool :=
  negb (bool_decide (framework_names nb = [])).

(** The name at the root of a chain of attribute accesses, calls and
    subscripts: [db] in [db.read_text(url).take(3)]. *)
Fixpoint root_name (e : expr) : option string :=
  match e with
  | EName x => Some x
  | EAttr v _ | ECall v _ _ | ESubscript v _ => root_name v
  | _ => None
  end.

Definition is_framework_call (names : list string) (e : expr) : bool :=
  match e with
  | ECall f _ _ =>
      match root_name f with Some x => bool_decide (x ∈ names) | None => false end
  | _ => false
  end.

Definition is_client_creation (e : expr) : bool :=
  match e with ECall (EName "Client") _ _ => true | _ => false end.

(** Calls that prepare the framework without operating on data:
    [dask.config.set(...)] and the construction of a [LocalCluster]. *)
Definition is_setup_call (e : expr) : bool :=
  match e with
  | ECall (EAttr (EAttr (EName "dask") "config") "set") _ _ => true
  | ECall (EName "LocalCluster") _ _ => true
  | _ => false
  end.

Definition creates_client (nb : notebook) : bool :=
  bool_decide ("Client" ∈ framework_names nb)
  && negb (bool_decide (length (nb_exprs is_client_creation nb) = 0%nat)).

(** The framework calls of a notebook other than set-up calls, in the
    order of a top-to-bottom run. *)
Definition framework_operations (nb : notebook) : list expr :=
  nb_exprs (λ e, is_framework_call (framework_names nb) e && negb (is_setup_call e)) nb.

(** The client is created before any other operation of the framework. *)
Definition client_created_first (nb : notebook) : bool :=
  match framework_operations nb with
  | e :: _ => is_client_creation e
  | [] => false
  end.

Definition uses_framework_client_first (nb : notebook) : bool :=
  imports_framework nb && creates_client nb && client_created_first nb.

(** ** Configuration *)

Definition is_config_set (e : expr) : bool :=
  match e with
  | ECall (EAttr (EAttr (EName "dask") "config") "set") _ _ => true
  | _ => false
  end.

(** The key-value pairs passed to [dask.config.set] anywhere in a notebook. *)
Definition config_settings (nb : notebook) : list (expr * expr) :=
  flat_map (λ e,
    match e with
    | ECall _ args _ =>
        flat_map (λ a, match a with EDict kvs => kvs | _ => [] end) args
    | _ => []
    end) (nb_exprs is_config_set nb).

(** Every mention of an attribute [a], as in [dask.config]. *)
Definition is_attr (a : string) (e : expr) : bool :=
  match e with EAttr _ b => bool_decide (a = b) | _ => false end.

(** The keyword arguments of every call of a notebook. *)
Definition keyword_arguments (nb : notebook) : list string :=
  flat_map (λ e, match e with ECall _ _ kws => kws.*1 | _ => [] end)
    (nb_exprs (λ e, match e with ECall _ _ _ => true | _ => false end) nb).

(** ** Assignments *)

(** The value of the first assignment to the variable [x]. *)
Definition assigned_value (x : string) (nb : notebook) : option expr :=
  head (flat_map (λ s,
    match s with
    | SAssign [EName y] v => if bool_decide (x = y) then [v] else []
    | _ => []
    end) (nb_stmts nb)).

End Notebooks.

(** * The resilience notebook's functions (src/resilience.ipynb) *)

Module Resilience.
Local Open Scope Z_scope.

(** The one attribute of a scheduler's worker state the notebook reads. *)
Record WorkerState := { pid : Z }.

(** [cluster.scheduler.workers.values()] at some moment. *)
Definition workers := list WorkerState.

(** [def multiply_by_two(x): sleep(0.02); return 2 * x].  The sleep only
    takes time. *)
Definition multiply_by_two (x : Z) : Z := 2 * x.

(** [N = 400] *)
Definition N : nat := 400.

(** Python's [range(n)] for a natural number [n]. *)
Definition range (n : nat) : list Z := Z.of_nat <$> seq 0 n.

(** Python's [sum]. *)
Definition sum (xs : list Z) : Z := foldr Z.add 0 xs.

(** A bag is held as the list of its partitions. *)
Definition bag := list (list Z).

(** toolz's [partition_all(n, seq)]: consecutive pieces of [n] elements, the
    last one with what is left; no piece at all for [n = 0]. *)
Fixpoint partition_all_go {A} (fuel n : nat) (xs : list A) : list (list A) :=
  match fuel, xs with
  | S fuel', _ :: _ => take n xs :: partition_all_go fuel' n (drop n xs)
  | _, _ => []
  end.

Definition partition_all {A} (n : nat) (xs : list A) : list (list A) :=
  match n with
  | O => []
  | S _ => partition_all_go (length xs) n xs
  end.

(** [db.from_sequence(seq, npartitions=npartitions)], with no
    [partition_size]:
    [[
    seq = list(seq)
    if npartitions and not partition_size:
        if len(seq) <= 100:
            partition_size = int(math.ceil(len(seq) / npartitions))
        else:
            partition_size = max(1, int(math.floor(len(seq) / npartitions)))
    if npartitions is None and partition_size is None: ...
    parts = list(partition_all(partition_size, seq))
    if len(parts) > 0: d = {(name, i): list(part) for i, part in enumerate(parts)}
    else: d = {(name, 0): []}
    ]]
    With [npartitions = 0] neither branch sets [partition_size], and
    [partition_all(None, seq)] raises a [TypeError]: no bag.  The quotient is
    a floating-point one in the library, exact for the lengths of lists a
    machine holds. *)
Definition from_sequence (seq : list Z) (npartitions : nat) : option bag :=
  match npartitions with
  | O => None
  | S _ =>
      let partition_size :=
        if bool_decide (length seq ≤ 100)%nat
        then ((length seq + npartitions - 1) / npartitions)%nat
        else (1 `max` (length seq / npartitions))%nat in
      let parts := partition_all partition_size seq in
      Some (match parts with [] => [[]] | _ :: _ => parts end)
  end.

(** [x.map(f)]: [f] on every element of every partition. *)
Definition bag_map (f : Z → Z) (b : bag) : bag := map (map f) b.

(** [mults.sum()]: every partition is summed, then the partial sums are. *)
Definition bag_sum (b : bag) : Z := sum (sum <$> b).

(** [summed = x.map(multiply_by_two).sum()], computed. *)
Definition summed (x : bag) : Z := bag_sum (bag_map multiply_by_two x).

(** [all_current_workers = [w.pid for w in cluster.scheduler.workers.values()]] *)
Definition all_current_workers (ws : workers) : list Z := pid <$> ws.

(** [non_preemptible_workers = all_current_workers[:2]] *)
Definition non_preemptible_workers (ws : workers) : list Z :=
  take 2 (all_current_workers ws).

(** A call [os.kill(pid, sig)]. *)
Record os_kill := { kill_pid : Z; kill_sig : Z }.

(** [random.choice(seq)] on the random draw [r]: some element of a
    non-empty [seq], an [IndexError] on an empty one. *)
Definition random_choice {A} (r : nat) (xs : list A) : option A :=
  xs !! (r mod length xs)%nat.

(** [kill_a_worker()], given the list [non_preemptible] of the global
    [non_preemptible_workers], the cluster's workers at the time of the call
    and the random draw: the signals it sends. *)
Definition kill_a_worker (non_preemptible : list Z) (ws : workers) (r : nat)
    : list os_kill :=
  let preemptible_workers :=
    filter (λ p, p ∉ non_preemptible) (pid <$> ws) in
  match preemptible_workers with
  | [] => []
  | _ :: _ =>
      match random_choice r preemptible_workers with
      | Some p => [{| kill_pid := p; kill_sig := 15 |}]
      | None => []
      end
  end.

(** [while not summed.done(): kill_a_worker(); sleep(3.0)].  The scheduler
    decides how long the loop runs and what the cluster looks like at each
    turn: one entry of [turns] per iteration, with the workers then and the
    random draw. *)
Definition kill_loop (non_preemptible : list Z) (turns : list (workers * nat))
    : list os_kill :=
  flat_map (λ t, kill_a_worker non_preemptible t.1 t.2) turns.

(** The text of the last cell's [print]. *)
Definition check_message (n : nat) (result : Z) : string :=
  "`sum(range(" +:+ pretty n +:+ "))` on cluster: " +:+ pretty result
  +:+ String (ascii_of_nat 9) "(should be "
  +:+ pretty (Z.of_nat n * (Z.of_nat n - 1)) +:+ ")".

(** The signals a run of the notebook sends, and the line its last cell
    prints when the computation finishes with the value of the bag [x].
    The computation under worker deaths, and the endings of a run that
    prints nothing, are in [ResilienceRun] below. *)
Record run := { signals : list os_kill; printed : string }.

Definition notebook_run (n : nat) (x : bag) (initial : workers)
    (turns : list (workers * nat)) : run :=
  {| signals := kill_loop (non_preemptible_workers initial) turns;
     printed := check_message n (summed x) |}.

(** The notebook's prose on the threshold it raises (second markdown cell). *)
Definition threshold_note : string :=
  "Whenever the suspiciousness of a task exceeds a certain threshold (3 by default), the task will be considered broken.".

Definition default_allowed_failures : Z := 3.

End Resilience.

(** * A run of the resilience notebook, with the workers that die

    The scheduler is the library's.  Its part here is what the notebook's
    second cell says of it: a task that was assigned to a worker that shuts
    down becomes more suspicious by one and is run again, and is broken once
    its suspiciousness exceeds [allowed-failures]; what a dead worker held in
    memory is computed again. *)

Module ResilienceRun.
Import Resilience.
Local Open Scope Z_scope.

(** The exceptions a run can end with: [db.from_sequence] with
    [npartitions=0], [os.kill] on a process that is gone, [summed.result()]
    of a computation with a broken task. *)
Inductive exception := TypeError | ProcessLookupError | KilledWorker.

(** [dask.config.set({'distributed.scheduler.allowed-failures': 100})] *)
Definition allowed_failures : nat := 100.

(** One task per partition of the bag: [multiply_by_two] over the partition,
    summed. *)
Inductive task_status :=
| Waiting
| Processing (worker : Z)
| InMemory (worker : Z) (value : Z)
| Erred.

Record task := { partition : list Z; status : task_status; suspicious : nat }.

Definition scheduler := list task.

(** [client.compute(summed)]: every task waits for a worker. *)
Definition submit (x : bag) : scheduler :=
  (λ p, {| partition := p; status := Waiting; suspicious := 0 |}) <$> x.

(** What happens on the cluster: the scheduler assigns task [t] to a
    worker, a worker finishes task [t], a worker shuts down. *)
Inductive event :=
| Assign (t : nat) (worker : Z)
| Finish (t : nat)
| WorkerDies (worker : Z).

Definition assign (w : Z) (t : task) : task :=
  match status t with
  | Waiting => {| partition := partition t; status := Processing w;
                  suspicious := suspicious t |}
  | _ => t
  end.

Definition finish (t : task) : task :=
  match status t with
  | Processing w =>
      {| partition := partition t;
         status := InMemory w (sum (multiply_by_two <$> partition t));
         suspicious := suspicious t |}
  | _ => t
  end.

Definition worker_dies (w : Z) (t : task) : task :=
  match status t with
  | Processing w' =>
      if bool_decide (w' = w) then
        {| partition := partition t;
           status := if bool_decide (allowed_failures < S (suspicious t))%nat
                     then Erred else Waiting;
           suspicious := S (suspicious t) |}
      else t
  | InMemory w' _ =>
      if bool_decide (w' = w) then
        {| partition := partition t; status := Waiting; suspicious := suspicious t |}
      else t
  | _ => t
  end.

Definition step (s : scheduler) (e : event) : scheduler :=
  match e with
  | Assign t w => alter (assign w) t s
  | Finish t => alter finish t s
  | WorkerDies w => worker_dies w <$> s
  end.

(** The future [summed]: in error once a task is broken, finished with the
    sum of the partial sums once every task's result is in memory. *)
Inductive future := Pending | Finished (value : Z) | Error.

Definition is_erred (t : task) : bool :=
  match status t with Erred => true | _ => false end.

Definition in_memory (t : task) : option Z :=
  match status t with InMemory _ v => Some v | _ => None end.

Definition summed_future (s : scheduler) : future :=
  if existsb is_erred s then Error
  else match mapM in_memory s with
       | Some values => Finished (sum values)
       | None => Pending
       end.

(** [summed.done()] *)
Definition done (f : future) : bool :=
  match f with Pending => false | _ => true end.

(** One turn of the loop, as the cluster makes it: the workers the
    scheduler lists when [kill_a_worker] is called, the random draw, the
    processes that exist then, and what happens during [sleep(3.0)]. *)
Record turn := {
  cluster : workers;
  draw : nat;
  exists_process : Z → bool;
  while_asleep : list event
}.

Inductive loop_end :=
| LoopDone (s : scheduler)
| LoopRaises (e : exception)
| LoopRunning.

(** [while not summed.done(): kill_a_worker(); sleep(3.0)], from the
    scheduler's state [s]: the signals sent and how the loop ends.  [os.kill]
    on a process that does not exist raises.  [LoopRunning]: the computation
    is not done after the last of [turns]. *)
Fixpoint kill_until_done (non_preemptible : list Z) (s : scheduler)
    (turns : list turn) : list os_kill * loop_end :=
  if done (summed_future s) then ([], LoopDone s)
  else
    match turns with
    | [] => ([], LoopRunning)
    | t :: turns' =>
        let kills := kill_a_worker non_preemptible (cluster t) (draw t) in
        if forallb (λ k, exists_process t (kill_pid k)) kills then
          let '(kills', e) :=
            kill_until_done non_preemptible
              (foldl step s (while_asleep t)) turns' in
          (kills ++ kills', e)
        else ([], LoopRaises ProcessLookupError)
    end.

Inductive ending :=
| Printed (line : string)
| Raises (e : exception)
| Running.

Record trace := { sent : list os_kill; ends : ending }.

(** The notebook from the cell of [N] on, with [n] for [N], run from top
    to bottom and stopping at the first exception: the workers of the
    cluster when [non_preemptible_workers] is set, what happens between
    [client.compute] and the first test of the loop, and the turns. *)
Definition run_notebook (n : nat) (initial : workers) (before : list event)
    (turns : list turn) : trace :=
  match from_sequence (range n) (n / 2)%nat with
  | None => {| sent := []; ends := Raises TypeError |}
  | Some x =>
      let '(kills, e) :=
        kill_until_done (non_preemptible_workers initial)
          (foldl step (submit x) before) turns in
      {| sent := kills;
         ends :=
           match e with
           | LoopDone s =>
               match summed_future s with
               | Finished value => Printed (check_message n value)
               | Error => Raises KilledWorker
               | Pending => Running
               end
           | LoopRaises ex => Raises ex
           | LoopRunning => Running
           end |}
  end.

(** The value of a task: [multiply_by_two] over its partition, summed. *)
Definition task_value (t : task) : Z := sum (multiply_by_two <$> partition t).

(** A result in memory is the value of its task. *)
Definition sound (t : task) : Prop :=
  ∀ w v, status t = InMemory w v → v = task_value t.

(** After [d] deaths of workers a task is suspicious at most [d] times, and
    broken only when it is so more than [allowed_failures] times. *)
Definition counted (d : nat) (t : task) : Prop :=
  (suspicious t ≤ d)%nat ∧ (status t = Erred → (allowed_failures < suspicious t)%nat).

Definition is_death (e : event) : bool :=
  match e with WorkerDies _ => true | _ => false end.

(** The number of workers that shut down during a run. *)
Definition count_deaths (es : list event) : nat :=
  length (filter (λ e, is_death e = true) es).

Definition deaths (before : list event) (turns : list turn) : nat :=
  count_deaths (before ++ (turns ≫= while_asleep)).

(** Sample runs.  Four workers; with [n = 4] the bag has the partitions
    [[0; 1]] and [[2; 3]].  The worker with the first task is killed in the
    first turn and the task is run again elsewhere. *)
Definition four_workers : workers :=
  [{| pid := 701 |}; {| pid := 702 |}; {| pid := 703 |}; {| pid := 704 |}].

Definition one_kill : list turn :=
  [{| cluster := four_workers; draw := 0; exists_process := λ _, true;
      while_asleep := [WorkerDies 703; Finish 1; Assign 0 702; Finish 0] |}].

(** Every task of [k] assigned to worker 701 and finished there. *)
Definition all_on_701 (k : nat) : list event :=
  t ← seq 0 k; [Assign t 701; Finish t].

(** The one task of [n = 2] assigned to worker 703 again and again, the
    worker shutting down each time. *)
Definition dies_each_time (k : nat) : list event :=
  _ ← seq 0 k; [Assign 0 703; WorkerDies 703].

End ResilienceRun.

(** * The hyper-parameter grid of the machine-learning overview
      (src/unnamed/part_000) *)

Module GridSearch.
Import PyAst.

#[export] Instance constant_eq_dec : EqDecision constant.
Proof. solve_decision. Defined.

(** A grid as [GridSearchCV] takes it: parameter names with the values to
    try. *)
Definition grid := list (string * list constant).

(** A dictionary display of string keys and lists of literals, as a grid. *)
Definition grid_of_expr (e : expr) : option grid :=
  match e with
  | EDict kvs =>
      mapM (λ kv : expr * expr,
        match kv with
        | (EConst (CStr k), EList vs) =>
            cs ← mapM (λ v, match v with EConst c => Some c | _ => None end) vs;
            Some (k, cs)
        | _ => None
        end) kvs
  | _ => None
  end.

(** The candidates of a grid search: one choice of value for every
    parameter (scikit-learn's [ParameterGrid], the first parameter varying
    slowest). *)
Fixpoint ParameterGrid (g : grid) : list (list (string * constant)) :=
  match g with
  | [] => [[]]
  | (k, vs) :: rest =>
      v ← vs; (λ c, (k, v) :: c) <$> ParameterGrid rest
  end.

(** The notebook's sentence after the fit. *)
Definition fit_note : string :=
  "We fit 48 different models, one for each hyper-parameter combination in `param_grid`, distributed across the cluster.".

End GridSearch.

(** * The CI workflows (src/.github/workflows) *)

Module CI.

Inductive action :=
| Uses (name : string) (env with_ : list (string * string))
| Run (commands : list (list string)).

Record step := { step_name : string; step_action : action }.

Record job := {
  job_id : string;
  runs_on : string;
  default_shell : option string;
  steps : list step
}.

Record workflow := {
  wf_file : string;
  wf_name : string;
  wf_on : list string;
  wf_concurrency_group : string;
  wf_cancel_in_progress : bool;
  wf_jobs : list job
}.

(** src/.github/workflows/ci-repo2docker.yaml *)
Definition ci_repo2docker : workflow := {|
  wf_file := ".github/workflows/ci-repo2docker.yaml";
  wf_name := "repo2docker CI";
  wf_on := ["push"; "pull_request"];
  wf_concurrency_group := "${{ github.workflow }}-${{ github.ref }}";
  wf_cancel_in_progress := true;
  wf_jobs := [
    {| job_id := "build"; runs_on := "ubuntu-latest"; default_shell := None;
       steps := [
         {| step_name := "Checkout";
            step_action := Uses "actions/checkout@v2" [] [] |};
         {| step_name := "Set up Python 3.9";
            step_action :=
              Uses "actions/setup-python@v2" [] [("python-version", "3.9")] |};
         {| step_name := "Install repo2docker";
            step_action := Run [
              ["python"; "-m"; "pip"; "install"; "--upgrade"; "pip"];
              ["python"; "-m"; "pip"; "install"; "jupyter-repo2docker"]] |};
         {| step_name := "Build dask-examples Docker image";
            step_action := Run [
              ["jupyter-repo2docker"; "--no-run"; "--debug"; "."]] |}
       ] |}
  ] |}.

(** src/.github/workflows/ci-update-dependencies.yaml *)
Definition ci_update_dependencies : workflow := {|
  wf_file := ".github/workflows/ci-update-dependencies.yaml";
  wf_name := "Update Dependencies";
  wf_on := ["push"; "pull_request"];
  wf_concurrency_group := "${{ github.workflow }}-${{ github.ref }}";
  wf_cancel_in_progress := true;
  wf_jobs := [
    {| job_id := "update-dependencies"; runs_on := "ubuntu-latest";
       default_shell := Some "bash -l {0}";
       steps := [
         {| step_name := "Checkout source";
            step_action := Uses "actions/checkout@v2" [] [] |};
         {| step_name := "Cache conda";
            step_action :=
              Uses "actions/cache@v2" [("CACHE_NUMBER", "0")]
                [("path", "~/conda_pkgs_dir");
                 ("key", "${{ runner.os }}-conda-${{ env.CACHE_NUMBER }}-${{ hashFiles('binder/environment-base.yml') }}")] |};
         {| step_name := "Setup Conda Environment";
            step_action :=
              Uses "conda-incubator/setup-miniconda@v2" []
                [("miniforge-variant", "Mambaforge");
                 ("miniforge-version", "latest");
                 ("environment-file", "binder/environment-base.yml");
                 ("auto-activate-base", "false");
                 ("activate-environment", "dask-examples");
                 ("use-only-tar-bz2", "true")] |};
         {| step_name := "Install dependencies";
            step_action := Run [
              ["mamba"; "install"; "nbconvert"; "nbformat"; "jupyter_client";
               "ipykernel"; "nbmake"; "pytest-xdist"]] |};
         {| step_name := "Execute Notebooks";
            step_action := Run [
              ["pytest"; "-vv"; "-n=auto"; "--forked"; "--nbmake"; "--overwrite";
               "--ignore"; "machine-learning/torch-prediction.ipynb";
               "--ignore"; "applications/json-data-on-the-web.ipynb"]] |}
       ] |}
  ] |}.

Definition workflows : list workflow := [ci_repo2docker; ci_update_dependencies].

(** Every command line a workflow runs, in order. *)
Definition commands (w : workflow) : list (list string) :=
  j ← wf_jobs w; s ← steps j;
  match step_action s with Run cs => cs | Uses _ _ _ => [] end.

(** ** pytest with the nbmake plugin, as far as the command line above
       uses it *)

(** The paths given with [--ignore]. *)
Fixpoint ignore_options (argv : list string) : list string :=
  match argv with
  | [] => []
  | a :: rest =>
      if bool_decide (a = "--ignore") then
        match rest with
        | p :: rest' => p :: ignore_options rest'
        | [] => []
        end
      else ignore_options rest
  end.

(** The components of a path between slashes. *)
Fixpoint components_go (cur : string) (p : string) : list string :=
  match p with
  | EmptyString => [String.rev cur]
  | String c rest =>
      if Ascii.eqb c "/" then String.rev cur :: components_go "" rest
      else components_go (String c cur) rest
  end.

Definition components (p : string) : list string := components_go "" p.

Definition has_suffix (suffix s : string) : bool :=
  String.prefix (String.rev suffix) (String.rev s).

(** [p] is the path [ignored] or lies below it. *)
Definition ignored_by (ignored p : string) : bool :=
  bool_decide (p = ignored) || String.prefix (ignored +:+ "/") p.

(** The directories pytest does not descend into by default
    ([norecursedirs]). *)
Definition norecurse (dir : string) : bool :=
  String.prefix "." dir || has_suffix ".egg" dir
  || bool_decide (dir ∈ ["_darcs"; "build"; "CVS"; "dist"; "node_modules"; "venv"; "{arch}"]).

Definition directories (p : string) : list string :=
  take (length (components p) - 1) (components p).

(** The file at the relative path [p] is collected and run as a notebook
    test by the pytest command line [argv], started at the repository root
    (no configuration file of pytest is among the sources).  pytest walks
    the directory tree, leaving out the directories of [norecursedirs], the
    directories named [__pycache__] and the paths given with [--ignore];
    nbmake makes a test of a file when [--nbmake] is given, the path
    matches [*ipynb] and [_build] is none of its components. *)
Definition collects (argv : list string) (p : string) : bool :=
  bool_decide ("--nbmake" ∈ argv)
  && has_suffix "ipynb" p
  && bool_decide ("_build" ∉ components p)
  && forallb (λ d, negb (norecurse d) && negb (bool_decide (d = "__pycache__")))
       (directories p)
  && forallb (λ i, negb (ignored_by i p)) (ignore_options argv).

Definition is_pytest (cmd : list string) : bool :=
  bool_decide (head cmd = Some "pytest").

(** The workflow runs the notebook at path [p] as a test. *)
Definition executes (w : workflow) (p : string) : bool :=
  existsb (λ cmd, is_pytest cmd && collects cmd p) (commands w).

(** The workflow runs notebooks as tests at all. *)
Definition executes_notebooks (w : workflow) : bool :=
  existsb (λ cmd, is_pytest cmd && bool_decide ("--nbmake" ∈ cmd)) (commands w).

(** The notebooks the workflow names as excluded. *)
Definition excluded (w : workflow) : list string :=
  cmd ← commands w; if is_pytest cmd then ignore_options cmd else [].

(** The workflow builds a container image of the repository:
    [jupyter-repo2docker] builds one, and with [--no-run] does not start it. *)
Definition builds_image (w : workflow) : bool :=
  existsb (λ cmd, bool_decide (head cmd = Some "jupyter-repo2docker")) (commands w).

(** Some workflow runs the notebook at [p]. *)
Definition ci_executes (p : string) : bool :=
  existsb (λ w, executes w p) workflows.

(** What running a notebook non-interactively, from top to bottom, comes
    to: every cell executed, or a cell raised an error.  It depends on the
    libraries installed, the data and the network, and is given. *)
Inductive outcome := Executed | Raised.

#[export] Instance outcome_eq_dec : EqDecision outcome.
Proof. solve_decision. Defined.

(** The exit status of the pytest command line [argv] in a checkout with
    the files [files], where [run] tells how each notebook runs: a notebook
    collected is a test, which passes when the notebook executes without
    error; pytest exits with 0 when every test passes, with 1 when one
    fails, with 5 when there is no test. *)
Definition pytest_exit (argv : list string) (files : list string)
    (run : string → outcome) : Z :=
  match filter (λ p, collects argv p = true) files with
  | [] => 5
  | collected =>
      if forallb (λ p, bool_decide (run p = Executed)) collected then 0 else 1
  end%Z.

(** The notebook tests of the workflow succeed: each of its pytest commands
    exits with 0. *)
Definition notebooks_pass (w : workflow) (files : list string)
    (run : string → outcome) : bool :=
  forallb (λ cmd, bool_decide (pytest_exit cmd files run = 0%Z))
    (filter (λ cmd, is_pytest cmd = true) (commands w)).

End CI.

(** * sed's substitute command, as far as src/binder/start uses it *)

Module Sed.

Definition text := list ascii.

Definition newline : ascii := ascii_of_nat 10.

Definition text_of (s : string) : text := String.list_ascii_of_string s.

(** An item of the replacement text of [s/regex/replacement/]: a character
    taken as it is, or the matched text (an unescaped ampersand). *)
Inductive repl_item := RLit (c : ascii) | RMatched.

(** The outcome of reading a script: a command; a script sed rejects with
    an error; or a script whose meaning lies outside this model (it is
    unspecified by POSIX or uses an extension). *)
Inductive parse (A : Type) :=
| Parsed (a : A)
| Rejected
| Unmodelled.
Arguments Parsed {A} a.
Arguments Rejected {A}.
Arguments Unmodelled {A}.

(** Characters with a meaning of their own in a basic regular expression. *)
Definition regex_special (c : ascii) : bool :=
  bool_decide (c ∈ text_of "\.*[]^$").

(** The regular expression up to the closing delimiter, and what follows
    the delimiter.  Only expressions of ordinary characters, which match
    themselves, are modelled. *)
Fixpoint parse_regex (delim : ascii) (s : text) : parse (text * text) :=
  match s with
  | [] => Rejected
  | c :: rest =>
      if bool_decide (c = delim) then Parsed ([], rest)
      else if bool_decide (c = newline) then Rejected
      else if regex_special c then Unmodelled
      else
        match parse_regex delim rest with
        | Parsed (re, rest') => Parsed (c :: re, rest')
        | Rejected => Rejected
        | Unmodelled => Unmodelled
        end
  end.

Definition is_digit (c : ascii) : bool := bool_decide (c ∈ text_of "0123456789").

(** The replacement up to the closing delimiter, and what follows it.  An
    ampersand stands for the matched text; a backslash makes an ampersand, a
    backslash, the delimiter or a newline literal; a backslash and a digit
    refers to a group, and the modelled expressions have none; a newline
    that is not escaped ends the script inside the command. *)
Fixpoint parse_replacement (delim : ascii) (s : text)
    : parse (list repl_item * text) :=
  let cons_item (it : repl_item) (r : parse (list repl_item * text)) :=
    match r with
    | Parsed (its, rest') => Parsed (it :: its, rest')
    | Rejected => Rejected
    | Unmodelled => Unmodelled
    end in
  match s with
  | [] => Rejected
  | c :: rest =>
      if bool_decide (c = delim) then Parsed ([], rest)
      else if bool_decide (c = newline) then Rejected
      else if bool_decide (c = "&"%char) then
        cons_item RMatched (parse_replacement delim rest)
      else if bool_decide (c = "\"%char) then
        match rest with
        | [] => Rejected
        | c' :: rest' =>
            if bool_decide (c' = delim) || bool_decide (c' = "&"%char)
               || bool_decide (c' = "\"%char) || bool_decide (c' = newline)
            then cons_item (RLit c') (parse_replacement delim rest')
            else if is_digit c' then
              if bool_decide (c' = "0"%char) then Unmodelled else Rejected
            else Unmodelled
        end
      else cons_item (RLit c) (parse_replacement delim rest)
  end.

(** A substitute command with the flag [g]. *)
Record substitute := { regex : text; replacement : list repl_item }.

(** A script that is one [s] command with the flag [g]. *)
Definition parse_script (script : text) : parse substitute :=
  match script with
  | s :: delim :: rest =>
      if negb (bool_decide (s = "s"%char)) then Unmodelled
      else if bool_decide (delim = newline) || bool_decide (delim = "\"%char)
      then Rejected
      else
        match parse_regex delim rest with
        | Parsed (re, rest1) =>
            match parse_replacement delim rest1 with
            | Parsed (repl, flags) =>
                if bool_decide (re = []) then Unmodelled
                else if bool_decide (flags = text_of "g")
                then Parsed {| regex := re; replacement := repl |}
                else Unmodelled
            | Rejected => Rejected
            | Unmodelled => Unmodelled
            end
        | Rejected => Rejected
        | Unmodelled => Unmodelled
        end
  | _ => Unmodelled
  end.

(** The replacement text for a match. *)
Definition expand (repl : list repl_item) (matched : text) : text :=
  flat_map (λ it, match it with RLit c => [c] | RMatched => matched end) repl.

(** [starts_with p s]: [p] is a prefix of [s]. *)
Fixpoint starts_with (p s : text) : bool :=
  match p, s with
  | [], _ => true
  | _ :: _, [] => false
  | a :: p', b :: s' => bool_decide (a = b) && starts_with p' s'
  end.

(** The substitution with flag [g] on one line, scanning from the left:
    where the expression matches, the replacement is written and the scan
    goes on after the match ([skip] counts the characters of a match still
    to pass); elsewhere the character is copied. *)
Fixpoint substitute_from (cmd : substitute) (skip : nat) (line : text) : text :=
  match line with
  | [] => []
  | c :: rest =>
      match skip with
      | S k => substitute_from cmd k rest
      | O =>
          if starts_with (regex cmd) line
          then expand (replacement cmd) (regex cmd)
                 ++ substitute_from cmd (length (regex cmd) - 1) rest
          else c :: substitute_from cmd 0 rest
      end
  end.

Definition substitute_line (cmd : substitute) (line : text) : text :=
  substitute_from cmd 0 line.

(** The lines of a text: the pieces between newlines.  A text that ends in
    a newline has an empty last piece, so that [unlines] gives the text
    back, with or without a final newline. *)
Fixpoint lines (s : text) : list text :=
  match s with
  | [] => [[]]
  | c :: rest =>
      if bool_decide (c = newline) then [] :: lines rest
      else
        match lines rest with
        | l :: ls => (c :: l) :: ls
        | [] => [[c]]
        end
  end.

Fixpoint unlines (ls : list text) : text :=
  match ls with
  | [] => []
  | [l] => l
  | l :: ls' => l ++ newline :: unlines ls'
  end.

(** sed reads its input line by line and runs the command on each. *)
Definition run (cmd : substitute) (input : text) : text :=
  unlines (substitute_line cmd <$> lines input).

(** [p] occurs in [t]. *)
Definition occurs (p t : text) : Prop := ∃ a b, t = a ++ p ++ b.

(** [p] has no border: no proper non-empty prefix of it is also a suffix. *)
Definition border_free (p : text) : Prop :=
  ∀ k, (0 < k < length p)%nat → take k p ≠ drop (length p - k) p.

(** The texts [ts] joined with [sep] between them. *)
Fixpoint join (sep : text) (ts : list text) : text :=
  match ts with
  | [] => []
  | [t] => t
  | t :: ts' => t ++ sep ++ join sep ts'
  end.

End Sed.

(** * The start script (src/binder/start) *)

Module Start.
Import Sed.

(** Files by path with their content, and the directories known to exist. *)
Record filesystem := { files : gmap string text; dirs : gset string }.

(** The environment: the value of a variable that is set. *)
Definition environment := gmap string text.

(** [${name}]: the value, or nothing when the variable is not set. *)
Definition expand_parameter (env : environment) (name : string) : text :=
  default [] (env !! name).

Definition placeholder : text := text_of "DASK_DASHBOARD_URL".

(** [${JUPYTERHUB_BASE_URL}user/${JUPYTERHUB_USER}/proxy/8787] *)
Definition proxy_location (env : environment) : text :=
  expand_parameter env "JUPYTERHUB_BASE_URL" ++ text_of "user/"
  ++ expand_parameter env "JUPYTERHUB_USER" ++ text_of "/proxy/8787".

(** The script given to sed, after the shell has expanded the double
    quotes:
    ["s|DASK_DASHBOARD_URL|${JUPYTERHUB_BASE_URL}user/${JUPYTERHUB_USER}/proxy/8787|g"] *)
Definition sed_script (env : environment) : text :=
  text_of "s|DASK_DASHBOARD_URL|" ++ expand_parameter env "JUPYTERHUB_BASE_URL"
  ++ text_of "user/" ++ expand_parameter env "JUPYTERHUB_USER"
  ++ text_of "/proxy/8787|g".

Definition workspace : string := "binder/example.jupyterlab-workspace".

(** [~/.jupyter/lab/workspaces/], with [home] the expansion of the tilde. *)
Definition workspaces_dir (home : string) : string :=
  home +:+ "/.jupyter/lab/workspaces/".

Definition default_workspace (home : string) : string :=
  workspaces_dir home +:+ "default-37a8.jupyterlab-workspace".

(** [sed -i -e script path].  A script sed rejects and a file that is not
    there both leave the file system as it is; the script goes on either
    way, as it does not stop at a failing command.  [None] when the script
    lies outside the model of sed. *)
Definition sed_i (script : text) (path : string) (fs : filesystem)
    : option filesystem :=
  match parse_script script with
  | Unmodelled => None
  | Rejected => Some fs
  | Parsed cmd =>
      match files fs !! path with
      | Some content =>
          Some {| files := <[path := run cmd content]> (files fs); dirs := dirs fs |}
      | None => Some fs
      end
  end.

(** [mkdir -p dir] *)
Definition mkdir_p (dir : string) (fs : filesystem) : filesystem :=
  {| files := files fs; dirs := {[dir]} ∪ dirs fs |}.

(** [mv src dir/name]: moves the file when it is there and the target
    directory exists. *)
Definition mv (src dir name : string) (fs : filesystem) : filesystem :=
  match files fs !! src with
  | Some content =>
      if bool_decide (dir ∈ dirs fs)
      then {| files := <[dir +:+ name := content]> (delete src (files fs));
              dirs := dirs fs |}
      else fs
  | None => fs
  end.

(** What the script ends in: [exec "$@"] replaces the shell by the command
    of the arguments, which finds the file system as the lines before left
    it. *)
Record launch := { command : list text; at_launch : filesystem }.

Definition start (env : environment) (home : string) (args : list text)
    (fs : filesystem) : option launch :=
  fs1 ← sed_i (sed_script env) workspace fs;
  let fs2 := mkdir_p (workspaces_dir home) fs1 in
  let fs3 := mv workspace (workspaces_dir home) "default-37a8.jupyterlab-workspace" fs2 in
  Some {| command := args; at_launch := fs3 |}.

(** Characters of a value that sed would not take literally in the
    replacement of the script: the delimiter, the ampersand, the backslash
    and the newline. *)
Definition sed_special (c : ascii) : bool :=
  bool_decide (c ∈ ["|"%char; "&"%char; "\"%char; newline]).

Definition sed_literal (v : text) : Prop := Forall (λ c, sed_special c = false) v.

(** The command the script hands to sed when the values are literal. *)
Definition proxy_command (env : environment) : substitute :=
  {| regex := placeholder; replacement := RLit <$> proxy_location env |}.

(** Sample inputs: a hub user [alice], a user name with an ampersand, and
    a checkout that holds the workspace file with a given content. *)
Definition alice : environment :=
  <["JUPYTERHUB_BASE_URL" := text_of "/"]> (<["JUPYTERHUB_USER" := text_of "alice"]> ∅).

Definition ampersand : environment :=
  <["JUPYTERHUB_BASE_URL" := text_of "/"]> (<["JUPYTERHUB_USER" := text_of "a&b"]> ∅).

Definition checkout (content : string) : filesystem :=
  {| files := {[ workspace := text_of content ]}; dirs := ∅ |}.

End Start.

(** * More on the start script: values with an ampersand or a newline *)

Module StartValues.
Import Sed Start.

(** Characters that end or break the replacement text of the script: the
    delimiter, the backslash and the newline.  An ampersand does not. *)
Definition breaks_replacement (c : ascii) : bool :=
  bool_decide (c ∈ ["|"%char; "\"%char; newline]).

Definition unbroken (v : text) : Prop := Forall (λ c, breaks_replacement c = false) v.

(** The item sed reads for a character of an unbroken value. *)
Definition item_of (c : ascii) : repl_item :=
  if bool_decide (c = "&"%char) then RMatched else RLit c.

(** What sed writes for a match when the replacement text is [v]: [v] with
    the matched text in place of every ampersand. *)
Definition written_for (v matched : text) : text :=
  flat_map (λ c, if bool_decide (c = "&"%char) then matched else [c]) v.

End StartValues.

(** * More on the loop of the resilience notebook *)

Module ResilienceLoop.
Import Resilience.

(** The list [preemptible_workers] that [kill_a_worker] builds. *)
Definition preemptible_workers (non_preemptible : list Z) (ws : workers) : list Z :=
  filter (λ p, p ∉ non_preemptible) (pid <$> ws).

End ResilienceLoop.

(** * Evolving workflows (src/applications/evolving-workflows.ipynb) *)

Module EvolvingWorkflows.

(** [filenames = ["file.{}.txt".format(i) for i in range(10)]] *)
Definition filenames : list string :=
  (λ i : nat, "file." +:+ pretty i +:+ ".txt") <$> seq 0 10.

(** What a call [parse_file(fn)] may return, whatever [fn]: a list of
    [random.randint(1, 10)] items, each a [random.random()], that is, at
    least 0 and below 1. *)
Definition parse_file_returns (L : list float) : Prop :=
  1 ≤ length L ≤ 10
  ∧ Forall (λ x, PrimFloat.leb 0 x = true ∧ PrimFloat.ltb x 1 = true) L.

(** [def process_item(x): time.sleep(random.random() / 4); return x + 1] *)
Definition process_item (x : float) : float := (x + 1)%float.

(** A [for] loop whose body may raise: the state after the last turn, or
    nothing when a turn raises. *)
Fixpoint for_loop {A S : Type} (xs : list A) (body : S → A → option S) (s : S)
    : option S :=
  match xs with
  | [] => Some s
  | x :: xs' => s' ← body s x; for_loop xs' body s'
  end.

(** In the definitions below [parse_file] stands for the outcome of the one
    call of [parse_file] that a run makes for each file name. *)

(** Section 0, the sequential code:
    [[
    results = []
    for fn in filenames:
        L = parse_file(fn)
        for x in L:
            out = process_item(x)
            results.append(out)
    ]] *)
Definition sequential (parse_file : string → list float) (filenames : list string)
    : list float :=
  foldl (λ results fn,
    let L := parse_file fn in
    foldl (λ results x, let out := process_item x in results ++ [out]) results L)
    [] filenames.

(** Section 1, with [as_completed].  A future is held as the value it
    resolves to.  [order] lists the positions of the futures of [lengths] in
    the order in which [as_completed] yields them.  Looking up a position
    that is not there and indexing a list out of range raise.
    [[
    lists = client.map(parse_file, filenames, pure=False)
    lengths = client.map(len, lists)
    mapping = dict(zip(lengths, lists))
    futures = []
    for future in as_completed(lengths):
        n = future.result()
        L = mapping[future]
        for i in range(n):
            new = client.submit(operator.getitem, L, i, priority=1)
            new = client.submit(process_item, new, priority=1)
            futures.append(new)
    client.gather(futures)
    ]] *)
Definition with_as_completed (parse_file : string → list float)
    (filenames : list string) (order : list nat) : option (list float) :=
  let lists := parse_file <$> filenames in
  let lengths := length <$> lists in
  for_loop order (λ futures future,
    n ← lengths !! future;
    L ← lists !! future;
    for_loop (seq 0 n) (λ futures i,
      new ← L !! i;
      let new := process_item new in
      Some (futures ++ [new])) futures) [].

(** Section 2, with coroutines.  [asyncio.gather] returns the results in
    the order of its arguments, and [sum(lists, [])] appends them from the
    left.
    [[
    async def f(fn):
        future = client.submit(parse_file, fn, pure=False)
        length_future = client.submit(len, future)
        length = await length_future
        futures = [client.submit(operator.getitem, future, i, priority=10)
                   for i in range(length)]
        futures = client.map(process_item, futures, priority=10)
        return futures

    async def run_all(filenames):
        list_of_list_of_futures = await asyncio.gather( *[f(fn) for fn in filenames])
        futures = sum(list_of_list_of_futures, [])
        return await client.gather(futures)
    ]] *)
Definition f (parse_file : string → list float) (fn : string) : option (list float) :=
  let future := parse_file fn in
  let length := length future in
  futures ← mapM (λ i, future !! i) (seq 0 length);
  Some (process_item <$> futures).

Definition run_all (parse_file : string → list float) (filenames : list string)
    : option (list float) :=
  list_of_list_of_futures ← mapM (f parse_file) filenames;
  Some (foldl app [] list_of_list_of_futures).

(** Section 3, tasks that submit tasks.  The result keeps one list per
    file.
    [[
    def f(fn):
        L = parse_file(fn)
        client = get_client()
        futures = client.map(process_item, L, priority=10)
        secede()
        results = client.gather(futures)
        rejoin()
        return results

    futures = client.map(f, filenames, pure=False)
    results = client.gather(futures)
    ]] *)
Definition f_task (parse_file : string → list float) (fn : string) : list float :=
  let L := parse_file fn in
  process_item <$> L.

Definition from_tasks (parse_file : string → list float) (filenames : list string)
    : list (list float) :=
  f_task parse_file <$> filenames.

End EvolvingWorkflows.

(** * Embarrassingly parallel workloads (second notebook of
      src/applications/evolving-workflows.ipynb) *)

Module EmbarrassinglyParallel.

(** [def costly_simulation(list_param): time.sleep(random.random());
    return sum(list_param)]: the sum from the left, starting at 0. *)
Definition costly_simulation (list_param : list float) : float :=
  foldl PrimFloat.add 0%float list_param.

(** [for parameters in rows: result = costly_simulation(parameters);
    results.append(result)], from the list [results]. *)
Definition append_results (results : list float) (rows : list (list float))
    : list float :=
  foldl (λ results parameters,
    let result := costly_simulation parameters in results ++ [result]) results rows.

(** The sample run: [results = []], then the loop over
    [input_params.values[:10]]. *)
Definition sample_results (values : list (list float)) : list float :=
  append_results [] (take 10 values).

(** A delayed call: the function and its argument, not yet run. *)
Definition delayed : Type := (list float → float) * list float.

(** [for parameters in rows: lazy_result = dask.delayed(costly_simulation)(parameters);
    lazy_results.append(lazy_result)], from [lazy_results = []]. *)
Definition lazy_results (rows : list (list float)) : list delayed :=
  foldl (λ lazy_results parameters,
    let lazy_result := (costly_simulation, parameters) in
    lazy_results ++ [lazy_result]) [] rows.

(** [dask.compute( *lazy_results)]: every call is run, the results keep
    their order. *)
Definition compute (ds : list delayed) : list float := (λ d : delayed, d.1 d.2) <$> ds.

(** [for parameters in input_params.values: future =
    client.submit(costly_simulation, parameters); futures.append(future)],
    then [client.gather(futures)]; a future is held as its value. *)
Definition gathered_futures (values : list (list float)) : list float :=
  foldl (λ futures parameters,
    let future := costly_simulation parameters in futures ++ [future]) [] values.

(** [client.gather(client.map(costly_simulation, input_params.values))] *)
Definition gathered_map (values : list (list float)) : list float :=
  costly_simulation <$> values.

(** [db.from_sequence(list(input_params.values), npartitions=100)] cuts the
    rows into consecutive partitions, where the library chooses;
    [b.map(costly_simulation).compute()] maps every partition and
    concatenates the results. *)
Definition from_sequence (values : list (list float)) (b : list (list (list float)))
    : Prop :=
  concat b = values.

Definition results_bag (b : list (list (list float))) : list float :=
  concat (map (map costly_simulation) b).

End EmbarrassinglyParallel.

(** * File names by date (src/dataframes/01-data-access.ipynb) *)

Module DataAccess.
Local Open Scope Z_scope.

(** A [datetime.date]. *)
Record date := { year : Z; month : Z; day : Z }.

Definition is_leap (y : Z) : bool :=
  (y mod 4 =? 0) && (negb (y mod 100 =? 0) || (y mod 400 =? 0)).

Definition days_in_month (y m : Z) : Z :=
  if m =? 2 then (if is_leap y then 29 else 28)
  else if (m =? 4) || (m =? 6) || (m =? 9) || (m =? 11) then 30
  else 31.

(** The dates [datetime.date] can hold: years 1 to 9999 of the Gregorian
    calendar. *)
Definition valid (d : date) : Prop :=
  1 ≤ year d ≤ 9999 ∧ 1 ≤ month d ≤ 12 ∧ 1 ≤ day d ≤ days_in_month (year d) (month d).

(** The day after, or nothing after 9999-12-31 ([OverflowError]). *)
Definition next_day (d : date) : option date :=
  if day d <? days_in_month (year d) (month d)
  then Some {| year := year d; month := month d; day := day d + 1 |}
  else if month d <? 12
  then Some {| year := year d; month := month d + 1; day := 1 |}
  else if year d <? 9999
  then Some {| year := year d + 1; month := 1; day := 1 |}
  else None.

(** The day before, or nothing before 0001-01-01. *)
Definition prev_day (d : date) : option date :=
  if 1 <? day d
  then Some {| year := year d; month := month d; day := day d - 1 |}
  else if 1 <? month d
  then Some {| year := year d; month := month d - 1;
               day := days_in_month (year d) (month d - 1) |}
  else if 1 <? year d
  then Some {| year := year d - 1; month := 12; day := 31 |}
  else None.

Fixpoint repeat_day (step : date → option date) (n : nat) (d : date) : option date :=
  match n with
  | O => Some d
  | S n' => d' ← step d; repeat_day step n' d'
  end.

(** [d + days * datetime.timedelta(days=1)]: the date that many days
    later, or earlier for a negative number. *)
Definition add_days (d : date) (days : Z) : option date :=
  if 0 <=? days then repeat_day next_day (Z.to_nat days) d
  else repeat_day prev_day (Z.to_nat (- days)) d.

Definition digit (n : Z) : ascii := ascii_of_N (48 + Z.to_N n).

(** [str(d)], the ISO format [YYYY-MM-DD] with leading zeros. *)
Definition str (d : date) : string :=
  String.string_of_list_ascii
    [digit (year d / 1000 mod 10); digit (year d / 100 mod 10);
     digit (year d / 10 mod 10); digit (year d mod 10); "-"%char;
     digit (month d / 10); digit (month d mod 10); "-"%char;
     digit (day d / 10); digit (day d mod 10)].

(** [[
    def name(i):
        return str(datetime.date(2000, 1, 1) + i * datetime.timedelta(days=1))
    ]]
    Nothing when the date is out of range. *)
Definition name (i : Z) : option string :=
  str <$> add_days {| year := 2000; month := 1; day := 1 |} i.

(** Dates in the order of the calendar. *)
Definition date_lt (a b : date) : Prop :=
  year a < year b
  ∨ (year a = year b ∧ (month a < month b ∨ (month a = month b ∧ day a < day b))).

End DataAccess.

(** * Properties of the substitute command *)

Section SedFacts.
Import Sed.

Lemma starts_with_app_iff (p s : text) :
  starts_with p s = true ↔ ∃ r, s = p ++ r.
Proof.
  revert s. induction p as [|a p IH]; intros s; simpl.
  - split; [intros _; by exists s | done].
  - destruct s as [|b s].
    + split; [done | intros [r Hr]; discriminate].
    + rewrite andb_true_iff, bool_decide_eq_true, IH. split.
      * intros [-> [r ->]]. by exists r.
      * intros [r [= -> ->]]. eauto.
Qed.

Lemma starts_with_weaken (p a b : text) :
  starts_with p a = true → starts_with p (a ++ b) = true.
Proof.
  rewrite !starts_with_app_iff. intros [r ->]. exists (r ++ b).
  by rewrite <- app_assoc.
Qed.

Lemma starts_with_occurs (p s : text) : starts_with p s = true → occurs p s.
Proof. rewrite starts_with_app_iff. intros [r ->]. by exists [], r. Qed.

Lemma occurs_cons (p : text) c t :
  occurs p (c :: t) → starts_with p (c :: t) = true ∨ occurs p t.
Proof.
  intros [[|a0 a] [b Hb]]; simpl in Hb.
  - left. apply starts_with_app_iff. eauto.
  - right. injection Hb as -> ->. by exists a, b.
Qed.

Lemma occurs_tail (p : text) c t : occurs p t → occurs p (c :: t).
Proof. intros (a & b & ->). by exists (c :: a), b. Qed.

Lemma not_occurs_nil (p : text) : p ≠ [] → ¬ occurs p [].
Proof.
  intros Hp (a & b & H). symmetry in H.
  apply app_eq_nil in H as [_ H]. apply app_eq_nil in H as [H _]. done.
Qed.

(** A line before a newline cannot hold the start of a match that reaches
    beyond it. *)
Lemma starts_with_before_newline (p a b : text) :
  newline ∉ p → starts_with p (a ++ newline :: b) = true → starts_with p a = true.
Proof.
  revert a. induction p as [|x p IH]; intros a Hnl; [done|].
  destruct a as [|y a]; simpl.
  - rewrite andb_true_iff, bool_decide_eq_true. intros [-> _].
    exfalso. apply Hnl. left.
  - rewrite !andb_true_iff. intros [? ?]. split; [done|].
    apply IH; [|done]. intros ?. apply Hnl. by right.
Qed.

Context (cmd : substitute).
Local Notation "'re'" := (regex cmd).
Local Notation "'out'" := (expand (replacement cmd) (regex cmd)).

Lemma substitute_from_skip (l rest : text) :
  substitute_from cmd (length l) (l ++ rest) = substitute_from cmd 0 rest.
Proof.
  induction l as [|c l IH]; simpl; [|done].
  by destruct rest.
Qed.

Lemma substitute_line_nil : substitute_line cmd [] = [].
Proof. done. Qed.

Lemma substitute_line_match (rest : text) :
  re ≠ [] → substitute_line cmd (re ++ rest) = out ++ substitute_line cmd rest.
Proof.
  intros Hre. unfold substitute_line.
  destruct re as [|c p] eqn:Hp; [done|].
  change ((c :: p) ++ rest) with (c :: (p ++ rest)).
  cbn [substitute_from]. rewrite Hp.
  assert (starts_with (c :: p) (c :: p ++ rest) = true) as ->.
  { apply starts_with_app_iff. by exists rest. }
  f_equal. cbn [length]. rewrite Nat.sub_1_r. cbn [Nat.pred].
  apply substitute_from_skip.
Qed.

Lemma substitute_line_copy c (rest : text) :
  starts_with re (c :: rest) = false →
  substitute_line cmd (c :: rest) = c :: substitute_line cmd rest.
Proof. intros H. unfold substitute_line. cbn [substitute_from]. by rewrite H. Qed.

(** A text without a match is copied. *)
Lemma substitute_line_free (t : text) :
  ¬ occurs re t → substitute_line cmd t = t.
Proof.
  induction t as [|c t IH]; intros Hfree; [done|].
  rewrite substitute_line_copy.
  - f_equal. apply IH. intros ?. by apply Hfree, occurs_tail.
  - apply not_true_is_false. intros ?. by apply Hfree, starts_with_occurs.
Qed.

(** Before a match and after a text free of matches, no match starts: it
    would end inside the match that follows, making a border. *)
Lemma no_match_before (t rest : text) :
  border_free re → ¬ occurs re t → t ≠ [] →
  starts_with re (t ++ re ++ rest) = false.
Proof.
  intros Hbf Hfree Ht. apply not_true_is_false.
  rewrite starts_with_app_iff. intros [r Hr].
  destruct (decide (length re ≤ length t)) as [Hle|Hlt].
  - apply Hfree. apply (f_equal (take (length re))) in Hr.
    rewrite take_app_le in Hr by done.
    rewrite take_app_length in Hr.
    exists [], (drop (length re) t). simpl.
    rewrite <- (take_drop (length re) t) at 1. by rewrite Hr.
  - apply Nat.nle_gt in Hlt.
    assert (0 < length t) by (destruct t; [done | simpl; lia]).
    apply (Hbf (length re - length t)); [lia|].
    replace (length re - (length re - length t)) with (length t) by lia.
    pose proof (f_equal (take (length re)) Hr) as H1.
    rewrite take_app_length in H1.
    rewrite take_app_ge in H1 by lia.
    rewrite take_app_le in H1 by lia.
    rewrite <- H1 at 3.
    by rewrite drop_app_length.
Qed.

Lemma substitute_line_segment (t rest : text) :
  re ≠ [] → border_free re → ¬ occurs re t →
  substitute_line cmd (t ++ re ++ rest) = t ++ out ++ substitute_line cmd rest.
Proof.
  intros Hre Hbf. induction t as [|c t IH]; intros Hfree.
  - by apply substitute_line_match.
  - change ((c :: t) ++ re ++ rest) with (c :: (t ++ re ++ rest)).
    rewrite substitute_line_copy.
    + simpl. f_equal. apply IH. intros ?. by apply Hfree, occurs_tail.
    + by apply (no_match_before (c :: t) rest).
Qed.

(** Every match is replaced and the text between matches is kept. *)
Lemma substitute_line_join (ts : list text) :
  re ≠ [] → border_free re → Forall (λ t, ¬ occurs re t) ts →
  substitute_line cmd (join re ts) = join out ts.
Proof.
  intros Hre Hbf. induction 1 as [|t ts Ht Hts IH]; [done|].
  destruct ts as [|t' ts].
  - by apply substitute_line_free.
  - change (join re (t :: t' :: ts)) with (t ++ re ++ join re (t' :: ts)).
    change (join out (t :: t' :: ts)) with (t ++ out ++ join out (t' :: ts)).
    rewrite substitute_line_segment by done. by rewrite IH.
Qed.

(** A newline is copied and separates the substitutions before and after
    it. *)
Lemma substitute_line_newline (a b : text) :
  re ≠ [] → newline ∉ re →
  substitute_line cmd (a ++ newline :: b)
  = substitute_line cmd a ++ newline :: substitute_line cmd b.
Proof.
  intros Hre Hnl. remember (length a) as n eqn:Hn.
  revert a Hn. induction n as [n IH] using lt_wf_ind. intros a ->.
  destruct a as [|c a].
  - simpl. apply substitute_line_copy. apply not_true_is_false. intros H.
    apply (starts_with_before_newline _ [] b) in H; [|done].
    destruct re; [done | discriminate].
  - destruct (starts_with re ((c :: a) ++ newline :: b)) eqn:Hm.
    + apply starts_with_before_newline in Hm; [|done].
      apply starts_with_app_iff in Hm as [r Hr]. rewrite Hr.
      rewrite <- app_assoc, !substitute_line_match by done.
      rewrite <- app_assoc. f_equal.
      apply (IH (length r)); [|done].
      rewrite Hr, length_app. destruct re; [done | simpl; lia].
    + change ((c :: a) ++ newline :: b) with (c :: (a ++ newline :: b)) in *.
      rewrite substitute_line_copy by done.
      rewrite (substitute_line_copy c a).
      * simpl. f_equal. by apply (IH (length a)); [simpl; lia|].
      * apply not_true_is_false. intros H.
        apply (starts_with_weaken _ _ (newline :: b)) in H. simpl in H. congruence.
Qed.

Lemma substitute_line_unlines (ls : list text) :
  re ≠ [] → newline ∉ re →
  substitute_line cmd (unlines ls) = unlines (substitute_line cmd <$> ls).
Proof.
  intros Hre Hnl. induction ls as [|l ls IH]; [done|].
  destruct ls as [|l' ls]; [done|].
  change (unlines (l :: l' :: ls)) with (l ++ newline :: unlines (l' :: ls)).
  rewrite substitute_line_newline by done. rewrite IH. done.
Qed.

End SedFacts.

Lemma unlines_lines (s : Sed.text) : Sed.unlines (Sed.lines s) = s.
Proof.
  induction s as [|c s IH]; [done|]. simpl.
  case_bool_decide as Hc.
  - subst c. destruct (Sed.lines s) as [|l ls] eqn:Hl; simpl in *.
    + by subst s.
    + by rewrite IH.
  - destruct (Sed.lines s) as [|l ls] eqn:Hl; simpl in *.
    + by subst s.
    + destruct ls; simpl in *; by rewrite <- IH.
Qed.

(** Running the command line by line is one scan of the whole input, when
    no match can hold a newline. *)
Lemma run_whole (cmd : Sed.substitute) (s : Sed.text) :
  Sed.regex cmd ≠ [] → Sed.newline ∉ Sed.regex cmd →
  Sed.run cmd s = Sed.substitute_line cmd s.
Proof.
  intros Hre Hnl. unfold Sed.run.
  rewrite <- substitute_line_unlines by done. by rewrite unlines_lines.
Qed.

(** Every text is its pieces free of [p], joined by [p]. *)
Lemma join_exists (p s : Sed.text) :
  p ≠ [] → ∃ ts, s = Sed.join p ts ∧ Forall (λ t, ¬ Sed.occurs p t) ts.
Proof.
  intros Hp.
  cut (∃ t ts, s = Sed.join p (t :: ts) ∧ Forall (λ t, ¬ Sed.occurs p t) (t :: ts)).
  { intros (t & ts & ? & ?). by exists (t :: ts). }
  induction s as [|c s (t & ts & Hs & Hts)].
  - exists [], []. split; [done|]. constructor; [|done]. by apply not_occurs_nil.
  - apply Forall_cons in Hts as [Ht Hts].
    destruct (Sed.starts_with p (c :: t)) eqn:Hm.
    + apply starts_with_app_iff in Hm as [r Hr].
      exists [], (r :: ts). split.
      * subst s. destruct ts as [|t' ts].
        -- simpl. by rewrite Hr.
        -- change (Sed.join p (t :: t' :: ts)) with (t ++ p ++ Sed.join p (t' :: ts)).
           change (Sed.join p ([] :: r :: t' :: ts))
             with (p ++ r ++ p ++ Sed.join p (t' :: ts)).
           by rewrite app_comm_cons, Hr, <- app_assoc.
      * constructor; [by apply not_occurs_nil|]. constructor; [|done].
        intros (a & b & ->). apply Ht.
        destruct p as [|x p]; [done|]. simpl in Hr. injection Hr as -> ->.
        exists (p ++ a), b. by rewrite <- app_assoc.
    + exists (c :: t), ts. split.
      * subst s. by destruct ts.
      * constructor; [|done]. intros H.
        apply occurs_cons in H as [H|H]; [congruence | done].
Qed.

(** * The start script *)

Section StartFacts.
Import Sed Start.

Lemma expand_literal (v m : text) : expand (RLit <$> v) m = v.
Proof. induction v as [|c v IH]; [done|]. simpl. f_equal. apply IH. Qed.

Lemma sed_special_false c :
  sed_special c = false →
  c ≠ "|"%char ∧ c ≠ "&"%char ∧ c ≠ "\"%char ∧ c ≠ newline.
Proof.
  unfold sed_special. rewrite bool_decide_eq_false.
  intros H. repeat split; intros ->; apply H; set_solver.
Qed.

(** A value without special characters is read as itself. *)
Lemma parse_replacement_literal (v rest : text) :
  sed_literal v →
  parse_replacement "|" (v ++ rest) =
    match parse_replacement "|" rest with
    | Parsed (its, rest') => Parsed ((RLit <$> v) ++ its, rest')
    | Rejected => Rejected
    | Unmodelled => Unmodelled
    end.
Proof.
  induction 1 as [|c v Hc Hv IH]; simpl.
  - by destruct (parse_replacement "|" rest) as [[??]| |].
  - apply sed_special_false in Hc as (H1 & H2 & H3 & H4).
    rewrite !bool_decide_eq_false_2 by done.
    rewrite IH. by destruct (parse_replacement "|" rest) as [[??]| |].
Qed.

Lemma sed_literal_app (u v : text) : sed_literal u → sed_literal v → sed_literal (u ++ v).
Proof. apply Forall_app_2. Qed.

Lemma proxy_location_literal (env : environment) :
  sed_literal (expand_parameter env "JUPYTERHUB_BASE_URL") →
  sed_literal (expand_parameter env "JUPYTERHUB_USER") →
  sed_literal (proxy_location env).
Proof.
  intros Hb Hu. unfold proxy_location.
  repeat apply sed_literal_app; try done; by repeat constructor.
Qed.

Lemma sed_script_parts (env : environment) :
  sed_script env = text_of "s|" ++ placeholder ++ text_of "|" ++ proxy_location env ++ text_of "|g".
Proof.
  unfold sed_script, proxy_location. by rewrite <- !app_assoc.
Qed.

(** With values free of special characters, the script is the command
    that replaces the placeholder by the proxy location as it is written. *)
Lemma parse_sed_script (env : environment) :
  sed_literal (expand_parameter env "JUPYTERHUB_BASE_URL") →
  sed_literal (expand_parameter env "JUPYTERHUB_USER") →
  parse_script (sed_script env) = Parsed (proxy_command env).
Proof.
  intros Hb Hu. rewrite sed_script_parts. unfold proxy_command.
  pose proof (proxy_location_literal env Hb Hu) as Hl.
  generalize dependent (proxy_location env). intros url Hl.
  change (parse_script (text_of "s|" ++ placeholder ++ text_of "|" ++ url ++ text_of "|g"))
    with (match parse_replacement "|" (url ++ text_of "|g") with
          | Parsed (repl, flags) =>
              if bool_decide (flags = text_of "g")
              then Parsed {| regex := placeholder; replacement := repl |}
              else Unmodelled
          | Rejected => Rejected
          | Unmodelled => Unmodelled
          end).
  rewrite parse_replacement_literal by done. simpl.
  by rewrite app_nil_r.
Qed.

Lemma placeholder_border_free : border_free placeholder.
Proof.
  intros k [Hk1 Hk2]. change (length placeholder) with 18 in *.
  do 18 (destruct k as [|k]; [by (lia || (vm_compute; discriminate))|]).
  simpl in Hk2. lia.
Qed.

Lemma placeholder_no_newline : newline ∉ placeholder.
Proof. apply (bool_decide_unpack _). by vm_compute. Qed.

Lemma string_length_app (s1 s2 : string) :
  String.length (s1 +:+ s2) = String.length s1 + String.length s2.
Proof. induction s1 as [|c s1 IH]; [done|]. simpl. by rewrite IH. Qed.

(** The workspace file and its target never are the same path. *)
Lemma workspace_not_default (home : string) : workspace ≠ default_workspace home.
Proof.
  intros H. apply (f_equal String.length) in H.
  unfold default_workspace, workspaces_dir in H.
  rewrite !string_length_app in H. simpl in H. lia.
Qed.

(** What the script does to the file system before it launches the
    command. *)
Lemma start_outcome (env : environment) (home : string) (args : list text)
    (fs : filesystem) (content : text) :
  sed_literal (expand_parameter env "JUPYTERHUB_BASE_URL") →
  sed_literal (expand_parameter env "JUPYTERHUB_USER") →
  files fs !! workspace = Some content →
  start env home args fs =
    Some {| command := args;
            at_launch :=
              {| files := <[default_workspace home := run (proxy_command env) content]>
                            (delete workspace (files fs));
                 dirs := {[workspaces_dir home]} ∪ dirs fs |} |}.
Proof.
  intros Hb Hu Hfile.
  unfold start, sed_i. rewrite parse_sed_script by done. fold (proxy_command env).
  rewrite Hfile. simpl. unfold mv, mkdir_p. simpl.
  rewrite lookup_insert_eq.
  rewrite bool_decide_eq_true_2 by set_solver.
  by rewrite delete_insert_eq.
Qed.

(** The command replaces every placeholder and keeps the rest. *)
Lemma run_proxy_command (env : environment) (ts : list text) :
  Forall (λ t, ¬ occurs placeholder t) ts →
  run (proxy_command env) (join placeholder ts) = join (proxy_location env) ts.
Proof.
  intros Hts.
  rewrite run_whole by (done || apply placeholder_no_newline).
  rewrite substitute_line_join; [|done|apply placeholder_border_free|done].
  simpl. by rewrite expand_literal.
Qed.

(** C3 (amended): for values of JUPYTERHUB_BASE_URL and JUPYTERHUB_USER
    without a character special to sed's replacement text (the delimiter
    [|], [&], the backslash, a newline) and for every content of the
    workspace file, the script ends by launching the command of its
    arguments, and at that moment the workspace file has been moved to
    [~/.jupyter/lab/workspaces/default-37a8.jupyterlab-workspace], a
    directory the script has made, with every occurrence of
    DASK_DASHBOARD_URL replaced by
    [${JUPYTERHUB_BASE_URL}user/${JUPYTERHUB_USER}/proxy/8787] and the text
    between the occurrences unchanged: the content is texts free of the
    placeholder separated by the placeholder, and however it is written so,
    the new content is the same texts separated by the proxy location.  No
    other file is touched. *)
Theorem start_substitutes_proxy_location (env : environment) (home : string)
    (args : list text) (fs : filesystem) (content : text) :
  sed_literal (expand_parameter env "JUPYTERHUB_BASE_URL") →
  sed_literal (expand_parameter env "JUPYTERHUB_USER") →
  files fs !! workspace = Some content →
  ∃ l new,
    start env home args fs = Some l
    ∧ command l = args
    ∧ files (at_launch l) !! default_workspace home = Some new
    ∧ workspaces_dir home ∈ dirs (at_launch l)
    ∧ files (at_launch l) !! workspace = None
    ∧ (∀ p, p ≠ workspace → p ≠ default_workspace home →
            files (at_launch l) !! p = files fs !! p)
    ∧ (∃ ts, content = join placeholder ts
             ∧ Forall (λ t, ¬ occurs placeholder t) ts)
    ∧ (∀ ts, content = join placeholder ts →
             Forall (λ t, ¬ occurs placeholder t) ts →
             new = join (proxy_location env) ts).
Proof.
  intros Hb Hu Hfile. eexists _, _.
  split; [by apply start_outcome|]. simpl.
  pose proof (workspace_not_default home).
  split; [done|]. split; [by rewrite lookup_insert_eq|].
  split; [set_solver|]. split; [|split; [|split]].
  - rewrite lookup_insert_ne by done. apply lookup_delete_eq.
  - intros p ??. rewrite lookup_insert_ne by done. by rewrite lookup_delete_ne.
  - by apply join_exists.
  - intros ts -> Hts. by apply run_proxy_command.
Qed.

Lemma start_substitutes_proxy_location_witness :
  ∃ l new,
    start alice "/home/jovyan" [text_of "jupyter"; text_of "lab"]
      (checkout "{url: DASK_DASHBOARD_URL/status}") = Some l
    ∧ command l = [text_of "jupyter"; text_of "lab"]
    ∧ files (at_launch l) !! default_workspace "/home/jovyan" = Some new
    ∧ workspaces_dir "/home/jovyan" ∈ dirs (at_launch l)
    ∧ files (at_launch l) !! workspace = None
    ∧ (∀ p, p ≠ workspace → p ≠ default_workspace "/home/jovyan" →
            files (at_launch l) !! p
            = files (checkout "{url: DASK_DASHBOARD_URL/status}") !! p)
    ∧ (∃ ts, text_of "{url: DASK_DASHBOARD_URL/status}" = join placeholder ts
             ∧ Forall (λ t, ¬ occurs placeholder t) ts)
    ∧ (∀ ts, text_of "{url: DASK_DASHBOARD_URL/status}" = join placeholder ts →
             Forall (λ t, ¬ occurs placeholder t) ts →
             new = join (proxy_location alice) ts).
Proof.
  apply (start_substitutes_proxy_location alice "/home/jovyan"
           [text_of "jupyter"; text_of "lab"]
           (checkout "{url: DASK_DASHBOARD_URL/status}")
           (text_of "{url: DASK_DASHBOARD_URL/status}")).
  - repeat constructor.
  - repeat constructor.
  - reflexivity.
Defined.

(** The sample run, read back. *)
Lemma start_alice :
  ∃ l, start alice "/home/jovyan" [text_of "jupyter"; text_of "lab"]
         (checkout "{url: DASK_DASHBOARD_URL/status}") = Some l
     ∧ files (at_launch l) !! default_workspace "/home/jovyan"
       = Some (text_of "{url: /user/alice/proxy/8787/status}").
Proof. eexists. split; reflexivity. Qed.

(** C3 as stated fails: with JUPYTERHUB_USER set to [a&b], sed reads the
    ampersand as the matched text, and the placeholder is replaced by
    [/user/aDASK_DASHBOARD_URLb/proxy/8787], not by the proxy location
    [/user/a&b/proxy/8787]. *)
Lemma start_ampersand_not_literal :
  proxy_location ampersand = text_of "/user/a&b/proxy/8787"
  ∧ ∃ l, start ampersand "/home/jovyan" [] (checkout "DASK_DASHBOARD_URL") = Some l
       ∧ files (at_launch l) !! default_workspace "/home/jovyan"
         = Some (text_of "/user/aDASK_DASHBOARD_URLb/proxy/8787")
       ∧ text_of "DASK_DASHBOARD_URL" = join placeholder [[]; []]
       ∧ Forall (λ t, ¬ occurs placeholder t) [[]; []]
       ∧ text_of "/user/aDASK_DASHBOARD_URLb/proxy/8787"
         ≠ join (proxy_location ampersand) [[]; []].
Proof.
  split; [reflexivity|]. eexists. split; [reflexivity|].
  split; [reflexivity|]. split; [reflexivity|]. split.
  - repeat constructor; by apply not_occurs_nil.
  - discriminate.
Qed.

(** A value with a newline makes sed reject its script: the file is moved
    with the placeholder still in it. *)
Lemma start_newline_rejected :
  let env : environment := <["JUPYTERHUB_USER" := [newline]]> ∅ in
  parse_script (sed_script env) = Rejected
  ∧ ∃ l, start env "/home/jovyan" [] (checkout "DASK_DASHBOARD_URL") = Some l
       ∧ files (at_launch l) !! default_workspace "/home/jovyan"
         = Some (text_of "DASK_DASHBOARD_URL").
Proof. split; [reflexivity|]. eexists. split; reflexivity. Qed.

End StartFacts.

(** * The resilience notebook *)

Section ResilienceFacts.
Import Resilience.
Local Open Scope Z_scope.

Lemma sum_app (xs ys : list Z) : sum (xs ++ ys) = sum xs + sum ys.
Proof. induction xs as [|x xs IH]; simpl; [done|]. rewrite IH. lia. Qed.

(** Summing the partitions and then the partial sums is summing all. *)
Lemma bag_sum_concat (b : bag) : bag_sum b = sum (concat b).
Proof.
  unfold bag_sum. induction b as [|p b IH]; simpl; [done|].
  rewrite sum_app. f_equal. apply IH.
Qed.

Lemma bag_map_concat (f : Z → Z) (b : bag) : concat (bag_map f b) = f <$> concat b.
Proof.
  unfold bag_map. induction b as [|p b IH]; simpl; [done|].
  rewrite fmap_app. f_equal. apply IH.
Qed.

Lemma sum_multiply_by_two (xs : list Z) : sum (multiply_by_two <$> xs) = 2 * sum xs.
Proof.
  induction xs as [|x xs IH]; [done|].
  change (sum (multiply_by_two <$> x :: xs))
    with (multiply_by_two x + sum (multiply_by_two <$> xs)).
  change (sum (x :: xs)) with (x + sum xs).
  rewrite IH. unfold multiply_by_two. lia.
Qed.

Lemma range_S (n : nat) : range (S n) = range n ++ [Z.of_nat n].
Proof. unfold range. rewrite seq_S. by rewrite fmap_app. Qed.

(** Gauss: twice the sum of [0 .. n-1] is [n * (n - 1)]. *)
Lemma sum_range (n : nat) : 2 * sum (range n) = Z.of_nat n * (Z.of_nat n - 1).
Proof.
  induction n as [|n IH]; [done|].
  rewrite range_S, sum_app. simpl. lia.
Qed.

Lemma summed_value (n : nat) (x : bag) :
  concat x = range n → summed x = Z.of_nat n * (Z.of_nat n - 1).
Proof.
  unfold summed. intros Hx.
  rewrite bag_sum_concat, bag_map_concat, Hx, sum_multiply_by_two.
  apply sum_range.
Qed.

(** The pieces of [partition_all] are the sequence, cut. *)
Lemma partition_all_go_concat {A} (fuel n : nat) (xs : list A) :
  (0 < n)%nat → (length xs ≤ fuel)%nat → concat (partition_all_go fuel n xs) = xs.
Proof.
  intros Hn. revert xs. induction fuel as [|fuel IH]; intros xs Hlen.
  - destruct xs; [done|simpl in Hlen; lia].
  - destruct xs as [|a xs]; [done|].
    change (partition_all_go (S fuel) n (a :: xs))
      with (take n (a :: xs) :: partition_all_go fuel n (drop n (a :: xs))).
    change (concat (?p :: ?ps)) with (p ++ concat ps).
    rewrite IH; [apply take_drop|]. rewrite length_drop. simpl in *. lia.
Qed.

(** A bag that [from_sequence] returns holds the sequence, in order. *)
Lemma from_sequence_concat (xs : list Z) (npartitions : nat) (b : bag) :
  from_sequence xs npartitions = Some b → concat b = xs.
Proof.
  unfold from_sequence. destruct npartitions as [|k]; [done|].
  set (size := if bool_decide (length xs ≤ 100)%nat
               then ((length xs + S k - 1) / S k)%nat
               else (1 `max` (length xs / S k))%nat).
  intros [= <-]. destruct size as [|m] eqn:Hsize.
  - assert (xs = []) as ->; [|done].
    apply length_zero_iff_nil. subst size. case_bool_decide; [|lia].
    apply Nat.div_small_iff in Hsize; lia.
  - pose proof (partition_all_go_concat (length xs) (S m) xs) as Hc.
    unfold partition_all. destruct (partition_all_go _ _ _); simpl in *.
    + apply Hc; lia.
    + apply Hc; lia.
Qed.

Lemma from_sequence_is_Some (xs : list Z) (npartitions : nat) :
  npartitions ≠ 0%nat → is_Some (from_sequence xs npartitions).
Proof. destruct npartitions; [done|]. intros _. unfold from_sequence. eauto. Qed.

Lemma random_choice_elem {A} (r : nat) (xs : list A) (x : A) :
  random_choice r xs = Some x → x ∈ xs.
Proof. unfold random_choice. apply list_elem_of_lookup_2. Qed.

Lemma random_choice_nonempty {A} (r : nat) (xs : list A) :
  xs ≠ [] → is_Some (random_choice r xs).
Proof.
  intros Hxs. unfold random_choice. apply lookup_lt_is_Some.
  apply Nat.mod_upper_bound. by destruct xs.
Qed.

Lemma kill_a_worker_signal (non_preemptible : list Z) (ws : workers) (r : nat) k :
  k ∈ kill_a_worker non_preemptible ws r →
  (kill_pid k ∉ non_preemptible) ∧ kill_pid k ∈ all_current_workers ws ∧ kill_sig k = 15.
Proof.
  unfold kill_a_worker, all_current_workers.
  destruct (filter _ _) as [|p ps] eqn:Hf; [by intros ?%elem_of_nil|].
  destruct (random_choice r (p :: ps)) as [q|] eqn:Hq; [|by intros ?%elem_of_nil].
  intros ->%list_elem_of_singleton. simpl.
  apply random_choice_elem in Hq. rewrite <- Hf in Hq.
  apply list_elem_of_filter in Hq as [??]. done.
Qed.

Lemma kill_loop_signal (non_preemptible : list Z) (turns : list (workers * nat)) k :
  k ∈ kill_loop non_preemptible turns →
  (kill_pid k ∉ non_preemptible) ∧ kill_sig k = 15.
Proof.
  unfold kill_loop. rewrite list_elem_of_In, in_flat_map.
  intros ([ws r] & _ & Hk%list_elem_of_In).
  apply kill_a_worker_signal in Hk. tauto.
Qed.

(** C8: [kill_a_worker] signals only a process id that is not in
    [non_preemptible_workers] (and is a current worker's, with signal 15);
    when no worker is preemptible it sends no signal; and no signal of a
    whole run of the notebook goes to one of the workers marked
    non-preemptible at the start, of which there are two when the cluster
    has at least two workers. *)
Theorem kill_a_worker_spares_non_preemptible :
  (∀ (non_preemptible : list Z) (ws : workers) (r : nat) (k : os_kill),
     k ∈ kill_a_worker non_preemptible ws r →
     (kill_pid k ∉ non_preemptible) ∧ kill_pid k ∈ all_current_workers ws
     ∧ kill_sig k = 15)
  ∧ (∀ (non_preemptible : list Z) (ws : workers) (r : nat),
       filter (λ p, p ∉ non_preemptible) (all_current_workers ws) = [] →
       kill_a_worker non_preemptible ws r = [])
  ∧ (∀ (n : nat) (x : bag) (initial : workers) (turns : list (workers * nat))
       (k : os_kill),
       k ∈ signals (notebook_run n x initial turns) →
       kill_pid k ∉ non_preemptible_workers initial)
  ∧ (∀ initial : workers,
       (2 ≤ length initial)%nat → length (non_preemptible_workers initial) = 2%nat).
Proof.
  split; [apply kill_a_worker_signal|]. split; [|split].
  - intros npw ws r H. unfold kill_a_worker, all_current_workers in *. by rewrite H.
  - intros n x initial turns k Hk. simpl in Hk.
    by apply kill_loop_signal in Hk as [??].
  - intros initial H. unfold non_preemptible_workers, all_current_workers.
    rewrite length_take, length_fmap. lia.
Qed.

Lemma kill_a_worker_spares_non_preemptible_witness :
  ((kill_pid {| kill_pid := 705; kill_sig := 15 |} ∉ [701; 702])
   ∧ kill_pid {| kill_pid := 705; kill_sig := 15 |}
       ∈ all_current_workers [{| pid := 701 |}; {| pid := 705 |}; {| pid := 709 |}]
   ∧ kill_sig {| kill_pid := 705; kill_sig := 15 |} = 15)
  ∧ kill_a_worker [701; 702] [{| pid := 702 |}; {| pid := 701 |}] 7 = []
  ∧ (kill_pid {| kill_pid := 705; kill_sig := 15 |}
       ∉ non_preemptible_workers [{| pid := 701 |}; {| pid := 702 |}; {| pid := 705 |}])
  ∧ length (non_preemptible_workers [{| pid := 701 |}; {| pid := 702 |}; {| pid := 705 |}])
    = 2%nat.
Proof.
  destruct kill_a_worker_spares_non_preemptible as (H1 & H2 & H3 & H4).
  split; [|split; [|split]].
  - apply (H1 [701; 702] [{| pid := 701 |}; {| pid := 705 |}; {| pid := 709 |}] 2%nat).
    vm_compute. apply list_elem_of_here.
  - apply H2. reflexivity.
  - apply (H3 3%nat [[0]; [1; 2]]
             [{| pid := 701 |}; {| pid := 702 |}; {| pid := 705 |}]
             [([{| pid := 701 |}; {| pid := 702 |}; {| pid := 705 |}], 4%nat)]).
    vm_compute. apply list_elem_of_here.
  - apply H4. simpl. lia.
Defined.

(** When a worker is preemptible, one signal is sent. *)
Lemma kill_a_worker_sends (non_preemptible : list Z) (ws : workers) (r : nat) :
  filter (λ p, p ∉ non_preemptible) (all_current_workers ws) ≠ [] →
  ∃ p, kill_a_worker non_preemptible ws r = [{| kill_pid := p; kill_sig := 15 |}].
Proof.
  intros H. unfold kill_a_worker, all_current_workers in *.
  destruct (random_choice_nonempty r _ H) as [q Hq].
  destruct (filter _ _) as [|p ps]; [done|]. rewrite Hq. eauto.
Qed.

End ResilienceFacts.

(** * The resilience notebook: a run with workers that die *)

Section ResilienceRunFacts.
Import Resilience ResilienceRun.
Local Open Scope Z_scope.

(** By the status of the task. *)
Ltac by_status t :=
  destruct (status t) eqn:?; repeat case_bool_decide; simpl; intros;
  repeat match goal with
         | H1 : status t = _, H2 : status t = _ |- _ => rewrite H1 in H2
         end;
  simplify_eq/=; eauto.

Lemma counted_mono (d d' : nat) (t : task) :
  (d ≤ d')%nat → counted d t → counted d' t.
Proof. intros Hd [H1 H2]. split; [lia|done]. Qed.

Lemma assign_partition (w : Z) (t : task) : partition (assign w t) = partition t.
Proof. unfold assign. by destruct (status t). Qed.

Lemma finish_partition (t : task) : partition (finish t) = partition t.
Proof. unfold finish. by destruct (status t). Qed.

Lemma worker_dies_partition (w : Z) (t : task) :
  partition (worker_dies w t) = partition t.
Proof. unfold worker_dies. destruct (status t); try done; by case_bool_decide. Qed.

Lemma alter_partition (g : task → task) (i : nat) (s : scheduler) :
  (∀ t, partition (g t) = partition t) →
  partition <$> alter g i s = partition <$> s.
Proof.
  intros Hg. revert i. induction s as [|t s IH]; intros [|i]; simpl; [done..| |].
  - by rewrite Hg.
  - f_equal. apply IH.
Qed.

(** No event changes the partitions of the tasks. *)
Lemma step_partition (s : scheduler) (e : event) :
  partition <$> step s e = partition <$> s.
Proof.
  destruct e as [t w|t|w]; simpl.
  - apply alter_partition. apply assign_partition.
  - apply alter_partition. apply finish_partition.
  - rewrite <- list_fmap_compose. apply list_fmap_ext.
    intros i t _. apply worker_dies_partition.
Qed.

Lemma assign_sound (w : Z) (t : task) : sound t → sound (assign w t).
Proof.
  unfold assign, sound. by_status t.
Qed.

Lemma finish_sound (t : task) : sound t → sound (finish t).
Proof.
  unfold finish, sound, task_value. by_status t.
Qed.

Lemma worker_dies_sound (w : Z) (t : task) : sound t → sound (worker_dies w t).
Proof.
  unfold worker_dies, sound. by_status t.
Qed.

(** What is in memory stays the value of its task, whatever happens. *)
Lemma step_sound (s : scheduler) (e : event) :
  Forall sound s → Forall sound (step s e).
Proof.
  intros Hs. destruct e as [t w|t|w]; simpl.
  - apply Forall_alter; [done|]. intros x _. apply assign_sound.
  - apply Forall_alter; [done|]. intros x _. apply finish_sound.
  - apply Forall_fmap. eapply Forall_impl; [done|]. intros t. apply worker_dies_sound.
Qed.

Lemma assign_counted (d : nat) (w : Z) (t : task) : counted d t → counted d (assign w t).
Proof.
  unfold assign, counted. intros [H1 H2]. split; by_status t.
Qed.

Lemma finish_counted (d : nat) (t : task) : counted d t → counted d (finish t).
Proof.
  unfold finish, counted. intros [H1 H2]. split; by_status t.
Qed.

Lemma worker_dies_counted (d : nat) (w : Z) (t : task) :
  counted d t → counted (S d) (worker_dies w t).
Proof.
  unfold worker_dies, counted. intros [H1 H2]. split; by_status t; lia.
Qed.

Lemma step_counted (d : nat) (s : scheduler) (e : event) :
  Forall (counted d) s → Forall (counted (d + count_deaths [e])) (step s e).
Proof.
  intros Hs. destruct e as [t w|t|w]; simpl.
  - rewrite Nat.add_0_r. apply Forall_alter; [done|]. intros x _. apply assign_counted.
  - rewrite Nat.add_0_r. apply Forall_alter; [done|]. intros x _. apply finish_counted.
  - rewrite Nat.add_1_r. apply Forall_fmap. eapply Forall_impl; [done|].
    intros t. apply worker_dies_counted.
Qed.

Lemma count_deaths_app (es es' : list event) :
  count_deaths (es ++ es') = (count_deaths es + count_deaths es')%nat.
Proof. unfold count_deaths. by rewrite filter_app, length_app. Qed.

Lemma count_deaths_cons (e : event) (es : list event) :
  count_deaths (e :: es) = (count_deaths [e] + count_deaths es)%nat.
Proof. apply (count_deaths_app [e] es). Qed.

(** The three invariants along a sequence of events. *)
Lemma foldl_step_invariant (d : nat) (s : scheduler) (es : list event) :
  Forall sound s → Forall (counted d) s →
  Forall sound (foldl step s es)
  ∧ Forall (counted (d + count_deaths es)) (foldl step s es)
  ∧ partition <$> foldl step s es = partition <$> s.
Proof.
  revert d s. induction es as [|e es IH]; intros d s Hs Hc.
  - simpl. by rewrite Nat.add_0_r.
  - simpl. destruct (IH (d + count_deaths [e])%nat (step s e)) as (H1 & H2 & H3).
    + by apply step_sound.
    + by apply step_counted.
    + rewrite count_deaths_cons, Nat.add_assoc. by rewrite H3, step_partition.
Qed.

Lemma submit_invariant (x : bag) :
  Forall sound (submit x) ∧ Forall (counted 0) (submit x)
  ∧ partition <$> submit x = x.
Proof.
  unfold submit. split; [|split].
  - apply Forall_fmap, Forall_true. intros p w v. simpl. discriminate.
  - apply Forall_fmap, Forall_true. intros p. split; [done|]. simpl. discriminate.
  - rewrite <- list_fmap_compose. apply list_fmap_id.
Qed.

Lemma in_memory_values (s : scheduler) (values : list Z) :
  Forall sound s → mapM in_memory s = Some values → values = task_value <$> s.
Proof.
  intros Hs Hm. apply mapM_Some in Hm.
  induction Hm as [|t v s values Htv _ IH]; [done|].
  apply Forall_cons in Hs as [Ht Hs]. rewrite fmap_cons. f_equal; [|by apply IH].
  unfold in_memory in Htv. destruct (status t) eqn:Hst; try done.
  injection Htv as <-. by eapply Ht.
Qed.

Lemma task_values_bag (s : scheduler) :
  sum (task_value <$> s) = bag_sum (bag_map multiply_by_two (partition <$> s)).
Proof.
  unfold bag_sum, bag_map. f_equal.
  induction s as [|t s IH]; [done|]. simpl. f_equal. apply IH.
Qed.

(** A computation that finishes has the value of the bag it was given. *)
Lemma summed_future_finished (s : scheduler) (value : Z) :
  Forall sound s → summed_future s = Finished value →
  value = summed (partition <$> s).
Proof.
  intros Hs. unfold summed_future.
  destruct (existsb is_erred s); [done|].
  destruct (mapM in_memory s) as [values|] eqn:Hm; [|done].
  intros [= <-]. rewrite (in_memory_values s values Hs Hm). apply task_values_bag.
Qed.

(** A computation in error has a task that died more than
    [allowed_failures] times. *)
Lemma summed_future_error (d : nat) (s : scheduler) :
  Forall (counted d) s → summed_future s = Error → (allowed_failures < d)%nat.
Proof.
  intros Hs. unfold summed_future.
  destruct (existsb is_erred s) eqn:He.
  - intros _. apply existsb_exists in He as (t & Ht%list_elem_of_In & Herr).
    rewrite Forall_forall in Hs. destruct (Hs t Ht) as [H1 H2].
    unfold is_erred in Herr. destruct (status t); try done.
    specialize (H2 eq_refl). lia.
  - by destruct (mapM in_memory s).
Qed.

(** How the loop can end. *)
Lemma kill_until_done_end (non_preemptible : list Z) (turns : list turn) :
  ∀ (d : nat) (s : scheduler) (kills : list os_kill) (e : loop_end),
    Forall sound s → Forall (counted d) s →
    kill_until_done non_preemptible s turns = (kills, e) →
    match e with
    | LoopDone s' =>
        Forall sound s'
        ∧ Forall (counted (d + count_deaths (turns ≫= while_asleep))) s'
        ∧ partition <$> s' = partition <$> s
        ∧ done (summed_future s') = true
    | LoopRaises ex => ex = ProcessLookupError
    | LoopRunning => True
    end.
Proof.
  induction turns as [|t turns IH]; intros d s kills e Hs Hc.
  - simpl. destruct (done (summed_future s)) eqn:Hd; intros [= <- <-]; [|done].
    split; [done|]. split; [|done]. eapply Forall_impl; [done|].
    intros t. apply counted_mono. lia.
  - cbn [kill_until_done]. destruct (done (summed_future s)) eqn:Hd.
    { intros [= <- <-]. split; [done|]. split; [|done]. eapply Forall_impl; [done|].
      intros t'. apply counted_mono. lia. }
    destruct (forallb _ _); [|by intros [= <- <-]].
    destruct (kill_until_done non_preemptible (foldl step s (while_asleep t)) turns)
      as [kills' e'] eqn:Hrec.
    intros [= <- <-].
    destruct (foldl_step_invariant d s (while_asleep t) Hs Hc) as (H1 & H2 & H3).
    specialize (IH _ _ _ _ H1 H2 Hrec). destruct e' as [s'| |]; [|done..].
    destruct IH as (I1 & I2 & I3 & I4). split; [done|]. split; [|split; [|done]].
    + rewrite bind_cons, count_deaths_app, Nat.add_assoc. done.
    + by rewrite I3, H3.
Qed.

(** The endings of a run from the cell of [N] on, for a bag of [range(n)]. *)
Lemma run_notebook_ends (n : nat) (initial : workers) (before : list event)
    (turns : list turn) :
  (2 ≤ n)%nat →
  match ends (run_notebook n initial before turns) with
  | Printed line => line = check_message n (Z.of_nat n * (Z.of_nat n - 1))
  | Raises KilledWorker => (allowed_failures < deaths before turns)%nat
  | Raises ProcessLookupError => True
  | Raises TypeError => False
  | Running => True
  end.
Proof.
  intros Hn. unfold run_notebook.
  destruct (from_sequence_is_Some (range n) (n / 2)%nat) as [x Hx].
  { intros H0. apply Nat.div_small_iff in H0; lia. }
  rewrite Hx. pose proof (from_sequence_concat _ _ _ Hx) as Hcat.
  destruct (submit_invariant x) as (S1 & S2 & S3).
  destruct (foldl_step_invariant 0 (submit x) before S1 S2) as (F1 & F2 & F3).
  destruct (kill_until_done _ _ turns) as [kills e] eqn:Hloop.
  pose proof (kill_until_done_end _ _ _ _ _ _ F1 F2 Hloop) as Hend.
  simpl. destruct e as [s| |]; [|by subst|done].
  destruct Hend as (E1 & E2 & E3 & E4).
  destruct (summed_future s) as [|value|] eqn:Hf; [done| |].
  - f_equal. rewrite (summed_future_finished s value E1 Hf).
    apply summed_value. by rewrite E3, F3, S3.
  - apply (summed_future_error _ s); [|done]. unfold deaths.
    by rewrite count_deaths_app.
Qed.

(** C9 (amended): for every natural number [n] from 2 on,
    [db.from_sequence(range(n), npartitions=n // 2)] returns a bag of
    [range(n)], and [multiply_by_two] mapped over it and summed is
    [n * (n - 1)]; so it is for every way of cutting [range(n)] into
    partitions; for the notebook's [N = 400] that is 159600.  Whatever
    workers the cluster lists, whichever of them are killed or shut down,
    and whatever tasks are run again: a run that prints its last line prints
    [n * (n - 1)] as the result and as the expected value; a run that ends
    with [KilledWorker] has seen more than [allowed_failures] workers shut
    down; and no run raises the [TypeError] of [from_sequence]. *)
Theorem summed_is_n_times_n_minus_1 :
  (∀ n : nat, (2 ≤ n)%nat →
     ∃ x, from_sequence (range n) (n / 2)%nat = Some x
        ∧ concat x = range n
        ∧ summed x = Z.of_nat n * (Z.of_nat n - 1))
  ∧ (∀ (n : nat) (x : bag),
       concat x = range n → summed x = Z.of_nat n * (Z.of_nat n - 1))
  ∧ Z.of_nat N * (Z.of_nat N - 1) = 159600
  ∧ (∀ (n : nat) (initial : workers) (before : list event) (turns : list turn),
       (2 ≤ n)%nat →
       match ends (run_notebook n initial before turns) with
       | Printed line => line = check_message n (Z.of_nat n * (Z.of_nat n - 1))
       | Raises KilledWorker => (allowed_failures < deaths before turns)%nat
       | Raises ProcessLookupError => True
       | Raises TypeError => False
       | Running => True
       end)
  ∧ (∀ (initial : workers) (before : list event) (turns : list turn) (line : string),
       ends (run_notebook N initial before turns) = Printed line →
       line = "`sum(range(400))` on cluster: 159600" +:+ String (ascii_of_nat 9) ""
              +:+ "(should be 159600)").
Proof.
  split; [|split; [apply summed_value|split; [done|split; [apply run_notebook_ends|]]]].
  - intros n Hn.
    destruct (from_sequence_is_Some (range n) (n / 2)%nat) as [x Hx].
    { intros H0. apply Nat.div_small_iff in H0; lia. }
    exists x. split; [done|].
    pose proof (from_sequence_concat _ _ _ Hx) as Hcat.
    split; [done|]. by apply summed_value.
  - intros initial before turns line Hline.
    pose proof (run_notebook_ends N initial before turns) as H.
    rewrite Hline in H. rewrite H by (unfold N; lia). by vm_compute.
Qed.

Lemma summed_is_n_times_n_minus_1_witness :
  (∃ x, from_sequence (range 4) (4 / 2)%nat = Some x
      ∧ concat x = range 4
      ∧ summed x = Z.of_nat 4 * (Z.of_nat 4 - 1))
  ∧ summed [[0]; [1; 2]] = Z.of_nat 3 * (Z.of_nat 3 - 1)
  ∧ match ends (run_notebook 4 four_workers [Assign 0 703; Assign 1 701] one_kill) with
    | Printed line => line = check_message 4 (Z.of_nat 4 * (Z.of_nat 4 - 1))
    | Raises KilledWorker =>
        (allowed_failures < deaths [Assign 0 703; Assign 1 701] one_kill)%nat
    | Raises ProcessLookupError => True
    | Raises TypeError => False
    | Running => True
    end
  ∧ check_message N 159600
    = "`sum(range(400))` on cluster: 159600" +:+ String (ascii_of_nat 9) ""
      +:+ "(should be 159600)".
Proof.
  destruct summed_is_n_times_n_minus_1 as (H1 & H2 & _ & H3 & H4).
  split; [|split; [|split]].
  - apply (H1 4%nat). lia.
  - apply (H2 3%nat [[0]; [1; 2]]). reflexivity.
  - apply (H3 4%nat four_workers [Assign 0 703; Assign 1 701] one_kill). lia.
  - apply (H4 four_workers (all_on_701 200) [] (check_message N 159600)).
    by vm_compute.
Defined.

(** C9 as stated fails: for [N = 0] and [N = 1] the cell of [N] raises,
    since [N // 2] is 0 and [from_sequence] has no bag for it. *)
Lemma workload_raises_below_2 :
  from_sequence (range 0) (0 / 2)%nat = None
  ∧ from_sequence (range 1) (1 / 2)%nat = None
  ∧ run_notebook 0 four_workers [] one_kill = {| sent := []; ends := Raises TypeError |}
  ∧ run_notebook 1 four_workers [] one_kill = {| sent := []; ends := Raises TypeError |}.
Proof. by vm_compute. Qed.

(** The sample run: the notebook's bag for [n = 4], one signal to the
    worker 703, the line printed. *)
Lemma run_notebook_one_kill :
  from_sequence (range 4) (4 / 2)%nat = Some [[0; 1]; [2; 3]]
  ∧ run_notebook 4 four_workers [Assign 0 703; Assign 1 701] one_kill
    = {| sent := [{| kill_pid := 703; kill_sig := 15 |}];
         ends := Printed ("`sum(range(4))` on cluster: 12" +:+ String (ascii_of_nat 9) ""
                          +:+ "(should be 12)") |}.
Proof. by vm_compute. Qed.

(** The notebook's bag: 200 partitions of two numbers each. *)
Lemma notebook_bag :
  ∃ x, from_sequence (range N) (N / 2)%nat = Some x
     ∧ length x = 200%nat ∧ Forall (λ p, length p = 2%nat) x.
Proof.
  eexists. split; [reflexivity|]. split; [reflexivity|].
  apply Forall_forall. intros p Hp. vm_compute in Hp.
  repeat (apply elem_of_cons in Hp as [->|Hp]; [reflexivity|]).
  by apply elem_of_nil in Hp.
Qed.

(** A task whose worker shuts down 101 times is broken, and the run ends
    with [KilledWorker]; 100 times are borne. *)
Lemma killed_worker_after_101_deaths :
  ends (run_notebook 2 four_workers (dies_each_time 101) []) = Raises KilledWorker
  ∧ ends (run_notebook 2 four_workers
            (dies_each_time 100 ++ [Assign 0 701; Finish 0]) [])
    = Printed ("`sum(range(2))` on cluster: 2" +:+ String (ascii_of_nat 9) ""
               +:+ "(should be 2)").
Proof. by vm_compute. Qed.

(** [os.kill] raises when the process chosen is gone. *)
Lemma kill_of_a_process_that_is_gone :
  run_notebook 4 four_workers []
    [{| cluster := four_workers; draw := 0; exists_process := λ p, bool_decide (p ≠ 703);
        while_asleep := [] |}]
  = {| sent := []; ends := Raises ProcessLookupError |}.
Proof. by vm_compute. Qed.

End ResilienceRunFacts.

(** * The notebooks' code *)

Section NotebookFacts.
Import PyAst Notebooks.
Local Open Scope Z_scope.

(** The traversal of statements visits a statement and then everything
    inside it. *)
Lemma stmt_all_unfold (s : stmt) :
  stmt_all s = s :: flat_map stmt_all (stmt_children s).
Proof.
  unfold stmt_all. destruct s; simpl; try done.
  - by rewrite flat_map_app.
  - by rewrite app_nil_r.
Qed.

Lemma stmt_all_self (s : stmt) : s ∈ stmt_all s.
Proof. rewrite stmt_all_unfold. left. Qed.

Lemma stmt_all_child (s c d : stmt) :
  c ∈ stmt_children s → d ∈ stmt_all c → d ∈ stmt_all s.
Proof.
  intros Hc Hd. rewrite stmt_all_unfold. right.
  apply list_elem_of_In, in_flat_map. exists c.
  by rewrite <- !list_elem_of_In.
Qed.

(** A notebook is straight-line exactly when none of its statements, at
    any depth, is a loop or a branch. *)
Lemma straight_line_iff (nb : notebook) :
  straight_line nb = true ↔ ∀ s, s ∈ nb_stmts nb → is_loop_or_branch s = false.
Proof.
  unfold straight_line, control_flow. rewrite bool_decide_eq_true.
  rewrite <- Forall_forall. split.
  - intros H. apply Forall_forall. intros s Hs.
    destruct (is_loop_or_branch s) eqn:Hl; [|done].
    assert (s ∈ filter (λ s, is_loop_or_branch s) (nb_stmts nb)) as Hin.
    { apply list_elem_of_filter. split; [by rewrite Hl | done]. }
    rewrite H in Hin. by apply elem_of_nil in Hin.
  - intros H. induction H as [|s l Hs Hl IH]; [done|].
    simpl in Hs. rewrite filter_cons_False; [done|]. rewrite Hs. by intros [].
Qed.

(** C4: the resilience notebook configures the library once, by the call
    [dask.config.set({'distributed.scheduler.allowed-failures': 100})]: one
    key, with the value 100, above the default of 3 its prose states.  It
    touches [config] nowhere else, and the only keyword arguments of its
    calls size the cluster and the bag. *)
Theorem resilience_sets_allowed_failures_only :
  nb_exprs is_config_set resilience
    = [ECall (EAttr (EAttr (EName "dask") "config") "set")
         [EDict [(EConst (CStr "distributed.scheduler.allowed-failures"),
                  EConst (CInt 100))]] []]
  ∧ config_settings resilience
    = [(EConst (CStr "distributed.scheduler.allowed-failures"), EConst (CInt 100))]
  ∧ nb_exprs (is_attr "config") resilience = [EAttr (EName "dask") "config"]
  ∧ keyword_arguments resilience
    = ["threads_per_worker"; "n_workers"; "memory_limit"; "npartitions"]
  ∧ Resilience.default_allowed_failures < 100
  ∧ String.index 0
      ("(" +:+ pretty Resilience.default_allowed_failures +:+ " by default)")
      Resilience.threshold_note ≠ None.
Proof. repeat split; by vm_compute. Qed.

(** C5 as stated fails: the resilience notebook has a [while] loop and an
    [if] of its own. *)
Lemma resilience_not_straight_line :
  resilience ∈ repository_notebooks
  ∧ straight_line resilience = false
  ∧ control_flow resilience
    = [SIf (EName "preemptible_workers")
         [SExpr (ECall (EAttr (EName "os") "kill")
            [ECall (EAttr (EName "random") "choice") [EName "preemptible_workers"] [];
             EConst (CInt 15)] [])] [];
       SWhile (EUnaryOp UNot (ECall (EAttr (EName "summed") "done") [] []))
         [SExpr (ECall (EName "kill_a_worker") [] []);
          SExpr (ECall (EName "sleep") [EConst (CFloat 30 (-1))] [])]].
Proof. split; [set_solver|]. split; by vm_compute. Qed.

(** C5 (amended): six of the notebooks are straight-line sequences of
    statements without a [for], [while] or [if] of their own, comprehensions
    aside (the json-data and the scale-scikit-learn notebook have one each);
    the resilience notebook (a [while] and an [if]), the evolving-workflows
    notebook (four [for] loops), the embarrassingly-parallel notebook (four
    [for] loops) and the data-access notebook (one [if]) have loops or
    branches. *)
Theorem straight_line_notebooks :
  nb_name <$> filter (λ nb, straight_line nb = true) repository_notebooks
    = ["survey_2020"; "json_data_on_the_web"; "glm"; "scale_scikit_learn";
       "voting_classifier"; "machine_learning"]
  ∧ (λ nb, (nb_name nb, length (control_flow nb)))
      <$> filter (λ nb, straight_line nb = false) repository_notebooks
    = [("resilience", 2%nat); ("evolving_workflows", 4%nat);
       ("embarrassingly_parallel", 4%nat); ("data_access", 1%nat)]
  ∧ (λ nb, (nb_name nb, length (nb_exprs is_comprehension nb)))
      <$> filter (λ nb, straight_line nb = true) repository_notebooks
    = [("survey_2020", 0%nat); ("json_data_on_the_web", 1%nat); ("glm", 0%nat);
       ("scale_scikit_learn", 1%nat); ("voting_classifier", 0%nat);
       ("machine_learning", 0%nat)].
Proof. repeat split; by vm_compute. Qed.

(** C6 as stated fails: the json-data notebook reads and takes from a bag
    before it creates its client. *)
Lemma json_data_operates_before_client :
  json_data_on_the_web ∈ repository_notebooks
  ∧ uses_framework_client_first json_data_on_the_web = false
  ∧ head (framework_operations json_data_on_the_web)
    = Some (ECall
        (EAttr
           (ECall (EAttr (EName "db") "read_text")
              [EConst (CStr "https://archive.analytics.mybinder.org/events-2018-11-03.jsonl")]
              [])
           "take")
        [EConst (CInt 3)] []).
Proof. split; [set_solver|]. split; by vm_compute. Qed.

(** The survey notebook does not use the framework at all. *)
Lemma survey_does_not_import_framework :
  survey_2020 ∈ repository_notebooks
  ∧ framework_names survey_2020 = []
  ∧ nb_exprs is_client_creation survey_2020 = [].
Proof. split; [set_solver|]. split; by vm_compute. Qed.

(** C6 (amended): every notebook except the 2020 survey imports the
    framework and creates a client; in each of these except the json-data
    notebook the creation of the client is the first call into the
    framework, set-up calls ([dask.config.set], [LocalCluster]) aside. *)
Theorem notebooks_using_framework :
  nb_name <$> filter (λ nb, imports_framework nb && creates_client nb = true)
                repository_notebooks
    = ["resilience"; "evolving_workflows"; "embarrassingly_parallel";
       "json_data_on_the_web"; "data_access"; "glm"; "scale_scikit_learn";
       "voting_classifier"; "machine_learning"]
  ∧ nb_name <$> filter (λ nb, uses_framework_client_first nb = true)
                  repository_notebooks
    = ["resilience"; "evolving_workflows"; "embarrassingly_parallel";
       "data_access"; "glm"; "scale_scikit_learn"; "voting_classifier";
       "machine_learning"].
Proof. split; by vm_compute. Qed.

(** C7 as stated fails: the evolving-workflows notebook defines the
    coroutines [f] and [run_all] and awaits in them. *)
Lemma evolving_workflows_defines_coroutines :
  evolving_workflows ∈ repository_notebooks
  ∧ has_coroutines evolving_workflows = true
  ∧ async_defs evolving_workflows = ["f"; "run_all"]
  ∧ length (awaits evolving_workflows) = 3%nat.
Proof. split; [set_solver|]. repeat split; by vm_compute. Qed.

(** C7 (amended): no notebook other than the evolving-workflows notebook
    defines an [async] function or awaits; that notebook defines the two
    coroutines [f] and [run_all], with three [await] expressions. *)
Theorem coroutines_only_in_evolving_workflows :
  nb_name <$> filter (λ nb, has_coroutines nb = true) repository_notebooks
    = ["evolving_workflows"]
  ∧ Forall (λ nb, async_defs nb = [] ∧ awaits nb = [])
      (filter (λ nb, nb_name nb ≠ "evolving_workflows") repository_notebooks)
  ∧ async_defs evolving_workflows = ["f"; "run_all"]
  ∧ awaits evolving_workflows
    = [EAwait (EName "length_future");
       EAwait (ECall (EAttr (EName "asyncio") "gather")
                 [EStarred (EListComp (ECall (EName "f") [EName "fn"] [])
                              (EName "fn") (EName "filenames") [])] []);
       EAwait (ECall (EAttr (EName "client") "gather") [EName "futures"] [])].
Proof.
  split; [by vm_compute|]. split; [by repeat constructor|]. split; by vm_compute.
Qed.

End NotebookFacts.

(** * The hyper-parameter grid *)

Section GridFacts.
Import PyAst Notebooks GridSearch.

(** A grid has as many candidates as the product of its numbers of values. *)
Lemma ParameterGrid_length (g : grid) :
  length (ParameterGrid g) = foldr (λ kv n, length kv.2 * n) 1 g.
Proof.
  induction g as [|[k vs] g IH]; [done|].
  change (ParameterGrid ((k, vs) :: g))
    with (vs ≫= λ v, (λ c, (k, v) :: c) <$> ParameterGrid g).
  cbn [foldr snd]. rewrite <- IH. clear IH.
  induction vs as [|v vs IH]; [done|].
  rewrite bind_cons, length_app, length_fmap, IH. done.
Qed.

(** C10: [param_grid] of the machine-learning overview has 8 values of
    [C], 3 kernels and 2 shrinking settings, hence 8 * 3 * 2 = 48
    candidates, all different, the number the notebook's prose gives. *)
Theorem param_grid_has_48_candidates :
  ∃ g : grid,
    assigned_value "param_grid" machine_learning ≫= grid_of_expr = Some g
    ∧ (λ kv, (kv.1, length kv.2)) <$> g = [("C", 8); ("kernel", 3); ("shrinking", 2)]
    ∧ length (ParameterGrid g) = 8 * 3 * 2
    ∧ length (ParameterGrid g) = 48
    ∧ NoDup (ParameterGrid g)
    ∧ String.prefix
        ("We fit " +:+ pretty (length (ParameterGrid g)) +:+ " different models")
        fit_note = true.
Proof.
  eexists. split; [by vm_compute|]. split; [by vm_compute|].
  rewrite ParameterGrid_length. split; [by vm_compute|]. split; [by vm_compute|].
  split; [|by vm_compute].
  apply (bool_decide_unpack _). by vm_compute.
Qed.

End GridFacts.

(** * The CI workflows *)

Section CIFacts.
Import Notebooks CI.





(** Notebooks in the directories that pytest and nbmake leave out are not
    run. *)
Lemma ci_skips_directories :
  ci_executes "__pycache__/x.ipynb" = false
  ∧ ci_executes "docs/_build/x.ipynb" = false
  ∧ ci_executes ".ipynb_checkpoints/x.ipynb" = false
  ∧ ci_executes "build/x.ipynb" = false
  ∧ ci_executes "machine-learning/x.ipynb" = true.
Proof. by vm_compute. Qed.




(** A run of the tests in which the ignored notebook raises succeeds; one
    in which a notebook that is run raises fails; with no notebook to run,
    pytest exits with 5. *)
Lemma notebooks_pass_samples :
  notebooks_pass ci_update_dependencies
    ["resilience.ipynb"; "applications/json-data-on-the-web.ipynb"]
    (λ p, if bool_decide (p = "applications/json-data-on-the-web.ipynb")
          then Raised else Executed) = true
  ∧ notebooks_pass ci_update_dependencies
      ["resilience.ipynb"; "applications/json-data-on-the-web.ipynb"]
      (λ p, if bool_decide (p = "resilience.ipynb") then Raised else Executed) = false
  ∧ pytest_exit ["pytest"; "--nbmake"] ["README.md"] (λ _, Executed) = 5%Z.
Proof. by vm_compute. Qed.

(** C2 as stated fails: no workflow both builds the image and executes
    the notebooks. *)
Lemma no_workflow_builds_and_executes :
  existsb (λ w, builds_image w && executes_notebooks w) workflows = false.
Proof. by vm_compute. Qed.

(** C2 (amended): one workflow, repo2docker CI, builds a container image;
    another, Update Dependencies, executes the notebooks as tests and
    excludes exactly two notebooks from execution, running the others whose
    path the source tree gives. *)
Theorem ci_builds_and_executes_in_two_workflows :
  wf_name <$> filter (λ w, builds_image w = true) workflows = ["repo2docker CI"]
  ∧ wf_name <$> filter (λ w, executes_notebooks w = true) workflows
    = ["Update Dependencies"]
  ∧ excluded ci_update_dependencies
    = ["machine-learning/torch-prediction.ipynb";
       "applications/json-data-on-the-web.ipynb"]
  ∧ forallb (has_suffix ".ipynb") (excluded ci_update_dependencies) = true
  ∧ filter (λ p, executes ci_update_dependencies p = true)
      (omap nb_path repository_notebooks)
    = ["resilience.ipynb"; "applications/evolving-workflows.ipynb";
       "dataframes/01-data-access.ipynb"; "machine-learning/glm.ipynb";
       "machine-learning/scale-scikit-learn.ipynb";
       "machine-learning/voting-classifier.ipynb"]
  ∧ filter (λ p, executes ci_update_dependencies p = false)
      (omap nb_path repository_notebooks)
    = ["applications/json-data-on-the-web.ipynb"].
Proof. repeat split; by vm_compute. Qed.

End CIFacts.

(** * The start script at its edges *)

Section StartEdgeFacts.
Import Sed Start StartValues.

(** Whatever the values, the expression of the script is the placeholder. *)
Lemma parse_sed_script_regex (env : environment) (cmd : substitute) :
  parse_script (sed_script env) = Parsed cmd → regex cmd = placeholder.
Proof.
  rewrite sed_script_parts. generalize (proxy_location env). intros url.
  change (parse_script (text_of "s|" ++ placeholder ++ text_of "|" ++ url ++ text_of "|g"))
    with (match parse_replacement "|" (url ++ text_of "|g") with
          | Parsed (repl, flags) =>
              if bool_decide (flags = text_of "g")
              then Parsed {| regex := placeholder; replacement := repl |}
              else Unmodelled
          | Rejected => Rejected
          | Unmodelled => Unmodelled
          end).
  destruct (parse_replacement "|" (url ++ text_of "|g")) as [[repl flags]| |]; [|done..].
  case_bool_decide; [|done]. by intros [= <-].
Qed.

(** The three ways the script can go, by what sed makes of its script. *)
Lemma start_parsed (env : environment) (home : string) (args : list text)
    (fs : filesystem) (content : text) (cmd : substitute) :
  parse_script (sed_script env) = Parsed cmd →
  files fs !! workspace = Some content →
  start env home args fs =
    Some {| command := args;
            at_launch :=
              {| files := <[default_workspace home := run cmd content]>
                            (delete workspace (files fs));
                 dirs := {[workspaces_dir home]} ∪ dirs fs |} |}.
Proof.
  intros Hp Hfile. unfold start, sed_i. rewrite Hp, Hfile. simpl.
  unfold mv, mkdir_p. simpl. rewrite lookup_insert_eq.
  rewrite bool_decide_eq_true_2 by set_solver.
  by rewrite delete_insert_eq.
Qed.

Lemma start_rejected (env : environment) (home : string) (args : list text)
    (fs : filesystem) (content : text) :
  parse_script (sed_script env) = Rejected →
  files fs !! workspace = Some content →
  start env home args fs =
    Some {| command := args;
            at_launch :=
              {| files := <[default_workspace home := content]>
                            (delete workspace (files fs));
                 dirs := {[workspaces_dir home]} ∪ dirs fs |} |}.
Proof.
  intros Hp Hfile. unfold start, sed_i. rewrite Hp. simpl.
  unfold mv, mkdir_p. simpl. rewrite Hfile.
  by rewrite bool_decide_eq_true_2 by set_solver.
Qed.

Lemma start_missing (env : environment) (home : string) (args : list text)
    (fs : filesystem) (l : launch) :
  files fs !! workspace = None →
  start env home args fs = Some l →
  l = {| command := args;
         at_launch := {| files := files fs;
                         dirs := {[workspaces_dir home]} ∪ dirs fs |} |}.
Proof.
  intros Hfile. unfold start, sed_i.
  destruct (parse_script (sed_script env)) as [cmd| |]; simpl; [| |done].
  - rewrite Hfile. simpl. unfold mv, mkdir_p. simpl. rewrite Hfile. by intros [= <-].
  - unfold mv, mkdir_p. simpl. rewrite Hfile. by intros [= <-].
Qed.

Lemma breaks_replacement_false c :
  breaks_replacement c = false → c ≠ "|"%char ∧ c ≠ "\"%char ∧ c ≠ newline.
Proof.
  unfold breaks_replacement. rewrite bool_decide_eq_false.
  intros H. repeat split; intros ->; apply H; set_solver.
Qed.

Lemma expand_item_of (v m : text) : expand (item_of <$> v) m = written_for v m.
Proof.
  induction v as [|c v IH]; [done|]. simpl. unfold item_of at 1.
  case_bool_decide; simpl; f_equal; apply IH.
Qed.

(** Without an ampersand, what sed writes is the value itself. *)
Lemma written_for_literal (v m : text) : sed_literal v → written_for v m = v.
Proof.
  induction 1 as [|c v Hc Hv IH]; [done|]. simpl.
  apply sed_special_false in Hc as (_ & Hc & _).
  rewrite bool_decide_eq_false_2 by done. simpl. f_equal. apply IH.
Qed.

(** An unbroken value is read item by item, ampersands as the matched
    text. *)
Lemma parse_replacement_unbroken (v rest : text) :
  unbroken v →
  parse_replacement "|" (v ++ rest) =
    match parse_replacement "|" rest with
    | Parsed (its, rest') => Parsed ((item_of <$> v) ++ its, rest')
    | Rejected => Rejected
    | Unmodelled => Unmodelled
    end.
Proof.
  induction 1 as [|c v Hc Hv IH]; simpl.
  - by destruct (parse_replacement "|" rest) as [[??]| |].
  - apply breaks_replacement_false in Hc as (H1 & H2 & H3).
    rewrite (bool_decide_eq_false_2 (c = "|"%char)) by done.
    rewrite (bool_decide_eq_false_2 (c = newline)) by done.
    unfold item_of at 1. case_bool_decide.
    + rewrite IH. by destruct (parse_replacement "|" rest) as [[??]| |].
    + rewrite (bool_decide_eq_false_2 (c = "\"%char)) by done.
      rewrite IH. by destruct (parse_replacement "|" rest) as [[??]| |].
Qed.

Lemma unbroken_proxy_location (env : environment) :
  unbroken (expand_parameter env "JUPYTERHUB_BASE_URL") →
  unbroken (expand_parameter env "JUPYTERHUB_USER") →
  unbroken (proxy_location env).
Proof.
  intros Hb Hu. unfold proxy_location, unbroken.
  repeat apply Forall_app_2; try done; by repeat constructor.
Qed.

Lemma parse_script_unbroken (env : environment) :
  unbroken (proxy_location env) →
  parse_script (sed_script env)
  = Parsed {| regex := placeholder; replacement := item_of <$> proxy_location env |}.
Proof.
  intros Hl. rewrite sed_script_parts.
  generalize dependent (proxy_location env). intros url Hl.
  change (parse_script (text_of "s|" ++ placeholder ++ text_of "|" ++ url ++ text_of "|g"))
    with (match parse_replacement "|" (url ++ text_of "|g") with
          | Parsed (repl, flags) =>
              if bool_decide (flags = text_of "g")
              then Parsed {| regex := placeholder; replacement := repl |}
              else Unmodelled
          | Rejected => Rejected
          | Unmodelled => Unmodelled
          end).
  rewrite parse_replacement_unbroken by done. simpl.
  by rewrite app_nil_r.
Qed.

(** With values that hold no delimiter, backslash or newline, sed reads
    its script; a workspace file that is not there makes it and [mv] fail,
    and the script goes on. *)
Lemma start_unbroken_missing (env : environment) (home : string) (args : list text)
    (fs : filesystem) :
  unbroken (proxy_location env) →
  files fs !! workspace = None →
  start env home args fs =
    Some {| command := args;
            at_launch := {| files := files fs;
                            dirs := {[workspaces_dir home]} ∪ dirs fs |} |}.
Proof.
  intros Hv Hfile. unfold start, sed_i. rewrite (parse_script_unbroken env Hv).
  rewrite Hfile. simpl. unfold mv, mkdir_p. simpl. by rewrite Hfile.
Qed.

(** X1: when the workspace file is not there and the two variables hold
    no delimiter, backslash or newline, the script still makes the
    workspaces directory and launches the command of its arguments; it
    creates and changes no file. *)
Theorem start_without_workspace_file (env : environment) (home : string)
    (args : list text) (fs : filesystem) :
  unbroken (expand_parameter env "JUPYTERHUB_BASE_URL") →
  unbroken (expand_parameter env "JUPYTERHUB_USER") →
  files fs !! workspace = None →
  ∃ l, start env home args fs = Some l
     ∧ command l = args
     ∧ files (at_launch l) = files fs
     ∧ dirs (at_launch l) = {[workspaces_dir home]} ∪ dirs fs.
Proof.
  intros Hb Hu Hfile.
  pose proof (unbroken_proxy_location env Hb Hu) as Hv.
  rewrite (start_unbroken_missing env home args fs Hv Hfile). by eexists.
Qed.

Lemma start_without_workspace_file_witness :
  ∃ l, start ampersand "/home/jovyan" [text_of "jupyter"] {| files := ∅; dirs := ∅ |}
       = Some l
     ∧ command l = [text_of "jupyter"]
     ∧ files (at_launch l) = files {| files := ∅; dirs := ∅ |}
     ∧ dirs (at_launch l)
       = {[workspaces_dir "/home/jovyan"]} ∪ dirs {| files := ∅; dirs := ∅ |}.
Proof.
  apply (start_without_workspace_file ampersand "/home/jovyan" [text_of "jupyter"]
           {| files := ∅; dirs := ∅ |}).
  - repeat constructor.
  - repeat constructor.
  - reflexivity.
Defined.

(** After the script has run, the workspace file is no longer at its
    place in the checkout. *)
Lemma start_leaves_no_workspace (env : environment) (home : string)
    (args : list text) (fs : filesystem) (l : launch) :
  start env home args fs = Some l → files (at_launch l) !! workspace = None.
Proof.
  intros Hl. pose proof (workspace_not_default home) as Hne.
  destruct (files fs !! workspace) as [content|] eqn:Hfile.
  - destruct (parse_script (sed_script env)) as [cmd| |] eqn:Hp.
    + rewrite (start_parsed env home args fs content cmd Hp Hfile) in Hl.
      injection Hl as <-. simpl. rewrite lookup_insert_ne by done. apply lookup_delete_eq.
    + rewrite (start_rejected env home args fs content Hp Hfile) in Hl.
      injection Hl as <-. simpl. rewrite lookup_insert_ne by done. apply lookup_delete_eq.
    + unfold start, sed_i in Hl. by rewrite Hp in Hl.
  - by rewrite (start_missing env home args fs l Hfile Hl).
Qed.

(** X2: running the script a second time, with other values of the two
    variables and other arguments but the same home, leaves the file system
    as the first run left it, when neither run's values hold a delimiter,
    a backslash or a newline: the workspace file was moved away, so the
    installed workspace is not overwritten or substituted again. *)
Theorem start_again_changes_nothing (env env' : environment) (home : string)
    (args args' : list text) (fs : filesystem) :
  unbroken (expand_parameter env "JUPYTERHUB_BASE_URL") →
  unbroken (expand_parameter env "JUPYTERHUB_USER") →
  unbroken (expand_parameter env' "JUPYTERHUB_BASE_URL") →
  unbroken (expand_parameter env' "JUPYTERHUB_USER") →
  ∃ l l',
    start env home args fs = Some l
    ∧ start env' home args' (at_launch l) = Some l'
    ∧ command l' = args' ∧ at_launch l' = at_launch l.
Proof.
  intros Hb Hu Hb' Hu'.
  pose proof (unbroken_proxy_location env Hb Hu) as Hv.
  pose proof (unbroken_proxy_location env' Hb' Hu') as Hv'.
  assert (∃ l, start env home args fs = Some l
             ∧ workspaces_dir home ∈ dirs (at_launch l)) as (l & Hl & Hdir).
  { destruct (files fs !! workspace) as [content|] eqn:Hfile.
    - eexists. split.
      + apply start_parsed; [by apply parse_script_unbroken|done].
      + simpl. apply elem_of_union_l. by apply elem_of_singleton.
    - eexists. split; [by apply start_unbroken_missing|].
      simpl. apply elem_of_union_l. by apply elem_of_singleton. }
  pose proof (start_leaves_no_workspace env home args fs l Hl) as Hnone.
  exists l. eexists. split; [done|]. split.
  - by apply start_unbroken_missing.
  - split; [done|]. simpl. destruct (at_launch l) as [fl dl]. simpl in *. f_equal.
    apply subseteq_union_1_L. by apply singleton_subseteq_l.
Qed.

Lemma start_again_changes_nothing_witness :
  ∃ l l',
    start alice "/home/jovyan" [text_of "jupyter"] (checkout "DASK_DASHBOARD_URL") = Some l
    ∧ start ampersand "/home/jovyan" [text_of "lab"] (at_launch l) = Some l'
    ∧ command l' = [text_of "lab"] ∧ at_launch l' = at_launch l.
Proof.
  apply (start_again_changes_nothing alice ampersand "/home/jovyan"
           [text_of "jupyter"] [text_of "lab"] (checkout "DASK_DASHBOARD_URL"));
    repeat constructor.
Defined.

(** X5: a workspace file without the placeholder is moved byte for byte,
    whatever the values of the variables, as long as sed's behaviour on the
    script is within the model. *)
Theorem start_keeps_file_without_placeholder (env : environment) (home : string)
    (args : list text) (fs : filesystem) (content : text) (l : launch) :
  files fs !! workspace = Some content →
  ¬ occurs placeholder content →
  start env home args fs = Some l →
  files (at_launch l) !! default_workspace home = Some content
  ∧ files (at_launch l) !! workspace = None.
Proof.
  intros Hfile Hfree Hl. split; [|by eapply start_leaves_no_workspace].
  destruct (parse_script (sed_script env)) as [cmd| |] eqn:Hp.
  - rewrite (start_parsed env home args fs content cmd Hp Hfile) in Hl.
    injection Hl as <-. simpl. rewrite lookup_insert_eq. f_equal.
    pose proof (parse_sed_script_regex env cmd Hp) as Hre.
    rewrite run_whole.
    + apply substitute_line_free. by rewrite Hre.
    + by rewrite Hre.
    + rewrite Hre. apply placeholder_no_newline.
  - rewrite (start_rejected env home args fs content Hp Hfile) in Hl.
    injection Hl as <-. simpl. by rewrite lookup_insert_eq.
  - unfold start, sed_i in Hl. by rewrite Hp in Hl.
Qed.

Lemma start_keeps_file_without_placeholder_witness :
  files {| files := <[default_workspace "/home/jovyan" := text_of "{}"]>
                      (delete workspace (files (checkout "{}")));
           dirs := {[workspaces_dir "/home/jovyan"]} ∪ dirs (checkout "{}") |}
    !! default_workspace "/home/jovyan" = Some (text_of "{}")
  ∧ files {| files := <[default_workspace "/home/jovyan" := text_of "{}"]>
                        (delete workspace (files (checkout "{}")));
             dirs := {[workspaces_dir "/home/jovyan"]} ∪ dirs (checkout "{}") |}
      !! workspace = None.
Proof.
  apply (start_keeps_file_without_placeholder ampersand "/home/jovyan" []
           (checkout "{}") (text_of "{}")
           {| command := [];
              at_launch :=
                {| files := <[default_workspace "/home/jovyan" := text_of "{}"]>
                              (delete workspace (files (checkout "{}")));
                   dirs := {[workspaces_dir "/home/jovyan"]} ∪ dirs (checkout "{}") |} |}).
  - reflexivity.
  - intros (a & b & H). apply (f_equal length) in H.
    rewrite !length_app in H. simpl in H. lia.
  - reflexivity.
Defined.

(** X3: when the values hold no delimiter, backslash or newline, but
    possibly ampersands, every occurrence of the placeholder is replaced by
    the proxy location in which every ampersand has become the placeholder
    itself, and the text between the occurrences is kept. *)
Theorem start_writes_placeholder_for_ampersand (env : environment) (home : string)
    (args : list text) (fs : filesystem) (ts : list text) :
  unbroken (expand_parameter env "JUPYTERHUB_BASE_URL") →
  unbroken (expand_parameter env "JUPYTERHUB_USER") →
  Forall (λ t, ¬ occurs placeholder t) ts →
  files fs !! workspace = Some (join placeholder ts) →
  ∃ l, start env home args fs = Some l
     ∧ command l = args
     ∧ files (at_launch l) !! default_workspace home
       = Some (join (written_for (proxy_location env) placeholder) ts).
Proof.
  intros Hb Hu Hts Hfile. eexists. split.
  - apply start_parsed; [|done]. apply parse_script_unbroken.
    by apply unbroken_proxy_location.
  - split; [done|]. simpl. rewrite lookup_insert_eq. f_equal.
    rewrite run_whole by (done || apply placeholder_no_newline).
    rewrite substitute_line_join; [|done|apply placeholder_border_free|done].
    simpl. by rewrite expand_item_of.
Qed.

Lemma start_writes_placeholder_for_ampersand_witness :
  ∃ l, start ampersand "/home/jovyan" []
         (checkout "{a: DASK_DASHBOARD_URL, b: DASK_DASHBOARD_URL}") = Some l
     ∧ command l = []
     ∧ files (at_launch l) !! default_workspace "/home/jovyan"
       = Some (join (written_for (proxy_location ampersand) placeholder)
                 [text_of "{a: "; text_of ", b: "; text_of "}"]).
Proof.
  apply (start_writes_placeholder_for_ampersand ampersand "/home/jovyan" []
           (checkout "{a: DASK_DASHBOARD_URL, b: DASK_DASHBOARD_URL}")
           [text_of "{a: "; text_of ", b: "; text_of "}"]).
  - repeat constructor.
  - repeat constructor.
  - repeat constructor; intros (a & b & H); apply (f_equal length) in H;
      rewrite !length_app in H; simpl in H; lia.
  - reflexivity.
Defined.

Lemma parse_replacement_newline (u rest : text) :
  unbroken u → parse_replacement "|" (u ++ newline :: rest) = Rejected.
Proof.
  intros Hu. rewrite parse_replacement_unbroken by done. reflexivity.
Qed.

(** X4: when the first character of the proxy location that is a
    delimiter, a backslash or a newline is a newline, sed rejects its script
    and the workspace file is moved as it is, the placeholders still in it;
    the command is launched all the same. *)
Theorem start_moves_file_unchanged_on_newline (env : environment) (home : string)
    (args : list text) (fs : filesystem) (content u v : text) :
  proxy_location env = u ++ newline :: v →
  unbroken u →
  files fs !! workspace = Some content →
  ∃ l, start env home args fs = Some l
     ∧ command l = args
     ∧ files (at_launch l) !! default_workspace home = Some content
     ∧ files (at_launch l) !! workspace = None.
Proof.
  intros Hloc Hu Hfile.
  assert (parse_script (sed_script env) = Rejected) as Hp.
  { rewrite sed_script_parts, Hloc.
    change (parse_script (text_of "s|" ++ placeholder ++ text_of "|"
                            ++ (u ++ newline :: v) ++ text_of "|g"))
      with (match parse_replacement "|" ((u ++ newline :: v) ++ text_of "|g") with
            | Parsed (repl, flags) =>
                if bool_decide (flags = text_of "g")
                then Parsed {| regex := placeholder; replacement := repl |}
                else Unmodelled
            | Rejected => Rejected
            | Unmodelled => Unmodelled
            end).
    rewrite <- app_assoc. simpl. by rewrite parse_replacement_newline. }
  eexists. split; [by apply start_rejected|]. split; [done|]. simpl.
  split; [by rewrite lookup_insert_eq|].
  pose proof (workspace_not_default home).
  rewrite lookup_insert_ne by done. apply lookup_delete_eq.
Qed.

Lemma start_moves_file_unchanged_on_newline_witness :
  ∃ l, start (<["JUPYTERHUB_USER" := text_of "a" ++ [newline]]> ∅) "/home/jovyan"
         [text_of "jupyter"] (checkout "DASK_DASHBOARD_URL") = Some l
     ∧ command l = [text_of "jupyter"]
     ∧ files (at_launch l) !! default_workspace "/home/jovyan"
       = Some (text_of "DASK_DASHBOARD_URL")
     ∧ files (at_launch l) !! workspace = None.
Proof.
  apply (start_moves_file_unchanged_on_newline
           (<["JUPYTERHUB_USER" := text_of "a" ++ [newline]]> ∅) "/home/jovyan"
           [text_of "jupyter"] (checkout "DASK_DASHBOARD_URL")
           (text_of "DASK_DASHBOARD_URL") (text_of "user/a") (text_of "/proxy/8787")).
  - reflexivity.
  - repeat constructor.
  - reflexivity.
Defined.

End StartEdgeFacts.

(** * The loop and the bag of the resilience notebook *)

Section ResilienceLoopFacts.
Import Resilience ResilienceLoop.
Local Open Scope Z_scope.

Lemma kill_a_worker_length (non_preemptible : list Z) (ws : workers) (r : nat) :
  length (kill_a_worker non_preemptible ws r)
  = if decide (preemptible_workers non_preemptible ws = []) then 0%nat else 1%nat.
Proof.
  case_decide as H.
  - unfold kill_a_worker. unfold preemptible_workers in H. by rewrite H.
  - destruct (kill_a_worker_sends non_preemptible ws r) as [p ->]; done.
Qed.

Lemma kill_loop_length (non_preemptible : list Z) (turns : list (workers * nat)) :
  length (kill_loop non_preemptible turns)
  = length (filter (λ t, preemptible_workers non_preemptible t.1 ≠ []) turns).
Proof.
  unfold kill_loop. induction turns as [|[ws r] turns IH]; [done|].
  simpl. rewrite length_app, IH, kill_a_worker_length.
  rewrite filter_cons. simpl. repeat case_decide; simpl; try done; try tauto.
Qed.


Lemma preemptible_workers_nil (non_preemptible : list Z) (ws : workers) :
  (∀ w, w ∈ ws → pid w ∈ non_preemptible) →
  preemptible_workers non_preemptible ws = [].
Proof.
  unfold preemptible_workers. induction ws as [|w ws IH]; intros H; [done|].
  rewrite fmap_cons, filter_cons_False.
  - apply IH. intros w' Hw'. apply H. by right.
  - intros Hw. apply Hw, H. left.
Qed.

(** X7: with two workers or fewer at the start, every worker is marked
    non-preemptible, and as long as the cluster holds only workers of the
    start the whole run sends no signal. *)
Theorem no_signal_when_all_workers_marked (n : nat) (x : bag) (initial : workers)
    (turns : list (workers * nat)) :
  (length initial ≤ 2)%nat →
  Forall (λ t, t.1 ⊆ initial) turns →
  non_preemptible_workers initial = all_current_workers initial
  ∧ signals (notebook_run n x initial turns) = [].
Proof.
  intros Hlen Hturns.
  assert (non_preemptible_workers initial = all_current_workers initial) as Hnp.
  { unfold non_preemptible_workers. apply take_ge.
    unfold all_current_workers. by rewrite length_fmap. }
  split; [done|]. simpl. rewrite Hnp. apply length_zero_iff_nil.
  rewrite kill_loop_length. apply length_zero_iff_nil.
  induction Hturns as [|[ws r] turns Hws _ IH]; [done|].
  rewrite filter_cons_False; [done|]. simpl in *. intros Hne. apply Hne.
  apply preemptible_workers_nil. intros w Hw.
  apply list_elem_of_fmap. exists w. split; [done|]. by apply Hws.
Qed.

Lemma no_signal_when_all_workers_marked_witness :
  non_preemptible_workers [{| pid := 701 |}; {| pid := 702 |}]
    = all_current_workers [{| pid := 701 |}; {| pid := 702 |}]
  ∧ signals (notebook_run 400 [range 400] [{| pid := 701 |}; {| pid := 702 |}]
               [([{| pid := 702 |}; {| pid := 701 |}], 5%nat); ([{| pid := 701 |}], 0%nat)])
    = [].
Proof.
  apply no_signal_when_all_workers_marked.
  - simpl. lia.
  - apply Forall_cons_2; [|apply Forall_cons_2; [|apply Forall_nil_2]];
      intros w; simpl; rewrite !elem_of_cons, !elem_of_nil; tauto.
Defined.




End ResilienceLoopFacts.

(** * Evolving workflows: the four ways give the same items *)

Section EvolvingWorkflowsFacts.
Import EvolvingWorkflows.

(** A loop that appends one item per turn appends the mapped list. *)
Lemma foldl_append {A B : Type} (g : A → B) (xs : list A) (acc : list B) :
  foldl (λ acc x, acc ++ [g x]) acc xs = acc ++ (g <$> xs).
Proof.
  revert acc. induction xs as [|x xs IH]; intros acc; simpl.
  - by rewrite app_nil_r.
  - rewrite IH. by rewrite <- app_assoc.
Qed.

Lemma foldl_app_concat {A : Type} (ls : list (list A)) (acc : list A) :
  foldl app acc ls = acc ++ concat ls.
Proof.
  revert acc. induction ls as [|l ls IH]; intros acc; simpl.
  - by rewrite app_nil_r.
  - rewrite IH. by rewrite <- app_assoc.
Qed.

Lemma concat_fmap_bind {A B : Type} (h : A → list B) (l : list A) :
  concat (h <$> l) = l ≫= h.
Proof.
  induction l as [|x l IH]; [done|].
  rewrite fmap_cons, bind_cons. simpl. by f_equal.
Qed.

(** The items of a run, file by file. *)
Lemma sequential_items (parse_file : string → list float) (filenames : list string) :
  sequential parse_file filenames
  = filenames ≫= λ fn, process_item <$> parse_file fn.
Proof.
  unfold sequential.
  cut (∀ acc, foldl (λ results fn,
                let L := parse_file fn in
                foldl (λ results x, let out := process_item x in results ++ [out])
                  results L) acc filenames
              = acc ++ (filenames ≫= λ fn, process_item <$> parse_file fn)).
  { intros H. by rewrite H. }
  induction filenames as [|fn fns IH]; intros acc; simpl.
  - by rewrite app_nil_r.
  - rewrite IH. rewrite (foldl_append process_item). by rewrite <- app_assoc.
Qed.

(** Taking the items of a list one by one, by index, gives the list. *)
Lemma for_loop_getitem {A B : Type} (g : A → B) (L : list A) (k n : nat)
    (acc : list B) :
  k + n ≤ length L →
  for_loop (seq k n) (λ futures i, new ← L !! i; Some (futures ++ [g new])) acc
  = Some (acc ++ (g <$> take n (drop k L))).
Proof.
  revert k acc. induction n as [|n IH]; intros k acc Hk; simpl.
  - by rewrite app_nil_r.
  - destruct (lookup_lt_is_Some_2 L k) as [x Hx]; [lia|].
    rewrite Hx. simpl. rewrite IH by lia.
    rewrite (drop_S L x k Hx). simpl. by rewrite <- app_assoc.
Qed.

Lemma mapM_getitem {A : Type} (L : list A) :
  mapM (λ i, L !! i) (seq 0 (length L)) = Some L.
Proof.
  apply mapM_Some. apply Forall2_lookup. intros i.
  destruct (decide (i < length L)) as [Hi|Hi].
  - rewrite lookup_seq_lt by done.
    destruct (lookup_lt_is_Some_2 L i Hi) as [x Hx]. rewrite Hx.
    constructor. done.
  - rewrite lookup_seq_ge by lia. rewrite lookup_ge_None_2 by lia. constructor.
Qed.

(** The items that [as_completed] collects, in the order of completion. *)
Lemma with_as_completed_items (parse_file : string → list float)
    (filenames : list string) (order : list nat) :
  Forall (λ j, j < length filenames) order →
  with_as_completed parse_file filenames order
  = Some (order ≫= λ j,
            default [] ((λ fn, process_item <$> parse_file fn) <$> filenames !! j)).
Proof.
  intros Horder. unfold with_as_completed.
  cut (∀ acc,
    for_loop order (λ futures future,
      n ← (length <$> (parse_file <$> filenames)) !! future;
      L ← (parse_file <$> filenames) !! future;
      for_loop (seq 0 n) (λ futures i,
        new ← L !! i;
        let new := process_item new in
        Some (futures ++ [new])) futures) acc
    = Some (acc ++ (order ≫= λ j,
              default [] ((λ fn, process_item <$> parse_file fn) <$> filenames !! j)))).
  { intros H. by rewrite H. }
  induction Horder as [|j order Hj _ IH]; intros acc.
  - simpl. by rewrite app_nil_r.
  - destruct (lookup_lt_is_Some_2 filenames j Hj) as [fn Hfn].
    cbn [for_loop]. rewrite !list_lookup_fmap, Hfn. simpl.
    rewrite (for_loop_getitem process_item (parse_file fn) 0); [|lia].
    simpl. rewrite IH, Hfn, drop_0, firstn_all. simpl. by rewrite <- app_assoc.
Qed.

Lemma bind_lookup_seq {A B : Type} (h : A → list B) (l : list A) :
  (seq 0 (length l) ≫= λ j, default [] (h <$> l !! j)) = l ≫= h.
Proof.
  induction l as [|x l IH] using rev_ind; [done|].
  rewrite length_app. simpl. rewrite Nat.add_1_r, seq_S, !bind_app. simpl.
  rewrite app_nil_r. f_equal.
  - rewrite <- IH. apply Forall_bind_ext, Forall_forall. intros j Hj.
    apply elem_of_seq in Hj. by rewrite lookup_app_l by lia.
  - rewrite lookup_app_r by lia. by rewrite Nat.sub_diag, app_nil_r.
Qed.

(** X9: the coroutines of section 2 return exactly the items of the
    sequential code, in its order, and the tasks of section 3 return them
    as one list per file: concatenated, they are the sequential results. *)
Theorem run_all_and_tasks_as_sequential (parse_file : string → list float)
    (filenames : list string) :
  run_all parse_file filenames = Some (sequential parse_file filenames)
  ∧ concat (from_tasks parse_file filenames) = sequential parse_file filenames
  ∧ length (from_tasks parse_file filenames) = length filenames.
Proof.
  rewrite sequential_items. split; [|split].
  - unfold run_all.
    assert (mapM (f parse_file) filenames
            = Some ((λ fn, process_item <$> parse_file fn) <$> filenames)) as ->.
    { apply mapM_Some. apply Forall2_fmap_r, Forall_Forall2_diag, Forall_forall.
      intros fn _. unfold f. by rewrite mapM_getitem. }
    simpl. f_equal. rewrite foldl_app_concat. simpl. apply concat_fmap_bind.
  - unfold from_tasks, f_task. apply concat_fmap_bind.
  - unfold from_tasks. by rewrite length_fmap.
Qed.

(** X10: with [as_completed], whatever the order in which the files
    complete, the loop raises no error and gathers the items of the
    sequential code file by file in the order of completion: for every
    position of [order] in turn, the processed items of the file at that
    position, in the file's own order.  This is a permutation of the
    sequential results, and the same list when the files complete in the
    order of submission. *)
Theorem with_as_completed_permutes_sequential (parse_file : string → list float)
    (filenames : list string) (order : list nat) :
  order ≡ₚ seq 0 (length filenames) →
  ∃ results,
    with_as_completed parse_file filenames order = Some results
    ∧ results
      = (order ≫= λ j,
           default [] ((λ fn, process_item <$> parse_file fn) <$> filenames !! j))
    ∧ results ≡ₚ sequential parse_file filenames
    ∧ (order = seq 0 (length filenames) → results = sequential parse_file filenames).
Proof.
  intros Hperm. eexists. split; [|split; [reflexivity|split]].
  - apply with_as_completed_items. rewrite Hperm. apply Forall_forall.
    intros j Hj. apply elem_of_seq in Hj. lia.
  - rewrite Hperm. by rewrite bind_lookup_seq, sequential_items.
  - intros ->. by rewrite bind_lookup_seq, sequential_items.
Qed.

Lemma with_as_completed_permutes_sequential_witness :
  ∃ results,
    with_as_completed (λ fn, if bool_decide (fn = "file.1.txt") then [0.5%float]
                             else [0.25%float; 0.75%float])
      ["file.0.txt"; "file.1.txt"] [1; 0] = Some results
    ∧ results
      = ([1; 0] ≫= λ j,
           default []
             ((λ fn, process_item
                       <$> (if bool_decide (fn = "file.1.txt") then [0.5%float]
                            else [0.25%float; 0.75%float]))
                <$> ["file.0.txt"; "file.1.txt"] !! j))
    ∧ results ≡ₚ sequential (λ fn, if bool_decide (fn = "file.1.txt") then [0.5%float]
                                   else [0.25%float; 0.75%float])
                   ["file.0.txt"; "file.1.txt"]
    ∧ ([1; 0] = seq 0 (length ["file.0.txt"; "file.1.txt"]) →
       results = sequential (λ fn, if bool_decide (fn = "file.1.txt") then [0.5%float]
                                   else [0.25%float; 0.75%float])
                   ["file.0.txt"; "file.1.txt"]).
Proof.
  apply (with_as_completed_permutes_sequential
           (λ fn, if bool_decide (fn = "file.1.txt") then [0.5%float]
                  else [0.25%float; 0.75%float])
           ["file.0.txt"; "file.1.txt"] [1; 0]).
  simpl. apply Permutation_swap.
Defined.

(** The run of the sample above: the one item of the second file comes
    first, then the two of the first file. *)
Lemma with_as_completed_sample :
  with_as_completed (λ fn, if bool_decide (fn = "file.1.txt") then [0.5%float]
                           else [0.25%float; 0.75%float])
    ["file.0.txt"; "file.1.txt"] [1; 0]
  = Some [1.5%float; 1.25%float; 1.75%float].
Proof. reflexivity. Qed.

(** A position that [as_completed] could not have yielded raises. *)
Lemma with_as_completed_foreign_future (parse_file : string → list float)
    (filenames : list string) (j : nat) (order : list nat) :
  length filenames ≤ j →
  with_as_completed parse_file filenames (j :: order) = None.
Proof.
  intros Hj. unfold with_as_completed. cbn [for_loop].
  rewrite !list_lookup_fmap. by rewrite lookup_ge_None_2 by done.
Qed.

(** X11: the sequential code returns at least one and at most ten results
    per file; for the notebook's ten file names, between 10 and 100. *)
Theorem sequential_length_bounds (parse_file : string → list float)
    (fns : list string) :
  (∀ fn, fn ∈ fns → parse_file_returns (parse_file fn)) →
  length fns ≤ length (sequential parse_file fns) ≤ 10 * length fns
  ∧ (fns = filenames → 10 ≤ length (sequential parse_file fns) ≤ 100).
Proof.
  intros Hpf.
  assert (length fns ≤ length (sequential parse_file fns) ≤ 10 * length fns) as H.
  { rewrite sequential_items. induction fns as [|fn fns IH]; [simpl; lia|].
    rewrite bind_cons, length_app, length_fmap. simpl.
    destruct (Hpf fn) as [[??] _]; [left|].
    assert (∀ fn', fn' ∈ fns → parse_file_returns (parse_file fn')) as Hpf'.
    { intros fn' ?. apply Hpf. by right. }
    specialize (IH Hpf'). lia. }
  split; [done|]. intros ->. change (length filenames) with 10 in H. lia.
Qed.

Lemma sequential_length_bounds_witness :
  length filenames ≤ length (sequential (λ _, [0.5%float; 0.25%float]) filenames)
    ≤ 10 * length filenames
  ∧ (filenames = filenames →
     10 ≤ length (sequential (λ _, [0.5%float; 0.25%float]) filenames) ≤ 100).
Proof.
  apply sequential_length_bounds. intros fn _. split.
  - simpl. lia.
  - repeat constructor.
Defined.

End EvolvingWorkflowsFacts.

(** * Embarrassingly parallel workloads *)

Section EmbarrassinglyParallelFacts.
Import EmbarrassinglyParallel.

Lemma append_results_map (results : list float) (rows : list (list float)) :
  append_results results rows = results ++ (costly_simulation <$> rows).
Proof. apply (foldl_append costly_simulation). Qed.

Lemma lazy_results_map (rows : list (list float)) :
  lazy_results rows = (λ parameters, (costly_simulation, parameters)) <$> rows.
Proof.
  unfold lazy_results.
  by rewrite (foldl_append (λ parameters, (costly_simulation, parameters))).
Qed.

(** X12: every way the notebook runs the simulations gives the same
    results in the order of the rows: the delayed calls once computed, the
    futures submitted in a loop, [client.map], and the bag however it is cut
    into partitions all give [costly_simulation] of every row; the sample
    loop over [values[:10]] gives the first ten of these (all of them when
    there are fewer than ten rows). *)
Theorem simulations_agree (values : list (list float))
    (b : list (list (list float))) :
  from_sequence values b →
  compute (lazy_results values) = gathered_map values
  ∧ gathered_futures values = gathered_map values
  ∧ results_bag b = gathered_map values
  ∧ sample_results values = take 10 (gathered_map values)
  ∧ compute (lazy_results (take 10 values)) = sample_results values
  ∧ length (sample_results values) = length values `min` 10.
Proof.
  unfold from_sequence. intros Hb.
  assert (sample_results values = take 10 (gathered_map values)) as Hs.
  { unfold sample_results, gathered_map. rewrite append_results_map. simpl.
    by rewrite fmap_take. }
  assert (∀ rows, compute (lazy_results rows) = costly_simulation <$> rows) as Hc.
  { intros rows. unfold compute. rewrite lazy_results_map.
    rewrite <- list_fmap_compose. done. }
  split; [apply Hc|]. split; [|split; [|split; [done|split]]].
  - unfold gathered_futures. by rewrite (foldl_append costly_simulation).
  - unfold results_bag, gathered_map. rewrite <- Hb. clear Hb.
    induction b as [|p b IH]; [done|]. simpl. rewrite fmap_app. by f_equal.
  - rewrite Hc, Hs. unfold gathered_map. by rewrite fmap_take.
  - rewrite Hs. unfold gathered_map. rewrite length_take, length_fmap. lia.
Qed.

Lemma simulations_agree_witness :
  compute (lazy_results [[0.5%float; 0.25%float]; [1%float]; []])
    = gathered_map [[0.5%float; 0.25%float]; [1%float]; []]
  ∧ gathered_futures [[0.5%float; 0.25%float]; [1%float]; []]
    = gathered_map [[0.5%float; 0.25%float]; [1%float]; []]
  ∧ results_bag [[[0.5%float; 0.25%float]]; [[1%float]; []]]
    = gathered_map [[0.5%float; 0.25%float]; [1%float]; []]
  ∧ sample_results [[0.5%float; 0.25%float]; [1%float]; []]
    = take 10 (gathered_map [[0.5%float; 0.25%float]; [1%float]; []])
  ∧ compute (lazy_results (take 10 [[0.5%float; 0.25%float]; [1%float]; []]))
    = sample_results [[0.5%float; 0.25%float]; [1%float]; []]
  ∧ length (sample_results [[0.5%float; 0.25%float]; [1%float]; []])
    = length [[0.5%float; 0.25%float]; [1%float]; []] `min` 10.
Proof. apply simulations_agree. reflexivity. Defined.

End EmbarrassinglyParallelFacts.

(** * File names by date *)

Section DataAccessFacts.
Import DataAccess.
Local Open Scope Z_scope.

Lemma days_in_month_bounds (y m : Z) : 28 ≤ days_in_month y m ≤ 31.
Proof.
  unfold days_in_month.
  destruct (m =? 2); [destruct (is_leap y); lia|].
  destruct ((m =? 4) || (m =? 6) || (m =? 9) || (m =? 11)); lia.
Qed.

Lemma next_day_later (d d' : date) :
  valid d → next_day d = Some d' → valid d' ∧ date_lt d d'.
Proof.
  unfold valid, next_day, date_lt. intros (Hy & Hm & Hd).
  destruct (Z.ltb_spec (day d) (days_in_month (year d) (month d))).
  { intros [= <-]. simpl. lia. }
  destruct (Z.ltb_spec (month d) 12).
  { intros [= <-]. simpl.
    pose proof (days_in_month_bounds (year d) (month d + 1)). lia. }
  destruct (Z.ltb_spec (year d) 9999); [|done].
  intros [= <-]. simpl. pose proof (days_in_month_bounds (year d + 1) 1). lia.
Qed.

Lemma date_lt_trans (a b c : date) : date_lt a b → date_lt b c → date_lt a c.
Proof. unfold date_lt. lia. Qed.

Lemma repeat_day_later (n : nat) (d d' : date) :
  valid d → repeat_day next_day n d = Some d' →
  valid d' ∧ (n = 0%nat ∧ d' = d ∨ (0 < n)%nat ∧ date_lt d d').
Proof.
  revert d. induction n as [|n IH]; intros d Hd; simpl.
  - intros [= <-]. auto.
  - destruct (next_day d) as [d1|] eqn:H1; [|done]. simpl. intros Hn.
    destruct (next_day_later d d1 Hd H1) as [Hv1 Hlt1].
    destruct (IH d1 Hv1 Hn) as [Hv' [[-> ->]|[_ Hlt]]].
    + split; [done|]. right. split; [lia|done].
    + split; [done|]. right. split; [lia|]. by eapply date_lt_trans.
Qed.

Lemma repeat_day_add (step : date → option date) (n m : nat) (d : date) :
  repeat_day step (n + m) d = repeat_day step n d ≫= repeat_day step m.
Proof.
  revert d. induction n as [|n IH]; intros d; simpl; [done|].
  destruct (step d) as [d1|]; simpl; [apply IH | done].
Qed.

Lemma digit_compare (x y : Z) :
  0 ≤ x < 10 → 0 ≤ y < 10 → Ascii.compare (digit x) (digit y) = (x ?= y).
Proof.
  intros Hx Hy.
  assert (x = 0 ∨ x = 1 ∨ x = 2 ∨ x = 3 ∨ x = 4 ∨ x = 5 ∨ x = 6 ∨ x = 7 ∨ x = 8 ∨ x = 9)
    as Hx' by lia.
  assert (y = 0 ∨ y = 1 ∨ y = 2 ∨ y = 3 ∨ y = 4 ∨ y = 5 ∨ y = 6 ∨ y = 7 ∨ y = 8 ∨ y = 9)
    as Hy' by lia.
  clear Hx Hy.
  repeat (destruct Hx' as [->|Hx']); try subst x;
    repeat (destruct Hy' as [->|Hy']); try subst y; reflexivity.
Qed.

(** A number below 10000 is its four decimal digits, one below 100 its
    two. *)
Lemma four_digits (y : Z) :
  0 ≤ y ≤ 9999 →
  y = 1000 * (y / 1000 mod 10) + 100 * (y / 100 mod 10) + 10 * (y / 10 mod 10) + y mod 10
  ∧ 0 ≤ y / 1000 mod 10 < 10 ∧ 0 ≤ y / 100 mod 10 < 10
  ∧ 0 ≤ y / 10 mod 10 < 10 ∧ 0 ≤ y mod 10 < 10.
Proof. intros. Z.to_euclidean_division_equations. lia. Qed.

Lemma two_digits (m : Z) :
  0 ≤ m ≤ 99 → m = 10 * (m / 10) + m mod 10 ∧ 0 ≤ m / 10 < 10 ∧ 0 ≤ m mod 10 < 10.
Proof. intros. Z.to_euclidean_division_equations. lia. Qed.

(** The ISO format keeps the order of the calendar. *)
Lemma str_lt (a b : date) :
  valid a → valid b → date_lt a b → String.compare (str a) (str b) = Lt.
Proof.
  unfold valid, date_lt. intros (Hya & Hma & Hda) (Hyb & Hmb & Hdb) Hlt.
  pose proof (days_in_month_bounds (year a) (month a)).
  pose proof (days_in_month_bounds (year b) (month b)).
  destruct (four_digits (year a)) as (Ea & ? & ? & ? & ?); [lia|].
  destruct (four_digits (year b)) as (Eb & ? & ? & ? & ?); [lia|].
  destruct (two_digits (month a)) as (Ema & ? & ?); [lia|].
  destruct (two_digits (month b)) as (Emb & ? & ?); [lia|].
  destruct (two_digits (day a)) as (Eda & ? & ?); [lia|].
  destruct (two_digits (day b)) as (Edb & ? & ?); [lia|].
  unfold str. cbn [String.string_of_list_ascii String.compare].
  rewrite !digit_compare by done.
  change (Ascii.compare "-" "-") with Eq. cbv iota.
  repeat match goal with
  | |- context [?x ?= ?y] =>
      destruct (Z.compare_spec x y); [| reflexivity | exfalso; lia]
  end.
  exfalso. lia.
Qed.

Lemma valid_new_year_2000 : valid {| year := 2000; month := 1; day := 1 |}.
Proof. unfold valid. change (days_in_month _ _) with 31. simpl. lia. Qed.

(** X13: the function does what its docstring shows, [name(0)] is
    ['2000-01-01'] and [name(10)] is ['2000-01-11'], and the indices 0 to 30
    name the 31 days of January 2000 in order. *)
Theorem name_january (i : Z) :
  0 ≤ i ≤ 30 →
  name i = Some (str {| year := 2000; month := 1; day := i + 1 |})
  ∧ name 0 = Some "2000-01-01"%string
  ∧ name 10 = Some "2000-01-11"%string.
Proof.
  intros Hi. split; [|split; reflexivity].
  assert (∃ n : nat, (n ≤ 30)%nat ∧ i = Z.of_nat n) as (n & Hn & ->).
  { exists (Z.to_nat i). lia. }
  do 31 (destruct n as [|n]; [reflexivity|]). lia.
Qed.

Lemma name_january_witness :
  name 29 = Some (str {| year := 2000; month := 1; day := 29 + 1 |})
  ∧ name 0 = Some "2000-01-01"%string
  ∧ name 10 = Some "2000-01-11"%string.
Proof. apply name_january. lia. Defined.

(** X14: for indices from 0 on, a larger index gives a name that sorts
    after, in the order of strings, as long as the dates stay in range:
    the files of the partitions sort in the order of the partitions, and no
    two partitions share a file. *)
Theorem name_increasing (i j : Z) (a b : string) :
  0 ≤ i < j → name i = Some a → name j = Some b →
  String.compare a b = Lt ∧ a ≠ b.
Proof.
  intros Hij. unfold name, add_days.
  rewrite !(proj2 (Z.leb_le _ _)) by lia.
  replace (Z.to_nat j) with (Z.to_nat i + Z.to_nat (j - i))%nat by lia.
  rewrite repeat_day_add.
  destruct (repeat_day next_day (Z.to_nat i) _) as [da|] eqn:Hda; [|done].
  simpl. intros [= <-].
  destruct (repeat_day next_day (Z.to_nat (j - i)) da) as [db|] eqn:Hdb; [|done].
  simpl. intros [= <-].
  destruct (repeat_day_later _ _ _ valid_new_year_2000 Hda) as [Hva _].
  destruct (repeat_day_later _ _ _ Hva Hdb) as [Hvb [[Hz _]|[_ Hlt]]]; [lia|].
  pose proof (str_lt da db Hva Hvb Hlt) as Hc. split; [done|].
  intros Heq. rewrite Heq in Hc.
  pose proof (String.compare_antisym (str db) (str db)) as Ha.
  rewrite Hc in Ha. discriminate Ha.
Qed.

Lemma name_increasing_witness :
  String.compare "2000-01-30" "2000-02-01" = Lt
  ∧ "2000-01-30"%string ≠ "2000-02-01"%string.
Proof.
  apply (name_increasing 29 31); [lia | reflexivity | reflexivity].
Defined.

End DataAccessFacts.
